(** * RehabRight: the exercise analysis engine

    A shallow embedding of [src/lib/pose-detection.ts] ([calculateAngle],
    [getKeyLandmarks]) and of [src/lib/exercise-rules.ts] (the
    [ExerciseAnalyzer] class with its two policies, [reset] and
    [getRepData], and the [EXERCISE_CONFIGS] registry), then of what is
    around the engine: the [PoseDetector] class of [pose-detection.ts]
    (life cycle and [drawPose]), the store of [src/store/pose-store.ts],
    [handleSelectExercise] of [src/components/ExerciseSelector.tsx], the
    detection pass of [src/pages/LiveSession.tsx] and the display rules of
    [src/components/PoseOverlay.tsx]; followed by the properties.

    Conventions of the embedding.
    - A JavaScript [number] that holds a coordinate or an angle is a real
      number: the geometry is the one of exact arithmetic, with
      [Math.atan2] the mathematical two-argument arctangent.  Rounding,
      infinities and NaN are outside the model.  The theorems state how a
      call treats the values it computed (comparisons, ranges, counts,
      messages); an equality between a computed angle and its exact
      value is a fact of exact arithmetic, which the double computation
      meets up to rounding only.
    - A [number] that only ever holds an integer (counters, scores,
      priorities, timestamps) is a [Z].
    - [undefined] is [None]; reading a member of [undefined] throws
      [TypeError], and a thrown exception leaves the fields of the analyzer
      as they were at the point of the throw.
    - [Date.now()] is an input of the call that reads it.
    - A canvas is the list of the calls made on its 2D context.
    - The store is the record of its fields, an action a function on it.
    - Asynchronous methods are embedded for calls that run one after the
      other; what the MediaPipe library answers is an input of the call. *)

From Stdlib Require Import Reals Lra Lia ZArith List String Bool.
From Stdlib Require Import Permutation Sorted.
Import ListNotations.

(* ================================================================== *)
(** ** JavaScript values and exceptions *)

Inductive JsError : Type :=
| TypeError.

Inductive outcome (A : Type) : Type :=
| Returned (a : A)
| Thrown (e : JsError).

Arguments Returned {A} a.
Arguments Thrown {A} e.

Definition bind {A B : Type} (c : outcome A) (k : A -> outcome B) : outcome B :=
  match c with
  | Returned a => k a
  | Thrown e => Thrown e
  end.

Notation "x <- c ;; k" := (bind c (fun x => k))
  (at level 61, c at next level, right associativity).

(** [o.f] for an object reference [o] that may be [undefined]. *)
Definition member {T A : Type} (f : T -> A) (o : option T) : outcome A :=
  match o with
  | Some v => Returned (f v)
  | None => Thrown TypeError
  end.

(** [a < b], [a > b] and [a <= b] on numbers, as booleans. *)
Definition Rltb (a b : R) : bool := if Rlt_dec a b then true else false.
Definition Rgtb (a b : R) : bool := if Rgt_dec a b then true else false.
Definition Rleb (a b : R) : bool := if Rle_dec a b then true else false.

(** [Math.atan2(y, x)]: the angle of the vector [(x, y)], in (-PI, PI], and
    [0] at the origin. *)
Definition atan2 (y x : R) : R :=
  if Rlt_dec 0 x then atan (y / x)
  else if Rlt_dec x 0 then
    if Rle_dec 0 y then (atan (y / x) + PI)%R else (atan (y / x) - PI)%R
  else if Rlt_dec 0 y then (PI / 2)%R
  else if Rlt_dec y 0 then (- PI / 2)%R
  else 0%R.

(* ================================================================== *)
(** ** pose-detection.ts *)

Module PoseLandmark.
Record t : Type := mk {
  x : R;
  y : R;
  z : R;
  visibility : option R
}.
End PoseLandmark.

(** A frame is the array the estimator returns for one body; a slot that is
    a hole, holds [undefined] or lies beyond the length reads [undefined]. *)
Definition Frame : Type := list (option PoseLandmark.t).

Definition index (landmarks : Frame) (i : nat) : option PoseLandmark.t :=
  match nth_error landmarks i with
  | Some slot => slot
  | None => None
  end.

Definition calculateAngle (point1 point2 point3 : option PoseLandmark.t)
  : outcome R :=
  p3y <- member PoseLandmark.y point3 ;;
  p2y <- member PoseLandmark.y point2 ;;
  p3x <- member PoseLandmark.x point3 ;;
  p2x <- member PoseLandmark.x point2 ;;
  p1y <- member PoseLandmark.y point1 ;;
  p1x <- member PoseLandmark.x point1 ;;
  let radians := (atan2 (p3y - p2y) (p3x - p2x) - atan2 (p1y - p2y) (p1x - p2x))%R in
  let angle := Rabs (radians * (180 / PI)) in
  Returned (if Rgt_dec angle 180 then (360 - angle)%R else angle).

Record KeyLandmarks : Type := {
  leftShoulder : option PoseLandmark.t;
  rightShoulder : option PoseLandmark.t;
  leftElbow : option PoseLandmark.t;
  rightElbow : option PoseLandmark.t;
  leftWrist : option PoseLandmark.t;
  rightWrist : option PoseLandmark.t;
  leftHip : option PoseLandmark.t;
  rightHip : option PoseLandmark.t;
  leftKnee : option PoseLandmark.t;
  rightKnee : option PoseLandmark.t;
  leftAnkle : option PoseLandmark.t;
  rightAnkle : option PoseLandmark.t;
  nose : option PoseLandmark.t;
  leftEye : option PoseLandmark.t;
  rightEye : option PoseLandmark.t
}.

Definition getKeyLandmarks (landmarks : Frame) : KeyLandmarks :=
  {| leftShoulder := index landmarks 11;
     rightShoulder := index landmarks 12;
     leftElbow := index landmarks 13;
     rightElbow := index landmarks 14;
     leftWrist := index landmarks 15;
     rightWrist := index landmarks 16;
     leftHip := index landmarks 23;
     rightHip := index landmarks 24;
     leftKnee := index landmarks 25;
     rightKnee := index landmarks 26;
     leftAnkle := index landmarks 27;
     rightAnkle := index landmarks 28;
     nose := index landmarks 0;
     leftEye := index landmarks 1;
     rightEye := index landmarks 2 |}.

(* ================================================================== *)
(** ** exercise-rules.ts: the data *)

Module Thresholds.
Record t : Type := mk {
  depth : option R;
  valgusLimit : option R;
  leanLimit : option R;
  romMin : option R;
  romMax : option R;
  symmetryLimit : option R
}.
End Thresholds.

Record ExerciseConfig : Type := {
  name : string;
  targetReps : Z;
  thresholds : Thresholds.t
}.

Module FeedbackMessage.
Inductive kind : Type := success | warning | error | info.
Record t : Type := mk {
  type : kind;
  message : string;
  priority : Z
}.
End FeedbackMessage.

Module Angles.
Record t : Type := mk {
  knee : R;
  hip : R;
  shoulder : R
}.
End Angles.

Module RepData.
Record t : Type := mk {
  repIndex : Z;
  angles : Angles.t;
  flags : list string;
  score : Z;
  timestamp : Z
}.
End RepData.

(** The object both policies return. *)
Module Analysis.
Record t : Type := mk {
  score : Z;
  feedback : list FeedbackMessage.t;
  repCount : Z;
  isInPosition : bool;
  angles : Angles.t
}.
End Analysis.

(** [lastPosition] is only ever assigned ['up'] or ['down'] (capitalised
    here: [up] is a function of the library of real numbers). *)
Inductive Position : Type := Up | Down.

Definition Position_eqb (p q : Position) : bool :=
  match p, q with
  | Up, Up | Down, Down => true
  | _, _ => false
  end.

(** The private fields of [ExerciseAnalyzer]. *)
Record AnalyzerState : Type := mkState {
  repCount : Z;
  currentScore : Z;
  lastPosition : Position;
  repData : list RepData.t;
  frameCount : Z
}.

(** The field initialisers of the class. *)
Definition newAnalyzer : AnalyzerState :=
  {| repCount := 0; currentScore := 0; lastPosition := Up;
     repData := []; frameCount := 0 |}.

(** Assignments to one field: [this.f = v]. *)
Definition set_repCount (v : Z) (this : AnalyzerState) : AnalyzerState :=
  {| repCount := v; currentScore := currentScore this;
     lastPosition := lastPosition this; repData := repData this;
     frameCount := frameCount this |}.

Definition set_currentScore (v : Z) (this : AnalyzerState) : AnalyzerState :=
  {| repCount := repCount this; currentScore := v;
     lastPosition := lastPosition this; repData := repData this;
     frameCount := frameCount this |}.

Definition set_lastPosition (v : Position) (this : AnalyzerState) : AnalyzerState :=
  {| repCount := repCount this; currentScore := currentScore this;
     lastPosition := v; repData := repData this;
     frameCount := frameCount this |}.

Definition set_repData (v : list RepData.t) (this : AnalyzerState) : AnalyzerState :=
  {| repCount := repCount this; currentScore := currentScore this;
     lastPosition := lastPosition this; repData := v;
     frameCount := frameCount this |}.

Definition set_frameCount (v : Z) (this : AnalyzerState) : AnalyzerState :=
  {| repCount := repCount this; currentScore := currentScore this;
     lastPosition := lastPosition this; repData := repData this;
     frameCount := v |}.

(* ================================================================== *)
(** ** exercise-rules.ts: ranking of the feedback

    [feedback.sort((a, b) => b.priority - a.priority)] is
    [Array.prototype.sort] with a consistent comparator: the stable sort by
    descending priority.  It is embedded as the insertion sort that puts
    a message in front of the first message it does not rank below. *)

Fixpoint insertByPriority (m : FeedbackMessage.t) (l : list FeedbackMessage.t)
  : list FeedbackMessage.t :=
  match l with
  | [] => [m]
  | h :: t =>
      if (FeedbackMessage.priority h - FeedbackMessage.priority m <=? 0)%Z
      then m :: h :: t
      else h :: insertByPriority m t
  end.

Fixpoint sortByPriority (l : list FeedbackMessage.t) : list FeedbackMessage.t :=
  match l with
  | [] => []
  | m :: t => insertByPriority m (sortByPriority t)
  end.

(** [feedback.sort(...).slice(0, 2)] *)
Definition rankFeedback (feedback : list FeedbackMessage.t)
  : list FeedbackMessage.t :=
  firstn 2 (sortByPriority feedback).

(** [a.push(v)] under a condition. *)
Definition pushIf {A : Type} (c : bool) (v : A) (a : list A) : list A :=
  if c then a ++ [v] else a.

(* ================================================================== *)
(** ** exercise-rules.ts: [analyzeSquat] *)

(** What lines 65-113 compute from the key landmarks of one frame. *)
Record SquatSignals : Type := {
  kneeAngle : R;
  hipAngle : R;
  isInBottomPosition : bool;
  hasGoodDepth : bool;
  leftValgus : bool;
  rightValgus : bool;
  torsoLean : R;
  excessiveLean : bool
}.

Definition valgus (sig : SquatSignals) : bool :=
  leftValgus sig || rightValgus sig.

Definition squatSignals (keyLandmarks : KeyLandmarks) : outcome SquatSignals :=
  (* Calculate key angles *)
  leftKneeAngle <- calculateAngle (leftHip keyLandmarks)
                     (leftKnee keyLandmarks) (leftAnkle keyLandmarks) ;;
  rightKneeAngle <- calculateAngle (rightHip keyLandmarks)
                      (rightKnee keyLandmarks) (rightAnkle keyLandmarks) ;;
  let kneeAngle := Rmin leftKneeAngle rightKneeAngle in
  hipAngle <- calculateAngle (leftShoulder keyLandmarks)
                (leftHip keyLandmarks) (leftKnee keyLandmarks) ;;
  (* Check squat depth *)
  let isInBottomPosition := Rltb kneeAngle 120 in
  let hasGoodDepth := Rltb kneeAngle 90 in
  (* Knee valgus check *)
  leftKneeX <- member PoseLandmark.x (leftKnee keyLandmarks) ;;
  leftAnkleX <- member PoseLandmark.x (leftAnkle keyLandmarks) ;;
  rightKneeX <- member PoseLandmark.x (rightKnee keyLandmarks) ;;
  rightAnkleX <- member PoseLandmark.x (rightAnkle keyLandmarks) ;;
  let leftValgus := Rltb leftKneeX (leftAnkleX - 0.02) in
  let rightValgus := Rgtb rightKneeX (rightAnkleX + 0.02) in
  (* Torso lean check *)
  lsx <- member PoseLandmark.x (leftShoulder keyLandmarks) ;;
  rsx <- member PoseLandmark.x (rightShoulder keyLandmarks) ;;
  lsy <- member PoseLandmark.y (leftShoulder keyLandmarks) ;;
  rsy <- member PoseLandmark.y (rightShoulder keyLandmarks) ;;
  lsz <- member PoseLandmark.z (leftShoulder keyLandmarks) ;;
  rsz <- member PoseLandmark.z (rightShoulder keyLandmarks) ;;
  let shoulderMidpoint :=
    PoseLandmark.mk ((lsx + rsx) / 2) ((lsy + rsy) / 2) ((lsz + rsz) / 2) None in
  lhx <- member PoseLandmark.x (leftHip keyLandmarks) ;;
  rhx <- member PoseLandmark.x (rightHip keyLandmarks) ;;
  lhy <- member PoseLandmark.y (leftHip keyLandmarks) ;;
  rhy <- member PoseLandmark.y (rightHip keyLandmarks) ;;
  lhz <- member PoseLandmark.z (leftHip keyLandmarks) ;;
  rhz <- member PoseLandmark.z (rightHip keyLandmarks) ;;
  let hipMidpoint :=
    PoseLandmark.mk ((lhx + rhx) / 2) ((lhy + rhy) / 2) ((lhz + rhz) / 2) None in
  let torsoLean :=
    Rabs (PoseLandmark.x shoulderMidpoint - PoseLandmark.x hipMidpoint) in
  let excessiveLean := Rgtb torsoLean 0.05 in
  Returned {| kneeAngle := kneeAngle; hipAngle := hipAngle;
              isInBottomPosition := isInBottomPosition;
              hasGoodDepth := hasGoodDepth;
              leftValgus := leftValgus; rightValgus := rightValgus;
              torsoLean := torsoLean; excessiveLean := excessiveLean |}.

(** The [RepData] object of lines 123-133, built from the fields as they
    are when the object is created. *)
Definition squatRep (now : Z) (sig : SquatSignals) (this : AnalyzerState)
  : RepData.t :=
  {| RepData.repIndex := repCount this;
     RepData.angles := Angles.mk (kneeAngle sig) (hipAngle sig) 0;
     RepData.flags :=
       pushIf (excessiveLean sig) "excessive_lean"%string
         (pushIf (valgus sig) "knee_valgus"%string
            (pushIf (negb (hasGoodDepth sig)) "shallow_squat"%string []));
     RepData.score := currentScore this;
     RepData.timestamp := now |}.

(** Rep counting, lines 115-136. *)
Definition squatRepCounting (now : Z) (sig : SquatSignals) (this : AnalyzerState)
  : AnalyzerState :=
  if isInBottomPosition sig && Position_eqb (lastPosition this) Up then
    set_lastPosition Down this
  else if negb (isInBottomPosition sig) && Position_eqb (lastPosition this) Down then
    let this := set_repCount (repCount this + 1) this in
    let this := set_lastPosition Up this in
    (* Store rep data *)
    let rep := squatRep now sig this in
    set_repData (repData this ++ [rep]) this
  else this.

Definition msgGoDeeper : FeedbackMessage.t :=
  FeedbackMessage.mk FeedbackMessage.warning
    "Go a bit deeper - aim for thighs parallel to floor" 3.
Definition msgGreatDepth : FeedbackMessage.t :=
  FeedbackMessage.mk FeedbackMessage.success "Great depth!" 1.
Definition msgKneesOut : FeedbackMessage.t :=
  FeedbackMessage.mk FeedbackMessage.error
    "Push your knees out - don't let them cave in" 4.
Definition msgChestUp : FeedbackMessage.t :=
  FeedbackMessage.mk FeedbackMessage.warning
    "Keep your chest up and back straight" 2.
Definition msgLookingGood : FeedbackMessage.t :=
  FeedbackMessage.mk FeedbackMessage.info
    "Looking good! Keep it controlled" 0.

(** Generate feedback, lines 138-183: the messages in the order they are
    pushed, and the score after the deductions (before the clamp). *)
Definition squatFeedback (sig : SquatSignals) (frameCount : Z)
  : list FeedbackMessage.t * Z :=
  let feedback : list FeedbackMessage.t := [] in
  let score := 100%Z in
  let '(feedback, score) :=
    if isInBottomPosition sig then
      if negb (hasGoodDepth sig)
      then (feedback ++ [msgGoDeeper], (score - 15)%Z)
      else (feedback ++ [msgGreatDepth], score)
    else (feedback, score) in
  let '(feedback, score) :=
    if valgus sig
    then (feedback ++ [msgKneesOut], (score - 20)%Z)
    else (feedback, score) in
  let '(feedback, score) :=
    if excessiveLean sig
    then (feedback ++ [msgChestUp], (score - 10)%Z)
    else (feedback, score) in
  (* Frame rate limiting for feedback *)
  let feedback :=
    if (Z.rem frameCount 30 =? 0)%Z then
      pushIf ((List.length feedback =? 0)%nat && isInBottomPosition sig)
        msgLookingGood feedback
    else feedback in
  (feedback, score).

Definition analyzeSquat (now : Z) (landmarks : Frame) (config : ExerciseConfig)
  (this : AnalyzerState) : AnalyzerState * outcome Analysis.t :=
  let keyLandmarks := getKeyLandmarks landmarks in
  let this := set_frameCount (frameCount this + 1) this in
  match squatSignals keyLandmarks with
  | Thrown e => (this, Thrown e)
  | Returned sig =>
      let this := squatRepCounting now sig this in
      let '(feedback, score) := squatFeedback sig (frameCount this) in
      let this := set_currentScore (Z.max 0 score) this in
      (this,
       Returned
         {| Analysis.score := currentScore this;
            Analysis.feedback := rankFeedback feedback;
            Analysis.repCount := repCount this;
            Analysis.isInPosition := isInBottomPosition sig;
            Analysis.angles := Angles.mk (kneeAngle sig) (hipAngle sig) 0 |})
  end.

(* ================================================================== *)
(** ** exercise-rules.ts: [analyzeShoulderAbduction] *)

(** What lines 207-236 compute from the key landmarks of one frame. *)
Record ShoulderSignals : Type := {
  leftShoulderAngle : R;
  rightShoulderAngle : R;
  avgShoulderAngle : R;
  shoulderSymmetry : R;
  angleDeviation : R;
  isInTargetRange : bool;
  isInPosition : bool;
  leftHiking : bool;
  rightHiking : bool
}.

Definition targetAngle : R := 90.

Definition hiking (sig : ShoulderSignals) : bool :=
  leftHiking sig || rightHiking sig.

Definition shoulderSignals (keyLandmarks : KeyLandmarks)
  : outcome ShoulderSignals :=
  (* Calculate shoulder angles *)
  leftShoulderAngle <- calculateAngle (leftElbow keyLandmarks)
                         (leftShoulder keyLandmarks) (leftHip keyLandmarks) ;;
  rightShoulderAngle <- calculateAngle (rightElbow keyLandmarks)
                          (rightShoulder keyLandmarks) (rightHip keyLandmarks) ;;
  let avgShoulderAngle := ((leftShoulderAngle + rightShoulderAngle) / 2)%R in
  let shoulderSymmetry := Rabs (leftShoulderAngle - rightShoulderAngle) in
  (* Target ROM (90 degrees +- 10) *)
  let angleDeviation := Rabs (avgShoulderAngle - targetAngle) in
  let isInTargetRange := Rleb angleDeviation 10 in
  let isInPosition := Rgtb avgShoulderAngle 45 in
  (* Check for scapular hiking *)
  leftElbowY <- member PoseLandmark.y (leftElbow keyLandmarks) ;;
  leftShoulderY <- member PoseLandmark.y (leftShoulder keyLandmarks) ;;
  rightElbowY <- member PoseLandmark.y (rightElbow keyLandmarks) ;;
  rightShoulderY <- member PoseLandmark.y (rightShoulder keyLandmarks) ;;
  let leftHiking := Rltb leftElbowY leftShoulderY in
  let rightHiking := Rltb rightElbowY rightShoulderY in
  Returned {| leftShoulderAngle := leftShoulderAngle;
              rightShoulderAngle := rightShoulderAngle;
              avgShoulderAngle := avgShoulderAngle;
              shoulderSymmetry := shoulderSymmetry;
              angleDeviation := angleDeviation;
              isInTargetRange := isInTargetRange;
              isInPosition := isInPosition;
              leftHiking := leftHiking; rightHiking := rightHiking |}.

(** Rep counting for shoulder abduction, lines 238-244. *)
Definition shoulderRepCounting (sig : ShoulderSignals) (this : AnalyzerState)
  : AnalyzerState :=
  if isInPosition sig && Rgtb (avgShoulderAngle sig) 75
     && Position_eqb (lastPosition this) Down then
    set_lastPosition Up this
  else if negb (isInPosition sig) && Rltb (avgShoulderAngle sig) 30
          && Position_eqb (lastPosition this) Up then
    let this := set_repCount (repCount this + 1) this in
    set_lastPosition Down this
  else this.

Definition msgRaiseArms : FeedbackMessage.t :=
  FeedbackMessage.mk FeedbackMessage.warning
    "Raise your arms higher - aim for 90 degrees" 3.
Definition msgLowerArms : FeedbackMessage.t :=
  FeedbackMessage.mk FeedbackMessage.warning
    "Lower your arms slightly - aim for 90 degrees" 3.
Definition msgSymmetry : FeedbackMessage.t :=
  FeedbackMessage.mk FeedbackMessage.error
    "Keep both arms at the same level for symmetry" 4.
Definition msgRelaxShoulders : FeedbackMessage.t :=
  FeedbackMessage.mk FeedbackMessage.warning
    "Relax your shoulders - don't shrug them up" 2.
Definition msgPerfectForm : FeedbackMessage.t :=
  FeedbackMessage.mk FeedbackMessage.success
    "Perfect form! Great ROM and symmetry" 1.

(** Generate feedback, lines 246-289: the messages in the order they are
    pushed, and the score after the deductions (before the clamp). *)
Definition shoulderFeedback (sig : ShoulderSignals)
  : list FeedbackMessage.t * Z :=
  let feedback : list FeedbackMessage.t := [] in
  let score := 100%Z in
  let '(feedback, score) :=
    if Rgtb (angleDeviation sig) 15 then
      if Rltb (avgShoulderAngle sig) (targetAngle - 15)
      then (feedback ++ [msgRaiseArms], (score - 15)%Z)
      else if Rgtb (avgShoulderAngle sig) (targetAngle + 15)
      then (feedback ++ [msgLowerArms], (score - 10)%Z)
      else (feedback, score)
    else (feedback, score) in
  let '(feedback, score) :=
    if Rgtb (shoulderSymmetry sig) 15
    then (feedback ++ [msgSymmetry], (score - 20)%Z)
    else (feedback, score) in
  let '(feedback, score) :=
    if hiking sig
    then (feedback ++ [msgRelaxShoulders], (score - 10)%Z)
    else (feedback, score) in
  let feedback :=
    pushIf (isInTargetRange sig && Rleb (shoulderSymmetry sig) 10)
      msgPerfectForm feedback in
  (feedback, score).

Definition analyzeShoulderAbduction (landmarks : Frame) (config : ExerciseConfig)
  (this : AnalyzerState) : AnalyzerState * outcome Analysis.t :=
  let keyLandmarks := getKeyLandmarks landmarks in
  match shoulderSignals keyLandmarks with
  | Thrown e => (this, Thrown e)
  | Returned sig =>
      let this := shoulderRepCounting sig this in
      let '(feedback, score) := shoulderFeedback sig in
      let this := set_currentScore (Z.max 0 score) this in
      (this,
       Returned
         {| Analysis.score := currentScore this;
            Analysis.feedback := rankFeedback feedback;
            Analysis.repCount := repCount this;
            Analysis.isInPosition := isInPosition sig;
            Analysis.angles := Angles.mk 0 0 (avgShoulderAngle sig) |})
  end.

(* ================================================================== *)
(** ** exercise-rules.ts: [reset], [getRepData], [EXERCISE_CONFIGS] *)

Definition reset (this : AnalyzerState) : AnalyzerState :=
  {| repCount := 0; currentScore := 0; lastPosition := Up;
     repData := []; frameCount := 0 |}.

Definition getRepData (this : AnalyzerState) : list RepData.t :=
  repData this.

Definition squatConfig : ExerciseConfig :=
  {| name := "Squat"; targetReps := 10;
     thresholds :=
       Thresholds.mk (Some 90%R) (Some 0.02%R) (Some 0.05%R) None None None |}.

Definition shoulderAbductionConfig : ExerciseConfig :=
  {| name := "Shoulder Abduction"; targetReps := 15;
     thresholds :=
       Thresholds.mk None None None (Some 80%R) (Some 100%R) (Some 15%R) |}.

Definition EXERCISE_CONFIGS : list (string * ExerciseConfig) :=
  [ ("squat"%string, squatConfig);
    ("shoulderAbduction"%string, shoulderAbductionConfig) ].

(* ================================================================== *)
(** ** Sessions: sequences of calls on one analyzer *)

Inductive Call : Type :=
| CallSquat (now : Z) (landmarks : Frame) (config : ExerciseConfig)
| CallShoulderAbduction (landmarks : Frame) (config : ExerciseConfig)
| CallReset
| CallGetRepData.

(** The fields after one call, whether it returned or threw. *)
Definition step (this : AnalyzerState) (c : Call) : AnalyzerState :=
  match c with
  | CallSquat now landmarks config => fst (analyzeSquat now landmarks config this)
  | CallShoulderAbduction landmarks config =>
      fst (analyzeShoulderAbduction landmarks config this)
  | CallReset => reset this
  | CallGetRepData => this
  end.

Definition run (this : AnalyzerState) (calls : list Call) : AnalyzerState :=
  fold_left step calls this.

(** A squat frame on which the analysis goes through, by the side of the
    120 degree threshold the knee angle lies on. *)
Definition kneeAtLeast120 (landmarks : Frame) : Prop :=
  exists sig, squatSignals (getKeyLandmarks landmarks) = Returned sig
              /\ (120 <= kneeAngle sig)%R.

Definition kneeBelow120 (landmarks : Frame) : Prop :=
  exists sig, squatSignals (getKeyLandmarks landmarks) = Returned sig
              /\ (kneeAngle sig < 120)%R.

(** The keypoints each policy reads. *)
Definition squatKeypointsPresent (landmarks : Frame) : Prop :=
  forall i, In i [11; 12; 23; 24; 25; 26; 27; 28]%nat -> index landmarks i <> None.

Definition shoulderKeypointsPresent (landmarks : Frame) : Prop :=
  forall i, In i [11; 12; 13; 14; 23; 24]%nat -> index landmarks i <> None.

(* ================================================================== *)
(** ** The geometry the angle calculator is specified against *)

Definition norm (x y : R) : R := sqrt (x * x + y * y).

Definition dot (ux uy vx vy : R) : R := (ux * vx + uy * vy)%R.

(** The unsigned angle, in degrees, between the vectors [(ux, uy)] and
    [(vx, vy)]: the arc cosine of the normalised scalar product. *)
Definition angleBetween (ux uy vx vy : R) : R :=
  (acos (dot ux uy vx vy / (norm ux uy * norm vx vy)) * (180 / PI))%R.

(** A shoulder-abduction frame on which the analysis goes through and whose
    average shoulder angle satisfies [P]. *)
Definition shoulderAvg (P : R -> Prop) (landmarks : Frame) : Prop :=
  exists sig, shoulderSignals (getKeyLandmarks landmarks) = Returned sig
              /\ P (avgShoulderAngle sig).

(** Calls of one policy on frames that satisfy [P]. *)
Definition squatCallOn (P : Frame -> Prop) (c : Call) : Prop :=
  match c with
  | CallSquat _ landmarks _ => P landmarks
  | _ => False
  end.

Definition shoulderCallOn (P : Frame -> Prop) (c : Call) : Prop :=
  match c with
  | CallShoulderAbduction landmarks _ => P landmarks
  | _ => False
  end.

(** Descending priority, and the messages of one priority. *)
Definition ranksAbove (a b : FeedbackMessage.t) : Prop :=
  (FeedbackMessage.priority b <= FeedbackMessage.priority a)%Z.

Definition hasPriority (p : Z) (m : FeedbackMessage.t) : bool :=
  (FeedbackMessage.priority m =? p)%Z.

(** Test frames: a body given by its shoulders, elbows, hips, knees and
    ankles, every other slot at the origin. *)
Definition pt (x y : R) : PoseLandmark.t := PoseLandmark.mk x y 0 None.

Definition bodyFrame (ls rs le re lh rh lk rk la ra : PoseLandmark.t) : Frame :=
  repeat (Some (pt 0 0)) 11
  ++ [Some ls; Some rs; Some le; Some re]
  ++ repeat (Some (pt 0 0)) 8
  ++ [Some lh; Some rh; Some lk; Some rk; Some la; Some ra]
  ++ repeat (Some (pt 0 0)) 4.

(** Standing upright, arms along the body: knees and hip at 180 degrees,
    shoulders at 0 degrees. *)
Definition standingFrame : Frame :=
  bodyFrame (pt 0.6 0.2) (pt 0.4 0.2) (pt 0.6 0.35) (pt 0.4 0.35)
            (pt 0.6 0.5) (pt 0.4 0.5) (pt 0.6 0.7) (pt 0.4 0.7)
            (pt 0.6 0.9) (pt 0.4 0.9).

(** Thighs horizontal: both knees at 90 degrees, torso upright. *)
Definition squatFrame : Frame :=
  bodyFrame (pt 0.8 0.4) (pt 0.2 0.4) (pt 0.8 0.55) (pt 0.2 0.55)
            (pt 0.8 0.7) (pt 0.2 0.7) (pt 0.6 0.7) (pt 0.4 0.7)
            (pt 0.6 0.9) (pt 0.4 0.9).

(** Standing with both arms raised to the horizontal: shoulders at 90
    degrees. *)
Definition armsRaisedFrame : Frame :=
  bodyFrame (pt 0.6 0.2) (pt 0.4 0.2) (pt 0.8 0.2) (pt 0.2 0.2)
            (pt 0.6 0.5) (pt 0.4 0.5) (pt 0.6 0.7) (pt 0.4 0.7)
            (pt 0.6 0.9) (pt 0.4 0.9).

(** Standing with only the left arm raised: shoulders at 90 and 0 degrees,
    45 on average. *)
Definition oneArmRaisedFrame : Frame :=
  bodyFrame (pt 0.6 0.2) (pt 0.4 0.2) (pt 0.8 0.2) (pt 0.4 0.35)
            (pt 0.6 0.5) (pt 0.4 0.5) (pt 0.6 0.7) (pt 0.4 0.7)
            (pt 0.6 0.9) (pt 0.4 0.9).

(** What the first call of [analyzeSquat] on a new analyzer leaves and
    returns on [squatFrame], and what the next call leaves and returns on
    [standingFrame] at time 2000. *)
Definition afterSquatFrame : AnalyzerState :=
  {| repCount := 0; currentScore := 85; lastPosition := Down;
     repData := []; frameCount := 1 |}.

Definition onSquatFrame : Analysis.t :=
  {| Analysis.score := 85;
     Analysis.feedback := [msgGoDeeper];
     Analysis.repCount := 0;
     Analysis.isInPosition := true;
     Analysis.angles := Angles.mk 90 90 0 |}.

Definition loggedRep : RepData.t :=
  {| RepData.repIndex := 1;
     RepData.angles := Angles.mk 180 180 0;
     RepData.flags := ["shallow_squat"%string];
     RepData.score := 85;
     RepData.timestamp := 2000 |}.

Definition afterStandingUp : AnalyzerState :=
  {| repCount := 1; currentScore := 100; lastPosition := Up;
     repData := [loggedRep]; frameCount := 2 |}.

Definition onStandingUp : Analysis.t :=
  {| Analysis.score := 100;
     Analysis.feedback := [];
     Analysis.repCount := 1;
     Analysis.isInPosition := false;
     Analysis.angles := Angles.mk 180 180 0 |}.

(** The standing body in an array that ends after slot 26: slots 27 and
    28, the ankles, read [undefined]. *)
Definition truncatedFrame : Frame := firstn 27 standingFrame.

(* ================================================================== *)
(** ** Notions the properties of the engine are stated with *)

Open Scope Z_scope.

(** Two slots that agree on whether a landmark is there and on its [x] and
    [y]; [z] and [visibility] are free. *)
Definition sameXY (p q : option PoseLandmark.t) : Prop :=
  match p, q with
  | Some a, Some b =>
      PoseLandmark.x a = PoseLandmark.x b /\ PoseLandmark.y a = PoseLandmark.y b
  | None, None => True
  | _, _ => False
  end.

(** A message that asks for a correction, and lists whose priorities
    strictly decrease. *)
Definition isCorrective (m : FeedbackMessage.t) : bool :=
  match FeedbackMessage.type m with
  | FeedbackMessage.warning | FeedbackMessage.error => true
  | _ => false
  end.

Definition outranks (a b : FeedbackMessage.t) : Prop :=
  (FeedbackMessage.priority b < FeedbackMessage.priority a)%Z.

(** What the ranked feedback and the score of one frame have in common. *)
Definition consistent (shown : list FeedbackMessage.t) (score : Z) : Prop :=
  (List.length shown <= 2)%nat
  /\ StronglySorted outranks shown
  /\ ((score < 100)%Z
      <-> exists m rest, shown = m :: rest /\ isCorrective m = true)
  /\ (forall m, In m shown -> FeedbackMessage.type m = FeedbackMessage.error ->
      hd_error shown = Some m).

(** A call of [analyzeSquat], and one on a frame in the bottom position
    (knee angle below 120 degrees). *)
Definition isSquatCall (c : Call) : bool :=
  match c with
  | CallSquat _ _ _ => true
  | _ => false
  end.

Definition isBottomCall (c : Call) : bool :=
  match c with
  | CallSquat _ landmarks _ =>
      match squatSignals (getKeyLandmarks landmarks) with
      | Returned sig => isInBottomPosition sig
      | Thrown _ => false
      end
  | _ => false
  end.

Definition isShoulderCall (c : Call) : bool :=
  match c with
  | CallShoulderAbduction _ _ => true
  | _ => false
  end.

(** 1 in phase "down", 0 in phase "up". *)
Definition pending (this : AnalyzerState) : Z :=
  match lastPosition this with
  | Down => 1
  | Up => 0
  end.

(** The readings of [Date.now()] a sequence of calls makes, in order. *)
Definition callTimes (calls : list Call) : list Z :=
  flat_map (fun c => match c with
                     | CallSquat now _ _ => [now]
                     | _ => []
                     end) calls.

(** Two analyzers that differ at most in [frameCount]. *)
Definition sameButFrameCount (a b : AnalyzerState) : Prop :=
  repCount a = repCount b /\ currentScore a = currentScore b
  /\ lastPosition a = lastPosition b /\ repData a = repData b.

(** The estimator's full output: 33 slots, none of them [undefined]. *)
Definition completeFrame (landmarks : Frame) : Prop :=
  List.length landmarks = 33%nat /\ Forall (fun slot => slot <> None) landmarks.

(** What every sequence of calls keeps true of the rep log. *)
Definition logInvariant (this : AnalyzerState) : Prop :=
  0 <= repCount this
  /\ Z.of_nat (List.length (repData this)) <= repCount this
  /\ StronglySorted (fun a b => RepData.repIndex a < RepData.repIndex b)
       (repData this)
  /\ Forall (fun rep => 1 <= RepData.repIndex rep <= repCount this) (repData this).

(* ================================================================== *)
(** ** pose-detection.ts: [PoseDetector.drawPose]

    The canvas is the size of its bitmap and whether [getContext('2d')]
    gives a context; what [drawPose] does is the sequence of calls it
    makes on that context. *)

Module PoseResults.
Record t : Type := mk {
  landmarks : list Frame;
  worldLandmarks : list Frame
}.
End PoseResults.

Module Canvas.
Record t : Type := mk {
  width : nat;
  height : nat;
  context2d : bool
}.
End Canvas.

Inductive CanvasCall : Type :=
| clearRect (x y w h : R)
| beginPath
| moveTo (x y : R)
| lineTo (x y : R)
| strokeStyle (colour : string)
| lineWidth (w : R)
| stroke
| arc (x y radius startAngle endAngle : R)
| fillStyle (colour : string)
| fill.

Definition connections : list (nat * nat) :=
  [ (11, 12); (11, 13); (13, 15); (12, 14); (14, 16);   (* Arms *)
    (11, 23); (12, 24); (23, 24);                       (* Torso *)
    (23, 25); (25, 27); (24, 26); (26, 28) ]%nat.       (* Legs *)

(** The body of the loop over [connections], lines 98-109. *)
Definition drawConnection (canvas : Canvas.t) (landmarks : Frame)
  (connection : nat * nat) : list CanvasCall :=
  let '(startIdx, endIdx) := connection in
  match index landmarks startIdx, index landmarks endIdx with
  | Some start, Some end_ =>
      [ beginPath;
        moveTo (PoseLandmark.x start * INR (Canvas.width canvas))
               (PoseLandmark.y start * INR (Canvas.height canvas));
        lineTo (PoseLandmark.x end_ * INR (Canvas.width canvas))
               (PoseLandmark.y end_ * INR (Canvas.height canvas));
        strokeStyle "#00FF00";
        lineWidth 2;
        stroke ]
  | _, _ => []
  end.

(** The loop over the landmarks of one body, lines 113-118: the calls made,
    and whether the loop ran to its end. *)
Fixpoint drawLandmarks (canvas : Canvas.t) (landmarks : Frame)
  : list CanvasCall * outcome unit :=
  match landmarks with
  | [] => ([], Returned tt)
  | None :: _ => ([beginPath], Thrown TypeError)
  | Some landmark :: rest =>
      let '(calls, out) := drawLandmarks canvas rest in
      (beginPath
       :: arc (PoseLandmark.x landmark * INR (Canvas.width canvas))
              (PoseLandmark.y landmark * INR (Canvas.height canvas))
              4 0 (2 * PI)
       :: fillStyle "#FF0000"
       :: fill
       :: calls, out)
  end.

(** The loop over the bodies, lines 89-119. *)
Fixpoint drawBodies (canvas : Canvas.t) (drawConnections : bool)
  (bodies : list Frame) : list CanvasCall * outcome unit :=
  match bodies with
  | [] => ([], Returned tt)
  | landmarks :: rest =>
      let lines :=
        if drawConnections
        then flat_map (drawConnection canvas landmarks) connections
        else [] in
      match drawLandmarks canvas landmarks with
      | (dots, Thrown e) => (lines ++ dots, Thrown e)
      | (dots, Returned _) =>
          let '(calls, out) := drawBodies canvas drawConnections rest in
          (lines ++ dots ++ calls, out)
      end
  end.

Definition drawPose (canvas : Canvas.t) (results : PoseResults.t)
  (drawConnections : bool) : list CanvasCall * outcome unit :=
  if (List.length (PoseResults.landmarks results) =? 0)%nat then ([], Returned tt)
  else if negb (Canvas.context2d canvas) then ([], Returned tt)
  else
    let '(calls, out) :=
      drawBodies canvas drawConnections (PoseResults.landmarks results) in
    (clearRect 0 0 (INR (Canvas.width canvas)) (INR (Canvas.height canvas))
     :: calls, out).

(** Calls of one kind in a sequence of calls. *)
Definition isStroke (c : CanvasCall) : bool :=
  match c with stroke => true | _ => false end.
Definition isFill (c : CanvasCall) : bool :=
  match c with fill => true | _ => false end.
Definition isClearRect (c : CanvasCall) : bool :=
  match c with clearRect _ _ _ _ => true | _ => false end.

(** A call that draws inside the bitmap of the canvas. *)
Definition insideCanvas (canvas : Canvas.t) (c : CanvasCall) : Prop :=
  match c with
  | moveTo x y | lineTo x y | arc x y _ _ _ =>
      (0 <= x <= INR (Canvas.width canvas)
       /\ 0 <= y <= INR (Canvas.height canvas))%R
  | _ => True
  end.

(** A frame whose landmarks all have normalised coordinates. *)
Definition normalised (landmarks : Frame) : Prop :=
  Forall (fun slot =>
            match slot with
            | Some l => (0 <= PoseLandmark.x l <= 1 /\ 0 <= PoseLandmark.y l <= 1)%R
            | None => True
            end) landmarks.

Definition allDefined (landmarks : Frame) : Prop :=
  Forall (fun slot => slot <> None) landmarks.

(* ================================================================== *)
(** ** store/pose-store.ts

    The store is the record of its state fields; an action is the function
    from the state before to the state after, with the reading of
    [Date.now()] as an argument where the action takes one.  DOM elements
    and blobs are opaque references. *)

Inductive ExerciseType : Type := squat | shoulderAbduction.

(** The string an [ExerciseType] is. *)
Definition exerciseKey (exercise : ExerciseType) : string :=
  match exercise with
  | squat => "squat"
  | shoulderAbduction => "shoulderAbduction"
  end.

Inductive Reference : Type := reference (id : nat).

Module ExerciseMetrics.
Record t : Type := mk {
  repCount : Z;
  currentScore : Z;
  feedback : list string;
  angles : Angles.t;
  isInPosition : bool
}.
End ExerciseMetrics.

Module SessionData.
Record t : Type := mk {
  repCount : Z;
  avgScore : Z;
  totalTime : Z;
  exercise : option ExerciseType;
  flags : list string
}.
End SessionData.

Module PoseState.
Record t : Type := mk {
  isRecording : bool;
  isCameraActive : bool;
  videoElement : option Reference;
  canvasElement : option Reference;
  currentExercise : option ExerciseType;
  exerciseConfig : option ExerciseConfig;
  metrics : ExerciseMetrics.t;
  sessionStartTime : option Z;
  sessionData : option SessionData.t;
  recordedVideo : option Reference;
  recordingStartTime : option Z;
  showFeedback : bool;
  feedbackVolume : R
}.
End PoseState.

Definition zeroMetrics : ExerciseMetrics.t :=
  {| ExerciseMetrics.repCount := 0;
     ExerciseMetrics.currentScore := 0;
     ExerciseMetrics.feedback := [];
     ExerciseMetrics.angles := Angles.mk 0 0 0;
     ExerciseMetrics.isInPosition := false |}.

(** The initial state of the store. *)
Definition initialStore : PoseState.t :=
  {| PoseState.isRecording := false;
     PoseState.isCameraActive := false;
     PoseState.videoElement := None;
     PoseState.canvasElement := None;
     PoseState.currentExercise := None;
     PoseState.exerciseConfig := None;
     PoseState.metrics := zeroMetrics;
     PoseState.sessionStartTime := None;
     PoseState.sessionData := None;
     PoseState.recordedVideo := None;
     PoseState.recordingStartTime := None;
     PoseState.showFeedback := true;
     PoseState.feedbackVolume := 0.7 |}.

Definition setRecording (now : Z) (recording : bool) (s : PoseState.t) : PoseState.t :=
  {| PoseState.isRecording := recording;
     PoseState.isCameraActive := PoseState.isCameraActive s;
     PoseState.videoElement := PoseState.videoElement s;
     PoseState.canvasElement := PoseState.canvasElement s;
     PoseState.currentExercise := PoseState.currentExercise s;
     PoseState.exerciseConfig := PoseState.exerciseConfig s;
     PoseState.metrics := PoseState.metrics s;
     PoseState.sessionStartTime := PoseState.sessionStartTime s;
     PoseState.sessionData := PoseState.sessionData s;
     PoseState.recordedVideo := PoseState.recordedVideo s;
     PoseState.recordingStartTime := if recording then Some now else None;
     PoseState.showFeedback := PoseState.showFeedback s;
     PoseState.feedbackVolume := PoseState.feedbackVolume s |}.

Definition setCameraActive (active : bool) (s : PoseState.t) : PoseState.t :=
  {| PoseState.isRecording := PoseState.isRecording s;
     PoseState.isCameraActive := active;
     PoseState.videoElement := PoseState.videoElement s;
     PoseState.canvasElement := PoseState.canvasElement s;
     PoseState.currentExercise := PoseState.currentExercise s;
     PoseState.exerciseConfig := PoseState.exerciseConfig s;
     PoseState.metrics := PoseState.metrics s;
     PoseState.sessionStartTime := PoseState.sessionStartTime s;
     PoseState.sessionData := PoseState.sessionData s;
     PoseState.recordedVideo := PoseState.recordedVideo s;
     PoseState.recordingStartTime := PoseState.recordingStartTime s;
     PoseState.showFeedback := PoseState.showFeedback s;
     PoseState.feedbackVolume := PoseState.feedbackVolume s |}.

Definition setVideoElement (element : option Reference) (s : PoseState.t)
  : PoseState.t :=
  {| PoseState.isRecording := PoseState.isRecording s;
     PoseState.isCameraActive := PoseState.isCameraActive s;
     PoseState.videoElement := element;
     PoseState.canvasElement := PoseState.canvasElement s;
     PoseState.currentExercise := PoseState.currentExercise s;
     PoseState.exerciseConfig := PoseState.exerciseConfig s;
     PoseState.metrics := PoseState.metrics s;
     PoseState.sessionStartTime := PoseState.sessionStartTime s;
     PoseState.sessionData := PoseState.sessionData s;
     PoseState.recordedVideo := PoseState.recordedVideo s;
     PoseState.recordingStartTime := PoseState.recordingStartTime s;
     PoseState.showFeedback := PoseState.showFeedback s;
     PoseState.feedbackVolume := PoseState.feedbackVolume s |}.

Definition setCanvasElement (element : option Reference) (s : PoseState.t)
  : PoseState.t :=
  {| PoseState.isRecording := PoseState.isRecording s;
     PoseState.isCameraActive := PoseState.isCameraActive s;
     PoseState.videoElement := PoseState.videoElement s;
     PoseState.canvasElement := element;
     PoseState.currentExercise := PoseState.currentExercise s;
     PoseState.exerciseConfig := PoseState.exerciseConfig s;
     PoseState.metrics := PoseState.metrics s;
     PoseState.sessionStartTime := PoseState.sessionStartTime s;
     PoseState.sessionData := PoseState.sessionData s;
     PoseState.recordedVideo := PoseState.recordedVideo s;
     PoseState.recordingStartTime := PoseState.recordingStartTime s;
     PoseState.showFeedback := PoseState.showFeedback s;
     PoseState.feedbackVolume := PoseState.feedbackVolume s |}.

Definition setCurrentExercise (exercise : option ExerciseType) (s : PoseState.t)
  : PoseState.t :=
  {| PoseState.isRecording := PoseState.isRecording s;
     PoseState.isCameraActive := PoseState.isCameraActive s;
     PoseState.videoElement := PoseState.videoElement s;
     PoseState.canvasElement := PoseState.canvasElement s;
     PoseState.currentExercise := exercise;
     PoseState.exerciseConfig := PoseState.exerciseConfig s;
     PoseState.metrics := PoseState.metrics s;
     PoseState.sessionStartTime := PoseState.sessionStartTime s;
     PoseState.sessionData := PoseState.sessionData s;
     PoseState.recordedVideo := PoseState.recordedVideo s;
     PoseState.recordingStartTime := PoseState.recordingStartTime s;
     PoseState.showFeedback := PoseState.showFeedback s;
     PoseState.feedbackVolume := PoseState.feedbackVolume s |}.

Definition setExerciseConfig (config : option ExerciseConfig) (s : PoseState.t)
  : PoseState.t :=
  {| PoseState.isRecording := PoseState.isRecording s;
     PoseState.isCameraActive := PoseState.isCameraActive s;
     PoseState.videoElement := PoseState.videoElement s;
     PoseState.canvasElement := PoseState.canvasElement s;
     PoseState.currentExercise := PoseState.currentExercise s;
     PoseState.exerciseConfig := config;
     PoseState.metrics := PoseState.metrics s;
     PoseState.sessionStartTime := PoseState.sessionStartTime s;
     PoseState.sessionData := PoseState.sessionData s;
     PoseState.recordedVideo := PoseState.recordedVideo s;
     PoseState.recordingStartTime := PoseState.recordingStartTime s;
     PoseState.showFeedback := PoseState.showFeedback s;
     PoseState.feedbackVolume := PoseState.feedbackVolume s |}.

Definition updateMetrics (metrics : ExerciseMetrics.t) (s : PoseState.t)
  : PoseState.t :=
  {| PoseState.isRecording := PoseState.isRecording s;
     PoseState.isCameraActive := PoseState.isCameraActive s;
     PoseState.videoElement := PoseState.videoElement s;
     PoseState.canvasElement := PoseState.canvasElement s;
     PoseState.currentExercise := PoseState.currentExercise s;
     PoseState.exerciseConfig := PoseState.exerciseConfig s;
     PoseState.metrics := metrics;
     PoseState.sessionStartTime := PoseState.sessionStartTime s;
     PoseState.sessionData := PoseState.sessionData s;
     PoseState.recordedVideo := PoseState.recordedVideo s;
     PoseState.recordingStartTime := PoseState.recordingStartTime s;
     PoseState.showFeedback := PoseState.showFeedback s;
     PoseState.feedbackVolume := PoseState.feedbackVolume s |}.

(** [set({ sessionStartTime: ..., sessionData: ... })] *)
Definition setSession (start : option Z) (data : option SessionData.t)
  (s : PoseState.t) : PoseState.t :=
  {| PoseState.isRecording := PoseState.isRecording s;
     PoseState.isCameraActive := PoseState.isCameraActive s;
     PoseState.videoElement := PoseState.videoElement s;
     PoseState.canvasElement := PoseState.canvasElement s;
     PoseState.currentExercise := PoseState.currentExercise s;
     PoseState.exerciseConfig := PoseState.exerciseConfig s;
     PoseState.metrics := PoseState.metrics s;
     PoseState.sessionStartTime := start;
     PoseState.sessionData := data;
     PoseState.recordedVideo := PoseState.recordedVideo s;
     PoseState.recordingStartTime := PoseState.recordingStartTime s;
     PoseState.showFeedback := PoseState.showFeedback s;
     PoseState.feedbackVolume := PoseState.feedbackVolume s |}.

Definition startSession (now : Z) (s : PoseState.t) : PoseState.t :=
  setSession (Some now)
    (Some {| SessionData.repCount := 0;
             SessionData.avgScore := 0;
             SessionData.totalTime := 0;
             SessionData.exercise := PoseState.currentExercise s;
             SessionData.flags := [] |}) s.

(** [sessionStartTime && currentExercise]: a start time that is neither
    [null] nor 0, and an exercise that is not [null]. *)
Definition endSession (now : Z) (s : PoseState.t) : PoseState.t :=
  match PoseState.sessionStartTime s, PoseState.currentExercise s with
  | Some sessionStartTime, Some currentExercise =>
      if sessionStartTime =? 0 then s
      else
        let totalTime := now - sessionStartTime in
        setSession None
          (Some {| SessionData.repCount :=
                     ExerciseMetrics.repCount (PoseState.metrics s);
                   SessionData.avgScore :=
                     ExerciseMetrics.currentScore (PoseState.metrics s);
                   SessionData.totalTime := totalTime;
                   SessionData.exercise := Some currentExercise;
                   SessionData.flags :=
                     map (fun f => f) (ExerciseMetrics.feedback (PoseState.metrics s)) |})
          s
  | _, _ => s
  end.

Definition setRecordedVideo (video : option Reference) (s : PoseState.t)
  : PoseState.t :=
  {| PoseState.isRecording := PoseState.isRecording s;
     PoseState.isCameraActive := PoseState.isCameraActive s;
     PoseState.videoElement := PoseState.videoElement s;
     PoseState.canvasElement := PoseState.canvasElement s;
     PoseState.currentExercise := PoseState.currentExercise s;
     PoseState.exerciseConfig := PoseState.exerciseConfig s;
     PoseState.metrics := PoseState.metrics s;
     PoseState.sessionStartTime := PoseState.sessionStartTime s;
     PoseState.sessionData := PoseState.sessionData s;
     PoseState.recordedVideo := video;
     PoseState.recordingStartTime := PoseState.recordingStartTime s;
     PoseState.showFeedback := PoseState.showFeedback s;
     PoseState.feedbackVolume := PoseState.feedbackVolume s |}.

Definition toggleFeedback (s : PoseState.t) : PoseState.t :=
  {| PoseState.isRecording := PoseState.isRecording s;
     PoseState.isCameraActive := PoseState.isCameraActive s;
     PoseState.videoElement := PoseState.videoElement s;
     PoseState.canvasElement := PoseState.canvasElement s;
     PoseState.currentExercise := PoseState.currentExercise s;
     PoseState.exerciseConfig := PoseState.exerciseConfig s;
     PoseState.metrics := PoseState.metrics s;
     PoseState.sessionStartTime := PoseState.sessionStartTime s;
     PoseState.sessionData := PoseState.sessionData s;
     PoseState.recordedVideo := PoseState.recordedVideo s;
     PoseState.recordingStartTime := PoseState.recordingStartTime s;
     PoseState.showFeedback := negb (PoseState.showFeedback s);
     PoseState.feedbackVolume := PoseState.feedbackVolume s |}.

Definition setFeedbackVolume (volume : R) (s : PoseState.t) : PoseState.t :=
  {| PoseState.isRecording := PoseState.isRecording s;
     PoseState.isCameraActive := PoseState.isCameraActive s;
     PoseState.videoElement := PoseState.videoElement s;
     PoseState.canvasElement := PoseState.canvasElement s;
     PoseState.currentExercise := PoseState.currentExercise s;
     PoseState.exerciseConfig := PoseState.exerciseConfig s;
     PoseState.metrics := PoseState.metrics s;
     PoseState.sessionStartTime := PoseState.sessionStartTime s;
     PoseState.sessionData := PoseState.sessionData s;
     PoseState.recordedVideo := PoseState.recordedVideo s;
     PoseState.recordingStartTime := PoseState.recordingStartTime s;
     PoseState.showFeedback := PoseState.showFeedback s;
     PoseState.feedbackVolume := volume |}.

(** The store's own [reset]. *)
Definition resetStore (s : PoseState.t) : PoseState.t :=
  {| PoseState.isRecording := false;
     PoseState.isCameraActive := PoseState.isCameraActive s;
     PoseState.videoElement := PoseState.videoElement s;
     PoseState.canvasElement := PoseState.canvasElement s;
     PoseState.currentExercise := None;
     PoseState.exerciseConfig := None;
     PoseState.metrics := zeroMetrics;
     PoseState.sessionStartTime := None;
     PoseState.sessionData := None;
     PoseState.recordedVideo := None;
     PoseState.recordingStartTime := None;
     PoseState.showFeedback := PoseState.showFeedback s;
     PoseState.feedbackVolume := PoseState.feedbackVolume s |}.

Inductive StoreAction : Type :=
| SetRecording (now : Z) (recording : bool)
| SetCameraActive (active : bool)
| SetVideoElement (element : option Reference)
| SetCanvasElement (element : option Reference)
| SetCurrentExercise (exercise : option ExerciseType)
| SetExerciseConfig (config : option ExerciseConfig)
| UpdateMetrics (metrics : ExerciseMetrics.t)
| StartSession (now : Z)
| EndSession (now : Z)
| SetRecordedVideo (video : option Reference)
| ToggleFeedback
| SetFeedbackVolume (volume : R)
| ResetStore.

Definition dispatch (s : PoseState.t) (a : StoreAction) : PoseState.t :=
  match a with
  | SetRecording now recording => setRecording now recording s
  | SetCameraActive active => setCameraActive active s
  | SetVideoElement element => setVideoElement element s
  | SetCanvasElement element => setCanvasElement element s
  | SetCurrentExercise exercise => setCurrentExercise exercise s
  | SetExerciseConfig config => setExerciseConfig config s
  | UpdateMetrics metrics => updateMetrics metrics s
  | StartSession now => startSession now s
  | EndSession now => endSession now s
  | SetRecordedVideo video => setRecordedVideo video s
  | ToggleFeedback => toggleFeedback s
  | SetFeedbackVolume volume => setFeedbackVolume volume s
  | ResetStore => resetStore s
  end.

(* ================================================================== *)
(** ** components/ExerciseSelector.tsx: [handleSelectExercise] *)

(** [EXERCISE_CONFIGS[key]] *)
Fixpoint lookupConfig (key : string) (registry : list (string * ExerciseConfig))
  : option ExerciseConfig :=
  match registry with
  | [] => None
  | (k, config) :: rest =>
      if String.eqb k key then Some config else lookupConfig key rest
  end.

Definition handleSelectExercise (exerciseId : ExerciseType) (s : PoseState.t)
  : PoseState.t :=
  let config := lookupConfig (exerciseKey exerciseId) EXERCISE_CONFIGS in
  let s := setCurrentExercise (Some exerciseId) s in
  setExerciseConfig config s.

(* ================================================================== *)
(** ** pages/LiveSession.tsx: one pass of the detection loop

    The page holds one analyzer for its whole life, the store, and the
    last detection results.  [processFrame] is the body of the [try] block
    of [detectPose] (lines 74-109) under the guard of its effect, given
    what the detector returned.  The values the closure of the effect
    captured are read from the store at the pass: the effect is created
    again whenever one of them changes. *)

Module Utterance.
Record t : Type := mk {
  text : string;
  volume : R;
  rate : R
}.
End Utterance.

Record Page : Type := {
  analyzer : AnalyzerState;
  store : PoseState.t;
  poseResults : option PoseResults.t
}.

(** What one pass leaves, what it speaks and what it logs as an error. *)
Record Pass : Type := {
  page : Page;
  spoken : option Utterance.t;
  logged : option JsError
}.


Definition metricsOf (analysis : Analysis.t) : ExerciseMetrics.t :=
  {| ExerciseMetrics.repCount := Analysis.repCount analysis;
     ExerciseMetrics.currentScore := Analysis.score analysis;
     ExerciseMetrics.feedback :=
       map FeedbackMessage.message (Analysis.feedback analysis);
     ExerciseMetrics.angles := Analysis.angles analysis;
     ExerciseMetrics.isInPosition := Analysis.isInPosition analysis |}.

Definition isError (k : FeedbackMessage.kind) : bool :=
  match k with
  | FeedbackMessage.error => true
  | _ => false
  end.

(** Voice feedback, lines 99-108. *)
Definition voiceFeedback (showFeedback : bool) (feedbackVolume : R)
  (speechSynthesis : bool) (analysis : Analysis.t) : option Utterance.t :=
  if showFeedback && Rgtb feedbackVolume 0
     && (0 <? List.length (Analysis.feedback analysis))%nat then
    match Analysis.feedback analysis with
    | feedback :: _ =>
        if isError (FeedbackMessage.type feedback) && speechSynthesis
        then Some {| Utterance.text := FeedbackMessage.message feedback;
                     Utterance.volume := feedbackVolume;
                     Utterance.rate := 0.9 |}
        else None
    | [] => None
    end
  else None.

Definition processFrame (now : Z) (results : option PoseResults.t)
  (speechSynthesis : bool) (p : Page) : Pass :=
  let idle := {| page := p; spoken := None; logged := None |} in
  match PoseState.isCameraActive (store p), PoseState.videoElement (store p),
        PoseState.currentExercise (store p), PoseState.exerciseConfig (store p) with
  | true, Some _, Some currentExercise, Some exerciseConfig =>
      match results with
      | Some results =>
          match PoseResults.landmarks results with
          | landmarks :: _ =>
              let '(analyzer', out) :=
                match currentExercise with
                | squat => analyzeSquat now landmarks exerciseConfig (analyzer p)
                | _ => analyzeShoulderAbduction landmarks exerciseConfig (analyzer p)
                end in
              match out with
              | Returned analysis =>
                  {| page :=
                       {| analyzer := analyzer';
                          store := updateMetrics (metricsOf analysis) (store p);
                          poseResults := Some results |};
                     spoken :=
                       voiceFeedback (PoseState.showFeedback (store p))
                         (PoseState.feedbackVolume (store p)) speechSynthesis analysis;
                     logged := None |}
              | Thrown e =>
                  {| page :=
                       {| analyzer := analyzer';
                          store := store p;
                          poseResults := Some results |};
                     spoken := None;
                     logged := Some e |}
              end
          | [] => idle
          end
      | None => idle
      end
  | _, _, _, _ => idle
  end.

(** The events of the page that touch the analyzer or the store. *)
Inductive PageEvent : Type :=
| AnimationFrame (now : Z) (results : option PoseResults.t) (speechSynthesis : bool)
| SelectExercise (exerciseId : ExerciseType)
| BackToSelection
| ToggleRecording (now : Z)
| ToggleVoice
| SetVolume (volume : R)
| VideoMounted (element : Reference)
| CameraStarted
| CameraStopped.

Definition withStore (f : PoseState.t -> PoseState.t) (p : Page) : Page :=
  {| analyzer := analyzer p; store := f (store p); poseResults := poseResults p |}.

Definition handle (p : Page) (e : PageEvent) : Page :=
  match e with
  | AnimationFrame now results speechSynthesis =>
      page (processFrame now results speechSynthesis p)
  | SelectExercise exerciseId => withStore (handleSelectExercise exerciseId) p
  | BackToSelection => withStore resetStore p
  | ToggleRecording now =>
      withStore (fun s => setRecording now (negb (PoseState.isRecording s)) s) p
  | ToggleVoice => withStore toggleFeedback p
  | SetVolume volume => withStore (setFeedbackVolume volume) p
  | VideoMounted element => withStore (setVideoElement (Some element)) p
  | CameraStarted => withStore (setCameraActive true) p
  | CameraStopped => withStore (setCameraActive false) p
  end.


(** The counters the overlay shows are those of the analyzer. *)
Definition inSync (p : Page) : Prop :=
  ExerciseMetrics.repCount (PoseState.metrics (store p)) = repCount (analyzer p)
  /\ ExerciseMetrics.currentScore (PoseState.metrics (store p))
     = currentScore (analyzer p).

(* ================================================================== *)
(** ** components/PoseOverlay.tsx: how a feedback string is displayed *)

(** [s.includes(needle)] *)
Fixpoint includes (needle s : string) : bool :=
  String.prefix needle s
  || match s with
     | EmptyString => false
     | String _ rest => includes needle rest
     end.

(** The kind the overlay picks for a feedback string, lines 125-130 and
    135-139 (the same expression twice). *)
Definition displayedKind (feedback : string) : FeedbackMessage.kind :=
  if includes "good" feedback || includes "Great" feedback
     || includes "Perfect" feedback
  then FeedbackMessage.success
  else if includes "Push" feedback || includes "cave" feedback
  then FeedbackMessage.error
  else FeedbackMessage.warning.

Definition getScoreColor (score : Z) : string :=
  if 80 <=? score then "health"
  else if 60 <=? score then "warning"
  else "destructive".

(* ================================================================== *)
(** ** pose-detection.ts: [PoseDetector], its life cycle

    The methods are asynchronous; they are embedded for calls that run one
    after the other (no call starts while another is suspended at an
    [await]).  What the MediaPipe library answers is an argument of the
    call; what the detector asks of it is the list of events of the
    call. *)

(** How a call of the library ends: a promise is fulfilled or rejected; a
    synchronous call returns ([Fulfilled]) or throws ([Rejected]). *)
Inductive settled (A : Type) : Type :=
| Fulfilled (a : A)
| Rejected (reason : string).

Arguments Fulfilled {A} a.
Arguments Rejected {A} reason.

Module RawResults.
Record t : Type := mk {
  landmarks : option (list Frame);
  worldLandmarks : option (list Frame)
}.
End RawResults.

(** The answers of the library during one call. *)
Record Mediapipe : Type := {
  forVisionTasks : settled Reference;
  createFromOptions : settled Reference;
  detectForVideo : settled RawResults.t
}.

Inductive DetectorEvent : Type :=
| Resolved                                  (* FilesetResolver.forVisionTasks *)
| Created (landmarker : Reference)          (* PoseLandmarker.createFromOptions *)
| Detected (landmarker : Reference)         (* detectForVideo *)
| Closed (landmarker : Reference)           (* close *)
| ConsoleError.

Record PoseDetector : Type := {
  poseLandmarker : option Reference;
  isInitialized : bool
}.

Definition newDetector : PoseDetector :=
  {| poseLandmarker := None; isInitialized := false |}.

Definition initialize (world : Mediapipe) (this : PoseDetector)
  : PoseDetector * list DetectorEvent * settled unit :=
  if isInitialized this then (this, [], Fulfilled tt)
  else
    match forVisionTasks world with
    | Rejected error => (this, [ConsoleError], Rejected error)
    | Fulfilled vision =>
        match createFromOptions world with
        | Rejected error => (this, [Resolved; ConsoleError], Rejected error)
        | Fulfilled landmarker =>
            ({| poseLandmarker := Some landmarker; isInitialized := true |},
             [Resolved; Created landmarker], Fulfilled tt)
        end
    end.

(** [x || []] *)
Definition orEmpty {A : Type} (x : option (list A)) : list A :=
  match x with
  | Some l => l
  | None => []
  end.

Definition detectPose (world : Mediapipe) (this : PoseDetector)
  : PoseDetector * list DetectorEvent * settled (option PoseResults.t) :=
  let '(this, events, ready) :=
    if match poseLandmarker this with None => true | Some _ => false end
       || negb (isInitialized this)
    then initialize world this
    else (this, [], Fulfilled tt) in
  match ready with
  | Rejected error => (this, events, Rejected error)
  | Fulfilled _ =>
      match poseLandmarker this with
      | None => (this, events ++ [ConsoleError], Fulfilled None)
      | Some landmarker =>
          match detectForVideo world with
          | Fulfilled results =>
              (this, events ++ [Detected landmarker],
               Fulfilled
                 (Some {| PoseResults.landmarks :=
                            orEmpty (RawResults.landmarks results);
                          PoseResults.worldLandmarks :=
                            orEmpty (RawResults.worldLandmarks results) |}))
          | Rejected _ =>
              (this, events ++ [Detected landmarker; ConsoleError], Fulfilled None)
          end
      end
  end.

Definition dispose (this : PoseDetector) : PoseDetector * list DetectorEvent :=
  match poseLandmarker this with
  | Some landmarker =>
      ({| poseLandmarker := None; isInitialized := false |}, [Closed landmarker])
  | None =>
      ({| poseLandmarker := None; isInitialized := false |}, [])
  end.

Inductive DetectorCall : Type :=
| Initialize (world : Mediapipe)
| DetectPose (world : Mediapipe)
| Dispose.

Definition call (this : PoseDetector) (c : DetectorCall)
  : PoseDetector * list DetectorEvent :=
  match c with
  | Initialize world => fst (initialize world this)
  | DetectPose world => fst (detectPose world this)
  | Dispose => dispose this
  end.

(** The detector and the events after a sequence of calls. *)
Fixpoint calls (this : PoseDetector) (cs : list DetectorCall)
  : PoseDetector * list DetectorEvent :=
  match cs with
  | [] => (this, [])
  | c :: rest =>
      let '(this1, events1) := call this c in
      let '(this2, events2) := calls this1 rest in
      (this2, events1 ++ events2)
  end.

Definition isCreated (e : DetectorEvent) : bool :=
  match e with Created _ => true | _ => false end.
Definition isClosed (e : DetectorEvent) : bool :=
  match e with Closed _ => true | _ => false end.

(** The landmarkers created and not closed, as a count. *)
Definition openLandmarkers (events : list DetectorEvent) : Z :=
  Z.of_nat (List.length (filter isCreated events))
  - Z.of_nat (List.length (filter isClosed events)).

Definition held (this : PoseDetector) : Z :=
  match poseLandmarker this with
  | Some _ => 1
  | None => 0
  end.

Definition wellFormed (this : PoseDetector) : Prop :=
  isInitialized this = true <-> poseLandmarker this <> None.

(** A call of [analyzeShoulderAbduction] on a frame with the arms raised
    (in position, average shoulder angle above 75 degrees). *)
Definition isRaisedCall (c : Call) : bool :=
  match c with
  | CallShoulderAbduction landmarks _ =>
      match shoulderSignals (getKeyLandmarks landmarks) with
      | Returned sig => isInPosition sig && Rgtb (avgShoulderAngle sig) 75
      | Thrown _ => false
      end
  | _ => false
  end.

(** 1 in phase "up", 0 in phase "down". *)
Definition ready (this : AnalyzerState) : Z :=
  match lastPosition this with
  | Up => 1
  | Down => 0
  end.

(** A canvas of 640 by 480 pixels with a 2D context. *)
Definition videoCanvas : Canvas.t :=
  {| Canvas.width := 640; Canvas.height := 480; Canvas.context2d := true |}.

Definition standingResults : PoseResults.t :=
  {| PoseResults.landmarks := [standingFrame];
     PoseResults.worldLandmarks := [] |}.

(** A library that loads and detects nothing. *)
Definition quietWorld : Mediapipe :=
  {| forVisionTasks := Fulfilled (reference 0);
     createFromOptions := Fulfilled (reference 1);
     detectForVideo :=
       Fulfilled {| RawResults.landmarks := None;
                    RawResults.worldLandmarks := None |} |}.

(** A descent and the return to standing, and a store with a session
    started at time 1000 on the squat. *)
Definition squatCycle : list Call :=
  [ CallSquat 1000 squatFrame squatConfig;
    CallSquat 2000 standingFrame squatConfig ].

Definition shoulderCycle : list Call :=
  [ CallShoulderAbduction armsRaisedFrame shoulderAbductionConfig;
    CallShoulderAbduction standingFrame shoulderAbductionConfig ].

Definition sessionStore : PoseState.t :=
  startSession 1000 (handleSelectExercise squat initialStore).

Close Scope Z_scope.

(* ================================================================== *)
(** * Properties *)

(* ------------------------------------------------------------------ *)
(** ** Numbers *)

Open Scope R_scope.

Lemma Rltb_true a b : a < b -> Rltb a b = true.
Proof. intros H. unfold Rltb. destruct (Rlt_dec a b); [reflexivity | contradiction]. Qed.
Lemma Rltb_false a b : b <= a -> Rltb a b = false.
Proof. intros H. unfold Rltb. destruct (Rlt_dec a b); [lra | reflexivity]. Qed.

Lemma atan2_bound y x : - PI < atan2 y x <= PI.
Proof.
  pose proof PI_RGT_0 as Hpi.
  unfold atan2.
  destruct (Rlt_dec 0 x) as [Hx|Hx].
  - pose proof (atan_bound (y / x)). lra.
  - destruct (Rlt_dec x 0) as [Hx'|Hx'].
    + destruct (Rle_dec 0 y) as [Hy|Hy].
      * assert (y / x <= 0).
        { unfold Rdiv. assert (/ x < 0) by (apply Rinv_lt_0_compat; lra). nra. }
        assert (atan (y / x) <= 0).
        { destruct H as [H|H].
          - left. rewrite <- atan_0. apply atan_increasing. lra.
          - rewrite H, atan_0. lra. }
        pose proof (atan_bound (y / x)). lra.
      * assert (0 < y / x).
        { unfold Rdiv. assert (/ x < 0) by (apply Rinv_lt_0_compat; lra). nra. }
        assert (0 < atan (y / x)).
        { rewrite <- atan_0. apply atan_increasing. lra. }
        pose proof (atan_bound (y / x)). lra.
    + destruct (Rlt_dec 0 y); [lra|]. destruct (Rlt_dec y 0); lra.
Qed.

Lemma norm_factor x y : x <> 0 -> norm x y = Rabs x * sqrt (1 + (y / x)²).
Proof.
  intros Hx. unfold norm.
  replace (x * x + y * y) with (x² * (1 + (y / x)²)).
  - rewrite sqrt_mult.
    + rewrite sqrt_Rsqr_abs. reflexivity.
    + apply Rle_0_sqr.
    + pose proof (Rle_0_sqr (y / x)). lra.
  - unfold Rsqr. field. exact Hx.
Qed.

Lemma sqrt_1_sqr_pos t : 0 < sqrt (1 + t²).
Proof. apply sqrt_lt_R0. pose proof (Rle_0_sqr t). lra. Qed.

Lemma cos_atan2 y x : cos (atan2 y x) * norm x y = x.
Proof.
  unfold atan2.
  destruct (Rlt_dec 0 x) as [Hx|Hx].
  - rewrite cos_atan, norm_factor by lra. rewrite Rabs_pos_eq by lra.
    pose proof (sqrt_1_sqr_pos (y / x)). field. lra.
  - destruct (Rlt_dec x 0) as [Hx'|Hx'].
    + assert (Hneg : - cos (atan (y / x)) * norm x y = x).
      { rewrite cos_atan, norm_factor by lra. rewrite Rabs_left by lra.
        pose proof (sqrt_1_sqr_pos (y / x)). field. lra. }
      destruct (Rle_dec 0 y).
      * rewrite neg_cos. exact Hneg.
      * replace (atan (y / x) - PI) with (- (- atan (y / x) + PI)) by lra.
        rewrite cos_neg, neg_cos, cos_neg. exact Hneg.
    + assert (x = 0) by lra. subst x.
      destruct (Rlt_dec 0 y); [rewrite cos_PI2; lra|].
      destruct (Rlt_dec y 0).
      * replace (- PI / 2) with (- (PI / 2)) by lra. rewrite cos_neg, cos_PI2. lra.
      * assert (y = 0) by lra. subst y. unfold norm.
        replace (0 * 0 + 0 * 0) with 0 by lra. rewrite sqrt_0. lra.
Qed.

Lemma sin_atan2 y x : sin (atan2 y x) * norm x y = y.
Proof.
  unfold atan2.
  destruct (Rlt_dec 0 x) as [Hx|Hx].
  - rewrite sin_atan, norm_factor by lra. rewrite Rabs_pos_eq by lra.
    pose proof (sqrt_1_sqr_pos (y / x)). field. lra.
  - destruct (Rlt_dec x 0) as [Hx'|Hx'].
    + assert (Hneg : - sin (atan (y / x)) * norm x y = y).
      { rewrite sin_atan, norm_factor by lra. rewrite Rabs_left by lra.
        pose proof (sqrt_1_sqr_pos (y / x)). field. lra. }
      destruct (Rle_dec 0 y).
      * rewrite neg_sin. exact Hneg.
      * replace (atan (y / x) - PI) with (- (- atan (y / x) + PI)) by lra.
        rewrite sin_neg, neg_sin, sin_neg. lra.
    + assert (x = 0) by lra. subst x.
      unfold norm. replace (0 * 0 + y * y) with (y²) by (unfold Rsqr; lra).
      rewrite sqrt_Rsqr_abs.
      destruct (Rlt_dec 0 y); [rewrite sin_PI2, Rabs_pos_eq; lra|].
      destruct (Rlt_dec y 0).
      * replace (- PI / 2) with (- (PI / 2)) by lra.
        rewrite sin_neg, sin_PI2, Rabs_left; lra.
      * assert (y = 0) by lra. subst y. rewrite sin_0. lra.
Qed.

Lemma norm_nonneg x y : 0 <= norm x y.
Proof. apply sqrt_pos. Qed.

Lemma norm_pos x y : (x <> 0 \/ y <> 0) -> 0 < norm x y.
Proof.
  intros H. apply sqrt_lt_R0.
  destruct H as [H|H].
  - assert (0 < x * x) by (destruct (Rtotal_order x 0) as [?|[?|?]]; [nra|lra|nra]).
    nra.
  - assert (0 < y * y) by (destruct (Rtotal_order y 0) as [?|[?|?]]; [nra|lra|nra]).
    nra.
Qed.

Lemma norm_scale k x y : 0 <= k -> norm (k * x) (k * y) = k * norm x y.
Proof.
  intros Hk. unfold norm.
  replace (k * x * (k * x) + k * y * (k * y)) with (k² * (x * x + y * y))
    by (unfold Rsqr; ring).
  rewrite sqrt_mult; [| apply Rle_0_sqr | nra].
  rewrite sqrt_Rsqr by exact Hk. reflexivity.
Qed.

Lemma calculateAngle_present p1 p2 p3 :
  calculateAngle (Some p1) (Some p2) (Some p3) =
  Returned
    (let radians :=
       atan2 (PoseLandmark.y p3 - PoseLandmark.y p2) (PoseLandmark.x p3 - PoseLandmark.x p2)
       - atan2 (PoseLandmark.y p1 - PoseLandmark.y p2) (PoseLandmark.x p1 - PoseLandmark.x p2) in
     let angle := Rabs (radians * (180 / PI)) in
     if Rgt_dec angle 180 then 360 - angle else angle).
Proof. reflexivity. Qed.

Lemma fold_cases (r : R) :
  - (2 * PI) < r < 2 * PI ->
  let angle := Rabs (r * (180 / PI)) in
  let theta := if Rgt_dec angle 180 then 360 - angle else angle in
  0 <= theta <= 180 /\ cos (theta * (PI / 180)) = cos r.
Proof.
  intros Hr angle theta.
  pose proof PI_RGT_0 as Hpi.
  assert (Hk : 0 < 180 / PI) by (apply Rdiv_lt_0_compat; lra).
  assert (Hangle : angle = Rabs r * (180 / PI)).
  { unfold angle. rewrite Rabs_mult, (Rabs_pos_eq (180 / PI)) by lra. reflexivity. }
  assert (Hback : angle * (PI / 180) = Rabs r).
  { rewrite Hangle. field. lra. }
  assert (Habs : 0 <= Rabs r < 2 * PI).
  { split; [apply Rabs_pos|]. apply Rabs_def1; lra. }
  assert (Hlt : angle < 360).
  { rewrite Hangle. replace 360 with (2 * PI * (180 / PI)) by (field; lra). nra. }
  assert (Hge : 0 <= angle) by (unfold angle; apply Rabs_pos).
  assert (Hcosabs : cos (Rabs r) = cos r).
  { unfold Rabs. destruct (Rcase_abs r); [apply cos_neg | reflexivity]. }
  unfold theta. destruct (Rgt_dec angle 180) as [Hgt|Hle].
  - split; [lra|].
    replace ((360 - angle) * (PI / 180)) with (- (angle * (PI / 180)) + 2 * INR 1 * PI)
      by (simpl; field).
    rewrite cos_period, cos_neg, Hback. exact Hcosabs.
  - split; [lra|]. rewrite Hback. exact Hcosabs.
Qed.

Section Angle.
Variables p1 p2 p3 : PoseLandmark.t.
Let ux := PoseLandmark.x p1 - PoseLandmark.x p2.
Let uy := PoseLandmark.y p1 - PoseLandmark.y p2.
Let vx := PoseLandmark.x p3 - PoseLandmark.x p2.
Let vy := PoseLandmark.y p3 - PoseLandmark.y p2.

Lemma calculateAngle_cos :
  exists theta,
    calculateAngle (Some p1) (Some p2) (Some p3) = Returned theta
    /\ 0 <= theta <= 180
    /\ cos (theta * (PI / 180)) * (norm ux uy * norm vx vy) = dot ux uy vx vy.
Proof.
  rewrite calculateAngle_present. fold ux uy vx vy.
  eexists. split; [reflexivity|].
  pose proof (atan2_bound vy vx) as Hb. pose proof (atan2_bound uy ux) as Ha.
  destruct (fold_cases (atan2 vy vx - atan2 uy ux)) as [Hrange Hcos]; [lra|].
  cbv zeta in *. split; [exact Hrange|].
  rewrite Hcos, cos_minus.
  pose proof (cos_atan2 vy vx). pose proof (sin_atan2 vy vx).
  pose proof (cos_atan2 uy ux). pose proof (sin_atan2 uy ux).
  unfold dot. nra.
Qed.

Lemma calculateAngle_angleBetween :
  (ux <> 0 \/ uy <> 0) -> (vx <> 0 \/ vy <> 0) ->
  calculateAngle (Some p1) (Some p2) (Some p3) = Returned (angleBetween ux uy vx vy).
Proof.
  intros Hu Hv.
  destruct calculateAngle_cos as (theta & Heq & Hrange & Hcos).
  rewrite Heq. f_equal. unfold angleBetween.
  pose proof PI_RGT_0 as Hpi.
  pose proof (norm_pos _ _ Hu). pose proof (norm_pos _ _ Hv).
  assert (Hn : 0 < norm ux uy * norm vx vy) by nra.
  replace (dot ux uy vx vy / (norm ux uy * norm vx vy)) with (cos (theta * (PI / 180))).
  - rewrite acos_cos.
    + field. lra.
    + split; [nra|]. replace PI with (180 * (PI / 180)) at 2 by (field; lra).
      apply Rmult_le_compat_r; [|lra]. apply Rlt_le, Rdiv_lt_0_compat; lra.
  - rewrite <- Hcos. field. lra.
Qed.
End Angle.

Lemma norm_sqr x y : norm x y * norm x y = x * x + y * y.
Proof. unfold norm. apply sqrt_sqrt. nra. Qed.

Lemma norm_opp x y : norm (- x) (- y) = norm x y.
Proof. unfold norm. f_equal. ring. Qed.

Lemma angleBetween_same_ray ux uy k :
  (ux <> 0 \/ uy <> 0) -> 0 < k -> angleBetween ux uy (k * ux) (k * uy) = 0.
Proof.
  intros Hu Hk. unfold angleBetween.
  rewrite norm_scale by lra.
  pose proof (norm_pos _ _ Hu) as Hn. pose proof (norm_sqr ux uy) as Hs.
  assert (Hne : norm ux uy * (k * norm ux uy) <> 0) .
  { apply Rgt_not_eq. apply Rmult_lt_0_compat; [|apply Rmult_lt_0_compat]; lra. }
  assert (Hd : dot ux uy (k * ux) (k * uy) = norm ux uy * (k * norm ux uy))
.
  { replace (norm ux uy * (k * norm ux uy)) with (k * (norm ux uy * norm ux uy)) by ring.
    rewrite Hs. unfold dot. ring. }
  rewrite Hd. unfold Rdiv. rewrite Rinv_r by exact Hne. rewrite acos_1. lra.
Qed.

Lemma angleBetween_opposite_ray ux uy k :
  (ux <> 0 \/ uy <> 0) -> 0 < k -> angleBetween ux uy (- k * ux) (- k * uy) = 180.
Proof.
  intros Hu Hk. unfold angleBetween.
  replace (- k * ux) with (- (k * ux)) by ring.
  replace (- k * uy) with (- (k * uy)) by ring.
  rewrite norm_opp, norm_scale by lra.
  pose proof (norm_pos _ _ Hu) as Hn. pose proof (norm_sqr ux uy) as Hs.
  pose proof PI_RGT_0 as Hpi.
  assert (Hne : norm ux uy * (k * norm ux uy) <> 0) .
  { apply Rgt_not_eq. apply Rmult_lt_0_compat; [|apply Rmult_lt_0_compat]; lra. }
  assert (Hd : dot ux uy (- (k * ux)) (- (k * uy))
               = - (norm ux uy * (k * norm ux uy))).
  { replace (norm ux uy * (k * norm ux uy)) with (k * (norm ux uy * norm ux uy)) by ring.
    rewrite Hs. unfold dot. ring. }
  rewrite Hd. unfold Rdiv. rewrite <- Ropp_mult_distr_l, Rinv_r by exact Hne.
  rewrite acos_opp, acos_1. field. lra.
Qed.

Lemma angleBetween_right : angleBetween 1 0 0 1 = 90.
Proof.
  unfold angleBetween, dot.
  replace ((1 * 0 + 0 * 1) / (norm 1 0 * norm 0 1)) with 0 by (unfold Rdiv; ring).
  rewrite acos_0. pose proof PI_RGT_0. field. lra.
Qed.

Lemma atan2_negative_x_axis x : x < 0 -> atan2 0 x = PI.
Proof.
  intros Hx. unfold atan2.
  destruct (Rlt_dec 0 x); [lra|]. destruct (Rlt_dec x 0); [|lra].
  destruct (Rle_dec 0 0); [|lra].
  unfold Rdiv. rewrite Rmult_0_l, atan_0. lra.
Qed.

Lemma atan2_negative_y_axis y : y < 0 -> atan2 y 0 = - PI / 2.
Proof.
  intros Hy. unfold atan2.
  destruct (Rlt_dec 0 0); [lra|]. destruct (Rlt_dec 0 0); [lra|].
  destruct (Rlt_dec 0 y); [lra|]. destruct (Rlt_dec y 0); [reflexivity | lra].
Qed.

(** The geometry of the formula, in exact arithmetic: the value is the
    unsigned angle at the vertex [p2] between the rays towards [p1] and
    [p3], in degrees, the arc cosine of the normalised scalar product
    whenever both rays exist; 90 for (1,0), (0,0), (0,1), 180 when [p1] and
    [p3] are on opposite sides of [p2] on one line, 0 when they are on one
    ray.  The code evaluates the same formula in double precision and
    meets these equalities up to rounding only. *)
Lemma calculateAngle_unsigned_angle :
  forall p1 p2 p3 : PoseLandmark.t,
    let ux := PoseLandmark.x p1 - PoseLandmark.x p2 in
    let uy := PoseLandmark.y p1 - PoseLandmark.y p2 in
    let vx := PoseLandmark.x p3 - PoseLandmark.x p2 in
    let vy := PoseLandmark.y p3 - PoseLandmark.y p2 in
    let raw := Rabs ((atan2 vy vx - atan2 uy ux) * (180 / PI)) in
    exists theta,
      calculateAngle (Some p1) (Some p2) (Some p3) = Returned theta
      /\ 0 <= theta <= 180
      /\ ((ux <> 0 \/ uy <> 0) -> (vx <> 0 \/ vy <> 0) ->
          theta = angleBetween ux uy vx vy)
      /\ (raw > 180 -> theta = 360 - raw)
      /\ (raw <= 180 -> theta = raw)
      /\ (PoseLandmark.x p1 = 1 -> PoseLandmark.y p1 = 0 ->
          PoseLandmark.x p2 = 0 -> PoseLandmark.y p2 = 0 ->
          PoseLandmark.x p3 = 0 -> PoseLandmark.y p3 = 1 -> theta = 90)
      /\ (forall k, 0 < k -> (ux <> 0 \/ uy <> 0) ->
          vx = - k * ux -> vy = - k * uy -> theta = 180)
      /\ (forall k, 0 < k -> (ux <> 0 \/ uy <> 0) ->
          vx = k * ux -> vy = k * uy -> theta = 0)
      /\ (forall q1 q2 q3,
          PoseLandmark.x q1 = PoseLandmark.x p1 -> PoseLandmark.y q1 = PoseLandmark.y p1 ->
          PoseLandmark.x q2 = PoseLandmark.x p2 -> PoseLandmark.y q2 = PoseLandmark.y p2 ->
          PoseLandmark.x q3 = PoseLandmark.x p3 -> PoseLandmark.y q3 = PoseLandmark.y p3 ->
          calculateAngle (Some q1) (Some q2) (Some q3) = Returned theta).
Proof.
  intros p1 p2 p3 ux uy vx vy raw.
  destruct (calculateAngle_cos p1 p2 p3) as (theta & Heq & Hrange & _).
  exists theta. split; [exact Heq|]. split; [exact Hrange|].
  assert (Hab : (ux <> 0 \/ uy <> 0) -> (vx <> 0 \/ vy <> 0) ->
                theta = angleBetween ux uy vx vy).
  { intros Hu Hv. pose proof (calculateAngle_angleBetween p1 p2 p3 Hu Hv) as H.
    rewrite Heq in H. injection H as H. exact H. }
  assert (Hdef : theta = if Rgt_dec raw 180 then 360 - raw else raw).
  { rewrite calculateAngle_present in Heq. injection Heq as Heq. symmetry. exact Heq. }
  split; [exact Hab|].
  split; [intros Hraw; rewrite Hdef; destruct (Rgt_dec raw 180); [reflexivity | lra]|].
  split; [intros Hraw; rewrite Hdef; destruct (Rgt_dec raw 180); [lra | reflexivity]|].
  split.
  { intros H1x H1y H2x H2y H3x H3y.
    assert (Eux : ux = 1) by (unfold ux; lra). assert (Euy : uy = 0) by (unfold uy; lra).
    assert (Evx : vx = 0) by (unfold vx; lra). assert (Evy : vy = 1) by (unfold vy; lra).
    rewrite Hab by lra. rewrite Eux, Euy, Evx, Evy. apply angleBetween_right. }
  split.
  { intros k Hk Hu Hvx Hvy. rewrite Hab; [| exact Hu |].
    - rewrite Hvx, Hvy. apply angleBetween_opposite_ray; assumption.
    - destruct Hu as [Hu|Hu]; [left; rewrite Hvx | right; rewrite Hvy]; nra. }
  split.
  { intros k Hk Hu Hvx Hvy. rewrite Hab; [| exact Hu |].
    - rewrite Hvx, Hvy. apply angleBetween_same_ray; assumption.
    - destruct Hu as [Hu|Hu]; [left; rewrite Hvx | right; rewrite Hvy]; nra. }
  intros q1 q2 q3 E1x E1y E2x E2y E3x E3y.
  rewrite calculateAngle_present, E1x, E1y, E2x, E2y, E3x, E3y.
  rewrite <- calculateAngle_present. exact Heq.
Qed.

(** Three configurations whose angle is known exactly. *)
Section Configurations.
Variables p1 p2 p3 : PoseLandmark.t.
Let ux := PoseLandmark.x p1 - PoseLandmark.x p2.
Let uy := PoseLandmark.y p1 - PoseLandmark.y p2.
Let vx := PoseLandmark.x p3 - PoseLandmark.x p2.
Let vy := PoseLandmark.y p3 - PoseLandmark.y p2.

Lemma calculateAngle_straight k :
  0 < k -> (ux <> 0 \/ uy <> 0) -> vx = - k * ux -> vy = - k * uy ->
  calculateAngle (Some p1) (Some p2) (Some p3) = Returned 180.
Proof.
  intros Hk Hu Hx Hy. rewrite calculateAngle_angleBetween.
  - fold ux uy vx vy. rewrite Hx, Hy, angleBetween_opposite_ray by assumption.
    reflexivity.
  - exact Hu.
  - fold vx vy. destruct Hu as [Hu|Hu]; [left; rewrite Hx | right; rewrite Hy]; nra.
Qed.

Lemma calculateAngle_folded k :
  0 < k -> (ux <> 0 \/ uy <> 0) -> vx = k * ux -> vy = k * uy ->
  calculateAngle (Some p1) (Some p2) (Some p3) = Returned 0.
Proof.
  intros Hk Hu Hx Hy. rewrite calculateAngle_angleBetween.
  - fold ux uy vx vy. rewrite Hx, Hy, angleBetween_same_ray by assumption.
    reflexivity.
  - exact Hu.
  - fold vx vy. destruct Hu as [Hu|Hu]; [left; rewrite Hx | right; rewrite Hy]; nra.
Qed.

Lemma calculateAngle_perpendicular :
  (ux <> 0 \/ uy <> 0) -> (vx <> 0 \/ vy <> 0) -> dot ux uy vx vy = 0 ->
  calculateAngle (Some p1) (Some p2) (Some p3) = Returned 90.
Proof.
  intros Hu Hv Hd. rewrite calculateAngle_angleBetween by assumption.
  fold ux uy vx vy. unfold angleBetween. rewrite Hd.
  unfold Rdiv at 1. rewrite Rmult_0_l, acos_0.
  f_equal. pose proof PI_RGT_0. field. lra.
Qed.
End Configurations.

(** The other comparisons. *)
Lemma Rgtb_true a b : b < a -> Rgtb a b = true.
Proof. intros H. unfold Rgtb. destruct (Rgt_dec a b); [reflexivity | lra]. Qed.
Lemma Rgtb_false a b : a <= b -> Rgtb a b = false.
Proof. intros H. unfold Rgtb. destruct (Rgt_dec a b); [lra | reflexivity]. Qed.
Lemma Rleb_true a b : a <= b -> Rleb a b = true.
Proof. intros H. unfold Rleb. destruct (Rle_dec a b); [reflexivity | lra]. Qed.
Lemma Rleb_false a b : b < a -> Rleb a b = false.
Proof. intros H. unfold Rleb. destruct (Rle_dec a b); [lra | reflexivity]. Qed.

(* ------------------------------------------------------------------ *)
(** ** The test frames *)

Ltac keypoints :=
  cbn [getKeyLandmarks index nth_error bodyFrame repeat app
       leftShoulder rightShoulder leftElbow rightElbow leftHip rightHip
       leftKnee rightKnee leftAnkle rightAnkle].

Ltac coords := cbn [pt PoseLandmark.x PoseLandmark.y PoseLandmark.z]; try lra.

(** Comparisons, [Math.min] and [Math.abs] on numerals. *)
Ltac numerals :=
  repeat match goal with
    | |- context [Rmin ?a ?b] =>
        first [rewrite (Rmin_left a b) by lra | rewrite (Rmin_right a b) by lra]
    | |- context [Rabs ?a] =>
        first [rewrite (Rabs_pos_eq a) by lra | rewrite (Rabs_left1 a) by lra]
    | |- context [Rltb ?a ?b] =>
        first [rewrite (Rltb_true a b) by lra | rewrite (Rltb_false a b) by lra]
    | |- context [Rgtb ?a ?b] =>
        first [rewrite (Rgtb_true a b) by lra | rewrite (Rgtb_false a b) by lra]
    | |- context [Rleb ?a ?b] =>
        first [rewrite (Rleb_true a b) by lra | rewrite (Rleb_false a b) by lra]
    end.

Ltac members := cbn [bind member pt PoseLandmark.x PoseLandmark.y PoseLandmark.z].

Lemma squatSignals_standing :
  squatSignals (getKeyLandmarks standingFrame)
  = Returned {| kneeAngle := 180; hipAngle := 180;
                isInBottomPosition := false; hasGoodDepth := false;
                leftValgus := false; rightValgus := false;
                torsoLean := 0; excessiveLean := false |}.
Proof.
  unfold squatSignals, standingFrame. keypoints.
  rewrite (calculateAngle_straight (pt 0.6 0.5) (pt 0.6 0.7) (pt 0.6 0.9) 1) by coords.
  rewrite (calculateAngle_straight (pt 0.4 0.5) (pt 0.4 0.7) (pt 0.4 0.9) 1) by coords.
  rewrite (calculateAngle_straight (pt 0.6 0.2) (pt 0.6 0.5) (pt 0.6 0.7) (2/3)) by coords.
  members. numerals. repeat f_equal; lra.
Qed.

Lemma squatSignals_squat :
  squatSignals (getKeyLandmarks squatFrame)
  = Returned {| kneeAngle := 90; hipAngle := 90;
                isInBottomPosition := true; hasGoodDepth := false;
                leftValgus := false; rightValgus := false;
                torsoLean := 0; excessiveLean := false |}.
Proof.
  unfold squatSignals, squatFrame. keypoints.
  rewrite (calculateAngle_perpendicular (pt 0.8 0.7) (pt 0.6 0.7) (pt 0.6 0.9))
    by (unfold dot; coords).
  rewrite (calculateAngle_perpendicular (pt 0.2 0.7) (pt 0.4 0.7) (pt 0.4 0.9))
    by (unfold dot; coords).
  rewrite (calculateAngle_perpendicular (pt 0.8 0.4) (pt 0.8 0.7) (pt 0.6 0.7))
    by (unfold dot; coords).
  members. numerals. repeat f_equal; lra.
Qed.

Lemma squatSignals_truncated :
  squatSignals (getKeyLandmarks truncatedFrame) = Thrown TypeError.
Proof. reflexivity. Qed.

Lemma shoulderSignals_standing :
  shoulderSignals (getKeyLandmarks standingFrame)
  = Returned {| leftShoulderAngle := 0; rightShoulderAngle := 0;
                avgShoulderAngle := 0; shoulderSymmetry := 0;
                angleDeviation := 90;
                isInTargetRange := false; isInPosition := false;
                leftHiking := false; rightHiking := false |}.
Proof.
  unfold shoulderSignals, standingFrame, targetAngle. keypoints.
  rewrite (calculateAngle_folded (pt 0.6 0.35) (pt 0.6 0.2) (pt 0.6 0.5) 2) by coords.
  rewrite (calculateAngle_folded (pt 0.4 0.35) (pt 0.4 0.2) (pt 0.4 0.5) 2) by coords.
  members. numerals. repeat f_equal; lra.
Qed.

Lemma shoulderSignals_armsRaised :
  shoulderSignals (getKeyLandmarks armsRaisedFrame)
  = Returned {| leftShoulderAngle := 90; rightShoulderAngle := 90;
                avgShoulderAngle := 90; shoulderSymmetry := 0;
                angleDeviation := 0;
                isInTargetRange := true; isInPosition := true;
                leftHiking := false; rightHiking := false |}.
Proof.
  unfold shoulderSignals, armsRaisedFrame, targetAngle. keypoints.
  rewrite (calculateAngle_perpendicular (pt 0.8 0.2) (pt 0.6 0.2) (pt 0.6 0.5))
    by (unfold dot; coords).
  rewrite (calculateAngle_perpendicular (pt 0.2 0.2) (pt 0.4 0.2) (pt 0.4 0.5))
    by (unfold dot; coords).
  members. numerals. repeat f_equal; lra.
Qed.

Lemma shoulderSignals_oneArmRaised :
  shoulderSignals (getKeyLandmarks oneArmRaisedFrame)
  = Returned {| leftShoulderAngle := 90; rightShoulderAngle := 0;
                avgShoulderAngle := 45; shoulderSymmetry := 90;
                angleDeviation := 45;
                isInTargetRange := false; isInPosition := false;
                leftHiking := false; rightHiking := false |}.
Proof.
  unfold shoulderSignals, oneArmRaisedFrame, targetAngle. keypoints.
  rewrite (calculateAngle_perpendicular (pt 0.8 0.2) (pt 0.6 0.2) (pt 0.6 0.5))
    by (unfold dot; coords).
  rewrite (calculateAngle_folded (pt 0.4 0.35) (pt 0.4 0.2) (pt 0.4 0.5) 2) by coords.
  members. numerals. repeat f_equal; lra.
Qed.

Close Scope R_scope.
Open Scope Z_scope.

(* ------------------------------------------------------------------ *)
(** ** The two policies, by the outcome of their signals *)

Lemma analyzeSquat_unfold now landmarks config this :
  analyzeSquat now landmarks config this =
  let this1 := set_frameCount (frameCount this + 1) this in
  match squatSignals (getKeyLandmarks landmarks) with
  | Thrown e => (this1, Thrown e)
  | Returned sig =>
      let this2 := squatRepCounting now sig this1 in
      let fs := squatFeedback sig (frameCount this2) in
      (set_currentScore (Z.max 0 (snd fs)) this2,
       Returned
         {| Analysis.score := Z.max 0 (snd fs);
            Analysis.feedback := rankFeedback (fst fs);
            Analysis.repCount := repCount this2;
            Analysis.isInPosition := isInBottomPosition sig;
            Analysis.angles := Angles.mk (kneeAngle sig) (hipAngle sig) 0 |})
  end.
Proof.
  unfold analyzeSquat. cbv zeta.
  destruct (squatSignals (getKeyLandmarks landmarks)) as [sig|e]; [|reflexivity].
  destruct (squatFeedback sig _) as [feedback score]. reflexivity.
Qed.

Lemma analyzeShoulderAbduction_unfold landmarks config this :
  analyzeShoulderAbduction landmarks config this =
  match shoulderSignals (getKeyLandmarks landmarks) with
  | Thrown e => (this, Thrown e)
  | Returned sig =>
      let this1 := shoulderRepCounting sig this in
      let fs := shoulderFeedback sig in
      (set_currentScore (Z.max 0 (snd fs)) this1,
       Returned
         {| Analysis.score := Z.max 0 (snd fs);
            Analysis.feedback := rankFeedback (fst fs);
            Analysis.repCount := repCount this1;
            Analysis.isInPosition := isInPosition sig;
            Analysis.angles := Angles.mk 0 0 (avgShoulderAngle sig) |})
  end.
Proof.
  unfold analyzeShoulderAbduction. cbv zeta.
  destruct (shoulderSignals (getKeyLandmarks landmarks)) as [sig|e]; [|reflexivity].
  destruct (shoulderFeedback sig) as [feedback score]. reflexivity.
Qed.

Lemma analyzeSquat_returns now landmarks config this this' r :
  analyzeSquat now landmarks config this = (this', Returned r) ->
  exists sig, squatSignals (getKeyLandmarks landmarks) = Returned sig.
Proof.
  rewrite analyzeSquat_unfold. cbv zeta.
  destruct (squatSignals (getKeyLandmarks landmarks)) as [sig|e]; [eauto | discriminate].
Qed.

Lemma analyzeShoulderAbduction_returns landmarks config this this' r :
  analyzeShoulderAbduction landmarks config this = (this', Returned r) ->
  exists sig, shoulderSignals (getKeyLandmarks landmarks) = Returned sig.
Proof.
  rewrite analyzeShoulderAbduction_unfold.
  destruct (shoulderSignals (getKeyLandmarks landmarks)) as [sig|e]; [eauto | discriminate].
Qed.

(* ------------------------------------------------------------------ *)
(** ** Ranking *)

Lemma insertByPriority_perm m l : Permutation (insertByPriority m l) (m :: l).
Proof.
  induction l as [|h t IH]; simpl; [reflexivity|].
  destruct (_ <=? 0); [reflexivity|].
  rewrite IH. apply perm_swap.
Qed.

Lemma sortByPriority_perm l : Permutation (sortByPriority l) l.
Proof.
  induction l as [|m t IH]; simpl; [constructor|].
  rewrite insertByPriority_perm. constructor. exact IH.
Qed.

Lemma insertByPriority_sorted m l :
  StronglySorted ranksAbove l -> StronglySorted ranksAbove (insertByPriority m l).
Proof.
  induction 1 as [|h t Hs IH Hh]; simpl.
  - constructor; constructor.
  - destruct (Z.leb_spec (FeedbackMessage.priority h - FeedbackMessage.priority m) 0) as [Hle|Hgt].
    + constructor; [constructor; assumption|].
      constructor; [unfold ranksAbove; lia|].
      eapply Forall_impl; [|exact Hh]. unfold ranksAbove. intros a Ha. lia.
    + constructor; [exact IH|].
      eapply Permutation_Forall; [symmetry; apply insertByPriority_perm|].
      constructor; [unfold ranksAbove; lia | exact Hh].
Qed.

Lemma sortByPriority_sorted l : StronglySorted ranksAbove (sortByPriority l).
Proof.
  induction l as [|m t IH]; simpl; [constructor|].
  apply insertByPriority_sorted, IH.
Qed.

Lemma insertByPriority_stable p m l :
  filter (hasPriority p) (insertByPriority m l) = filter (hasPriority p) (m :: l).
Proof.
  induction l as [|h t IH]; [reflexivity|].
  cbn [insertByPriority].
  destruct (Z.leb_spec (FeedbackMessage.priority h - FeedbackMessage.priority m) 0) as [Hle|Hgt];
    [reflexivity|].
  cbn [filter] in *. rewrite IH. unfold hasPriority.
  destruct (Z.eqb_spec (FeedbackMessage.priority h) p) as [Hh|Hh];
    destruct (Z.eqb_spec (FeedbackMessage.priority m) p) as [Hm|Hm];
    try reflexivity; lia.
Qed.

Lemma sortByPriority_stable p l :
  filter (hasPriority p) (sortByPriority l) = filter (hasPriority p) l.
Proof.
  induction l as [|m t IH]; [reflexivity|].
  cbn [sortByPriority]. rewrite insertByPriority_stable. cbn [filter].
  rewrite IH. reflexivity.
Qed.

Lemma hasPriority_own m : hasPriority (FeedbackMessage.priority m) m = true.
Proof. unfold hasPriority. apply Z.eqb_refl. Qed.

Lemma filter_head_in p (a : FeedbackMessage.t) l l' :
  filter (hasPriority p) l' = a :: l -> In a l'.
Proof.
  intros H. assert (Hin : In a (filter (hasPriority p) l')) by (rewrite H; left; reflexivity).
  apply filter_In in Hin. tauto.
Qed.

Lemma sorted_head_ranks_above h t a :
  StronglySorted ranksAbove (h :: t) -> In a (h :: t) -> ranksAbove h a.
Proof.
  intros Hs [<-|Hin].
  - unfold ranksAbove. lia.
  - apply StronglySorted_inv in Hs. destruct Hs as [_ Hall].
    rewrite Forall_forall in Hall. apply Hall, Hin.
Qed.

Lemma stable_sorted_unique l1 : forall l2,
  StronglySorted ranksAbove l1 -> StronglySorted ranksAbove l2 ->
  (forall p, filter (hasPriority p) l1 = filter (hasPriority p) l2) ->
  l1 = l2.
Proof.
  induction l1 as [|a t1 IH]; intros l2 S1 S2 Hf.
  - destruct l2 as [|h t2]; [reflexivity|].
    specialize (Hf (FeedbackMessage.priority h)). cbn [filter] in Hf.
    rewrite hasPriority_own in Hf. discriminate.
  - destruct l2 as [|h t2].
    + specialize (Hf (FeedbackMessage.priority a)). cbn [filter] in Hf.
      rewrite hasPriority_own in Hf. discriminate.
    + assert (Ha : In a (h :: t2)).
      { pose proof (Hf (FeedbackMessage.priority a)) as H. cbn [filter] in H.
        rewrite hasPriority_own in H. symmetry in H.
        exact (filter_head_in _ _ _ (h :: t2) H). }
      assert (Hh : In h (a :: t1)).
      { pose proof (Hf (FeedbackMessage.priority h)) as H.
        cbn [filter] in H. rewrite (hasPriority_own h) in H.
        exact (filter_head_in _ _ _ (a :: t1) H). }
      pose proof (sorted_head_ranks_above _ _ _ S2 Ha) as R1.
      pose proof (sorted_head_ranks_above _ _ _ S1 Hh) as R2.
      unfold ranksAbove in R1, R2.
      assert (Hp : FeedbackMessage.priority a = FeedbackMessage.priority h) by lia.
      pose proof (Hf (FeedbackMessage.priority a)) as Hhead. cbn [filter] in Hhead.
      rewrite hasPriority_own in Hhead. rewrite Hp in Hhead at 2.
      rewrite hasPriority_own in Hhead. injection Hhead as Hah Htail. subst h.
      f_equal. apply IH.
      * apply StronglySorted_inv in S1. tauto.
      * apply StronglySorted_inv in S2. tauto.
      * intros p. specialize (Hf p). cbn [filter] in Hf.
        destruct (hasPriority p a); [injection Hf as Hf|]; exact Hf.
Qed.

(** C7. The feedback list either policy returns is the list of the
    messages the frame generated, sorted by descending priority and cut
    to its first two; the sort is a permutation, descending, keeps
    messages of equal priority in the order they were pushed, and is the
    only list with these properties; messages of priorities 3, 1, 4, 2
    are returned as the priority-4 message followed by the priority-3
    message. *)
Theorem feedback_ranked_top_two :
  (forall now landmarks config this this' r,
      analyzeSquat now landmarks config this = (this', Returned r) ->
      exists sig,
        squatSignals (getKeyLandmarks landmarks) = Returned sig
        /\ Analysis.feedback r
           = firstn 2 (sortByPriority (fst (squatFeedback sig (frameCount this')))))
  /\ (forall landmarks config this this' r,
      analyzeShoulderAbduction landmarks config this = (this', Returned r) ->
      exists sig,
        shoulderSignals (getKeyLandmarks landmarks) = Returned sig
        /\ Analysis.feedback r = firstn 2 (sortByPriority (fst (shoulderFeedback sig))))
  /\ (forall generated,
      Permutation (sortByPriority generated) generated
      /\ StronglySorted ranksAbove (sortByPriority generated)
      /\ forall p, filter (hasPriority p) (sortByPriority generated)
                   = filter (hasPriority p) generated)
  /\ (forall generated sorted,
      StronglySorted ranksAbove sorted ->
      (forall p, filter (hasPriority p) sorted = filter (hasPriority p) generated) ->
      sorted = sortByPriority generated)
  /\ (forall m3 m1 m4 m2,
      FeedbackMessage.priority m3 = 3 -> FeedbackMessage.priority m1 = 1 ->
      FeedbackMessage.priority m4 = 4 -> FeedbackMessage.priority m2 = 2 ->
      rankFeedback [m3; m1; m4; m2] = [m4; m3]).
Proof.
  repeat split.
  - intros now landmarks config this this' r H.
    rewrite analyzeSquat_unfold in H. cbv zeta in H.
    destruct (squatSignals (getKeyLandmarks landmarks)) as [sig|e]; [|discriminate].
    injection H as Hs Hr. exists sig. split; [reflexivity|].
    subst r this'. reflexivity.
  - intros landmarks config this this' r H.
    rewrite analyzeShoulderAbduction_unfold in H.
    destruct (shoulderSignals (getKeyLandmarks landmarks)) as [sig|e]; [|discriminate].
    injection H as Hs Hr. exists sig. split; [reflexivity|].
    subst r. reflexivity.
  - apply sortByPriority_perm.
  - apply sortByPriority_sorted.
  - intros p. apply sortByPriority_stable.
  - intros generated sorted Hs Hf. apply stable_sorted_unique.
    + exact Hs.
    + apply sortByPriority_sorted.
    + intros p. rewrite Hf, sortByPriority_stable. reflexivity.
  - intros m3 m1 m4 m2 H3 H1 H4 H2.
    destruct m3, m1, m4, m2. cbn [FeedbackMessage.priority] in *. subst.
    reflexivity.
Qed.

(* ------------------------------------------------------------------ *)
(** ** Signals *)

Lemma bind_Returned {A B} (c : outcome A) (k : A -> outcome B) b :
  bind c k = Returned b -> exists a, c = Returned a /\ k a = Returned b.
Proof. destruct c as [a|e]; simpl; [eauto | discriminate]. Qed.

Ltac invert_binds H :=
  repeat (let a := fresh "v" in
          let E := fresh "E" in
          apply bind_Returned in H; destruct H as (a & E & H)).

Lemma squatSignals_coherent keyLandmarks sig :
  squatSignals keyLandmarks = Returned sig ->
  isInBottomPosition sig = Rltb (kneeAngle sig) 120
  /\ hasGoodDepth sig = Rltb (kneeAngle sig) 90
  /\ excessiveLean sig = Rgtb (torsoLean sig) 0.05.
Proof.
  unfold squatSignals. intros H. invert_binds H.
  injection H as <-. cbn. auto.
Qed.

Lemma shoulderSignals_coherent keyLandmarks sig :
  shoulderSignals keyLandmarks = Returned sig ->
  isInPosition sig = Rgtb (avgShoulderAngle sig) 45
  /\ isInTargetRange sig = Rleb (angleDeviation sig) 10
  /\ angleDeviation sig = Rabs (avgShoulderAngle sig - targetAngle)%R.
Proof.
  unfold shoulderSignals. intros H. invert_binds H.
  injection H as <-. cbn. auto.
Qed.

Lemma member_Returned {T A} (f : T -> A) o a :
  member f o = Returned a -> o <> None.
Proof. destruct o; [discriminate | discriminate]. Qed.

Lemma calculateAngle_Returned p1 p2 p3 a :
  calculateAngle p1 p2 p3 = Returned a -> p1 <> None /\ p2 <> None /\ p3 <> None.
Proof.
  destruct p1, p2, p3; try discriminate; intros _; repeat split; discriminate.
Qed.

Lemma squatSignals_present landmarks :
  squatKeypointsPresent landmarks ->
  exists sig, squatSignals (getKeyLandmarks landmarks) = Returned sig.
Proof.
  intros H. unfold squatKeypointsPresent in H.
  assert (H11 := H 11%nat). assert (H12 := H 12%nat). assert (H23 := H 23%nat).
  assert (H24 := H 24%nat). assert (H25 := H 25%nat). assert (H26 := H 26%nat).
  assert (H27 := H 27%nat). assert (H28 := H 28%nat). clear H.
  unfold squatSignals, getKeyLandmarks.
  cbn [leftShoulder rightShoulder leftHip rightHip leftKnee rightKnee leftAnkle rightAnkle].
  destruct (index landmarks 11); [|exfalso; apply H11; simpl; tauto].
  destruct (index landmarks 12); [|exfalso; apply H12; simpl; tauto].
  destruct (index landmarks 23); [|exfalso; apply H23; simpl; tauto].
  destruct (index landmarks 24); [|exfalso; apply H24; simpl; tauto].
  destruct (index landmarks 25); [|exfalso; apply H25; simpl; tauto].
  destruct (index landmarks 26); [|exfalso; apply H26; simpl; tauto].
  destruct (index landmarks 27); [|exfalso; apply H27; simpl; tauto].
  destruct (index landmarks 28); [|exfalso; apply H28; simpl; tauto].
  eexists. reflexivity.
Qed.

Lemma squatSignals_absent landmarks :
  ~ squatKeypointsPresent landmarks ->
  squatSignals (getKeyLandmarks landmarks) = Thrown TypeError.
Proof.
  intros H.
  destruct (squatSignals (getKeyLandmarks landmarks)) as [sig|[]] eqn:E; [|reflexivity].
  exfalso. apply H. clear H.
  unfold squatSignals, getKeyLandmarks in E.
  cbn [leftShoulder rightShoulder leftHip rightHip leftKnee rightKnee leftAnkle rightAnkle] in E.
  invert_binds E.
  repeat match goal with
         | H : calculateAngle _ _ _ = Returned _ |- _ =>
             apply calculateAngle_Returned in H; destruct H as (? & ? & ?)
         | H : member _ _ = Returned _ |- _ => apply member_Returned in H
         end.
  intros i Hi. simpl in Hi.
  repeat (destruct Hi as [<-|Hi]; [assumption|]). contradiction.
Qed.

Lemma shoulderSignals_present landmarks :
  shoulderKeypointsPresent landmarks ->
  exists sig, shoulderSignals (getKeyLandmarks landmarks) = Returned sig.
Proof.
  intros H. unfold shoulderKeypointsPresent in H.
  assert (H11 := H 11%nat). assert (H12 := H 12%nat). assert (H13 := H 13%nat).
  assert (H14 := H 14%nat). assert (H23 := H 23%nat). assert (H24 := H 24%nat).
  clear H.
  unfold shoulderSignals, getKeyLandmarks.
  cbn [leftShoulder rightShoulder leftElbow rightElbow leftHip rightHip].
  destruct (index landmarks 11); [|exfalso; apply H11; simpl; tauto].
  destruct (index landmarks 12); [|exfalso; apply H12; simpl; tauto].
  destruct (index landmarks 13); [|exfalso; apply H13; simpl; tauto].
  destruct (index landmarks 14); [|exfalso; apply H14; simpl; tauto].
  destruct (index landmarks 23); [|exfalso; apply H23; simpl; tauto].
  destruct (index landmarks 24); [|exfalso; apply H24; simpl; tauto].
  eexists. reflexivity.
Qed.

Lemma shoulderSignals_absent landmarks :
  ~ shoulderKeypointsPresent landmarks ->
  shoulderSignals (getKeyLandmarks landmarks) = Thrown TypeError.
Proof.
  intros H.
  destruct (shoulderSignals (getKeyLandmarks landmarks)) as [sig|[]] eqn:E; [|reflexivity].
  exfalso. apply H. clear H.
  unfold shoulderSignals, getKeyLandmarks in E.
  cbn [leftShoulder rightShoulder leftElbow rightElbow leftHip rightHip] in E.
  invert_binds E.
  repeat match goal with
         | H : calculateAngle _ _ _ = Returned _ |- _ =>
             apply calculateAngle_Returned in H; destruct H as (? & ? & ?)
         | H : member _ _ = Returned _ |- _ => apply member_Returned in H
         end.
  intros i Hi. simpl in Hi.
  repeat (destruct Hi as [<-|Hi]; [assumption|]). contradiction.
Qed.

(* ------------------------------------------------------------------ *)
(** ** Missing keypoints *)

(** C1, amended.  A call of either policy returns a metrics snapshot
    exactly when every keypoint the policy reads is present in the frame.
    When one of them is absent the call throws [TypeError] and returns
    nothing: no check is skipped on its own.  [analyzeSquat] has by then
    counted the frame; every other field, and every field in
    [analyzeShoulderAbduction], is as before the call. *)
Theorem missing_keypoint_throws :
  forall now landmarks config this,
    ((exists r, snd (analyzeSquat now landmarks config this) = Returned r)
     <-> squatKeypointsPresent landmarks)
    /\ (~ squatKeypointsPresent landmarks ->
        analyzeSquat now landmarks config this
        = (set_frameCount (frameCount this + 1) this, Thrown TypeError))
    /\ ((exists r, snd (analyzeShoulderAbduction landmarks config this) = Returned r)
        <-> shoulderKeypointsPresent landmarks)
    /\ (~ shoulderKeypointsPresent landmarks ->
        analyzeShoulderAbduction landmarks config this = (this, Thrown TypeError)).
Proof.
  intros now landmarks config this.
  assert (Hsq : ~ squatKeypointsPresent landmarks ->
                analyzeSquat now landmarks config this
                = (set_frameCount (frameCount this + 1) this, Thrown TypeError)).
  { intros H. rewrite analyzeSquat_unfold, (squatSignals_absent _ H). reflexivity. }
  assert (Hsh : ~ shoulderKeypointsPresent landmarks ->
                analyzeShoulderAbduction landmarks config this = (this, Thrown TypeError)).
  { intros H. rewrite analyzeShoulderAbduction_unfold, (shoulderSignals_absent _ H).
    reflexivity. }
  repeat split; try assumption.
  - intros [r Hr] i Hi Habs.
    assert (Hno : ~ squatKeypointsPresent landmarks).
    { intros Hp. exact (Hp i Hi Habs). }
    rewrite (Hsq Hno) in Hr. discriminate.
  - intros Hp. destruct (squatSignals_present _ Hp) as [sig Hsig].
    rewrite analyzeSquat_unfold, Hsig. cbv zeta. eexists. reflexivity.
  - intros [r Hr] i Hi Habs.
    assert (Hno : ~ shoulderKeypointsPresent landmarks).
    { intros Hp. exact (Hp i Hi Habs). }
    rewrite (Hsh Hno) in Hr. discriminate.
  - intros Hp. destruct (shoulderSignals_present _ Hp) as [sig Hsig].
    rewrite analyzeShoulderAbduction_unfold, Hsig. cbv zeta. eexists. reflexivity.
Qed.

(** C1, as stated, fails: on a frame whose left-ankle slot reads
    [undefined] the very first call of [analyzeSquat] on a new analyzer
    throws, after counting the frame. *)
Lemma missing_left_ankle_throws :
  List.length truncatedFrame = 27%nat
  /\ leftAnkle (getKeyLandmarks truncatedFrame) = None
  /\ analyzeSquat 1000 truncatedFrame squatConfig newAnalyzer
     = ({| repCount := 0; currentScore := 0; lastPosition := Up;
           repData := []; frameCount := 1 |}, Thrown TypeError).
Proof. repeat split; reflexivity. Qed.

(* ------------------------------------------------------------------ *)
(** ** Scores *)

Lemma squatFeedback_score sig frameCount :
  snd (squatFeedback sig frameCount)
  = 100 - (if isInBottomPosition sig && negb (hasGoodDepth sig) then 15 else 0)
        - (if valgus sig then 20 else 0)
        - (if excessiveLean sig then 10 else 0).
Proof.
  unfold squatFeedback.
  destruct (isInBottomPosition sig), (hasGoodDepth sig), (valgus sig),
    (excessiveLean sig), (Z.rem frameCount 30 =? 0); reflexivity.
Qed.

Lemma shoulderFeedback_score sig :
  snd (shoulderFeedback sig)
  = 100 - (if Rgtb (angleDeviation sig) 15
           then if Rltb (avgShoulderAngle sig) (targetAngle - 15) then 15
                else if Rgtb (avgShoulderAngle sig) (targetAngle + 15) then 10
                else 0
           else 0)
        - (if Rgtb (shoulderSymmetry sig) 15 then 20 else 0)
        - (if hiking sig then 10 else 0).
Proof.
  unfold shoulderFeedback.
  destruct (Rgtb (angleDeviation sig) 15),
    (Rltb (avgShoulderAngle sig) (targetAngle - 15)),
    (Rgtb (avgShoulderAngle sig) (targetAngle + 15)),
    (Rgtb (shoulderSymmetry sig) 15), (hiking sig),
    (isInTargetRange sig && Rleb (shoulderSymmetry sig) 10); reflexivity.
Qed.

Lemma squatFeedback_score_bounds sig frameCount :
  55 <= snd (squatFeedback sig frameCount) <= 100.
Proof.
  rewrite squatFeedback_score.
  destruct (isInBottomPosition sig && negb (hasGoodDepth sig)), (valgus sig),
    (excessiveLean sig); lia.
Qed.

Lemma shoulderFeedback_score_bounds sig :
  55 <= snd (shoulderFeedback sig) <= 100.
Proof.
  rewrite shoulderFeedback_score.
  destruct (Rgtb (angleDeviation sig) 15),
    (Rltb (avgShoulderAngle sig) (targetAngle - 15)),
    (Rgtb (avgShoulderAngle sig) (targetAngle + 15)),
    (Rgtb (shoulderSymmetry sig) 15), (hiking sig); lia.
Qed.

Lemma step_currentScore this c :
  0 <= currentScore this <= 100 -> 0 <= currentScore (step this c) <= 100.
Proof.
  intros H. destruct c as [now landmarks config|landmarks config| |]; cbn [step].
  - rewrite analyzeSquat_unfold. cbv zeta.
    destruct (squatSignals (getKeyLandmarks landmarks)) as [sig|e]; cbn; [|exact H].
    pose proof (squatFeedback_score_bounds sig
                  (frameCount (squatRepCounting now sig
                                 (set_frameCount (frameCount this + 1) this)))). lia.
  - rewrite analyzeShoulderAbduction_unfold.
    destruct (shoulderSignals (getKeyLandmarks landmarks)) as [sig|e]; cbn; [|exact H].
    pose proof (shoulderFeedback_score_bounds sig). lia.
  - cbn. lia.
  - exact H.
Qed.

Lemma run_currentScore calls : forall this,
  0 <= currentScore this <= 100 -> 0 <= currentScore (run this calls) <= 100.
Proof.
  induction calls as [|c calls IH]; intros this H; [exact H|].
  cbn [run fold_left]. apply IH, step_currentScore, H.
Qed.

(** C8. The score of a squat frame starts at 100 and loses 15 for a depth
    shortfall (in the bottom position without good depth), 20 for valgus
    and 10 for excessive lean; the stored [currentScore] is that score
    floored at 0, and it is the score returned.  Over every sequence of
    calls on a new analyzer, whether they return or throw, [currentScore]
    stays in [0, 100]; [reset] sets it to 0. *)
Theorem currentScore_floored_in_range :
  (forall now landmarks config this this' r,
      analyzeSquat now landmarks config this = (this', Returned r) ->
      exists sig,
        squatSignals (getKeyLandmarks landmarks) = Returned sig
        /\ currentScore this'
           = Z.max 0 (100
                      - (if isInBottomPosition sig && negb (hasGoodDepth sig)
                         then 15 else 0)
                      - (if valgus sig then 20 else 0)
                      - (if excessiveLean sig then 10 else 0))
        /\ Analysis.score r = currentScore this')
  /\ (forall landmarks config this this' r,
      analyzeShoulderAbduction landmarks config this = (this', Returned r) ->
      exists sig,
        shoulderSignals (getKeyLandmarks landmarks) = Returned sig
        /\ currentScore this' = Z.max 0 (snd (shoulderFeedback sig))
        /\ Analysis.score r = currentScore this')
  /\ (forall calls, 0 <= currentScore (run newAnalyzer calls) <= 100)
  /\ (forall this, currentScore (reset this) = 0).
Proof.
  repeat split.
  - intros now landmarks config this this' r H.
    rewrite analyzeSquat_unfold in H. cbv zeta in H.
    destruct (squatSignals (getKeyLandmarks landmarks)) as [sig|e]; [|discriminate].
    injection H as <- <-. exists sig. cbn. rewrite squatFeedback_score. auto.
  - intros landmarks config this this' r H.
    rewrite analyzeShoulderAbduction_unfold in H.
    destruct (shoulderSignals (getKeyLandmarks landmarks)) as [sig|e]; [|discriminate].
    injection H as <- <-. exists sig. cbn. auto.
  - apply run_currentScore. cbn. lia.
  - apply run_currentScore. cbn. lia.
Qed.

(** C10. The score a call of either policy returns is at least 55 (and at
    most 100), and it is the score after the deductions: the clamp
    [Math.max(0, score)] never changes it. *)
Theorem returned_score_at_least_55 :
  (forall now landmarks config this this' r,
      analyzeSquat now landmarks config this = (this', Returned r) ->
      55 <= Analysis.score r <= 100
      /\ exists sig,
          squatSignals (getKeyLandmarks landmarks) = Returned sig
          /\ Analysis.score r = snd (squatFeedback sig (frameCount this')))
  /\ (forall landmarks config this this' r,
      analyzeShoulderAbduction landmarks config this = (this', Returned r) ->
      55 <= Analysis.score r <= 100
      /\ exists sig,
          shoulderSignals (getKeyLandmarks landmarks) = Returned sig
          /\ Analysis.score r = snd (shoulderFeedback sig)).
Proof.
  split.
  - intros now landmarks config this this' r H.
    rewrite analyzeSquat_unfold in H. cbv zeta in H.
    destruct (squatSignals (getKeyLandmarks landmarks)) as [sig|e]; [|discriminate].
    injection H as <- <-. cbn.
    pose proof (squatFeedback_score_bounds sig
                  (frameCount (squatRepCounting now sig
                                 (set_frameCount (frameCount this + 1) this)))) as Hb.
    split; [lia|]. exists sig. split; [reflexivity|]. lia.
  - intros landmarks config this this' r H.
    rewrite analyzeShoulderAbduction_unfold in H.
    destruct (shoulderSignals (getKeyLandmarks landmarks)) as [sig|e]; [|discriminate].
    injection H as <- <-. cbn.
    pose proof (shoulderFeedback_score_bounds sig) as Hb.
    split; [lia|]. exists sig. split; [reflexivity|]. lia.
Qed.

(** C9. The [config] argument is never read: under any two configurations
    each policy returns the same result and leaves the same fields. *)
Theorem config_is_never_read :
  forall now landmarks this (c1 c2 : ExerciseConfig),
    analyzeSquat now landmarks c1 this = analyzeSquat now landmarks c2 this
    /\ analyzeShoulderAbduction landmarks c1 this
       = analyzeShoulderAbduction landmarks c2 this.
Proof. intros. split; reflexivity. Qed.

(* ------------------------------------------------------------------ *)
(** ** The squat rep cycle *)

Lemma Rltb_spec a b : reflect (a < b)%R (Rltb a b).
Proof. unfold Rltb. destruct (Rlt_dec a b); constructor; assumption. Qed.

Lemma Rgtb_spec a b : reflect (a > b)%R (Rgtb a b).
Proof. unfold Rgtb. destruct (Rgt_dec a b); constructor; assumption. Qed.

Lemma step_squat now landmarks config this sig :
  squatSignals (getKeyLandmarks landmarks) = Returned sig ->
  step this (CallSquat now landmarks config)
  = let this2 := squatRepCounting now sig (set_frameCount (frameCount this + 1) this) in
    set_currentScore (Z.max 0 (snd (squatFeedback sig (frameCount this2)))) this2.
Proof.
  intros H. cbn [step]. rewrite analyzeSquat_unfold, H. reflexivity.
Qed.

(** Standing frame while up, squatting frame while down: nothing moves. *)
Lemma squat_up_stays this now landmarks config :
  lastPosition this = Up -> kneeAtLeast120 landmarks ->
  let this' := step this (CallSquat now landmarks config) in
  lastPosition this' = Up /\ repCount this' = repCount this
  /\ repData this' = repData this.
Proof.
  intros Hup (sig & Hsig & Hknee). rewrite (step_squat _ _ _ _ _ Hsig).
  destruct (squatSignals_coherent _ _ Hsig) as (Hb & _).
  unfold squatRepCounting. rewrite Hb, Rltb_false by exact Hknee.
  cbn. rewrite Hup. cbn. rewrite Hup. auto.
Qed.

Lemma squat_down_stays this now landmarks config :
  lastPosition this = Down -> kneeBelow120 landmarks ->
  let this' := step this (CallSquat now landmarks config) in
  lastPosition this' = Down /\ repCount this' = repCount this
  /\ repData this' = repData this.
Proof.
  intros Hdown (sig & Hsig & Hknee). rewrite (step_squat _ _ _ _ _ Hsig).
  destruct (squatSignals_coherent _ _ Hsig) as (Hb & _).
  unfold squatRepCounting. rewrite Hb, Rltb_true by exact Hknee.
  cbn. rewrite Hdown. cbn. rewrite Hdown. auto.
Qed.

Lemma squat_up_to_down this now landmarks config :
  lastPosition this = Up -> kneeBelow120 landmarks ->
  let this' := step this (CallSquat now landmarks config) in
  lastPosition this' = Down /\ repCount this' = repCount this
  /\ repData this' = repData this.
Proof.
  intros Hup (sig & Hsig & Hknee). rewrite (step_squat _ _ _ _ _ Hsig).
  destruct (squatSignals_coherent _ _ Hsig) as (Hb & _).
  unfold squatRepCounting. rewrite Hb, Rltb_true by exact Hknee.
  cbn. rewrite Hup. cbn. auto.
Qed.

(** The counted transition, with the entry it appends. *)
Lemma squat_down_to_up this now landmarks config sig :
  lastPosition this = Down ->
  squatSignals (getKeyLandmarks landmarks) = Returned sig ->
  isInBottomPosition sig = false ->
  let this' := step this (CallSquat now landmarks config) in
  lastPosition this' = Up /\ repCount this' = repCount this + 1
  /\ repData this'
     = repData this
       ++ [ {| RepData.repIndex := repCount this + 1;
               RepData.angles := Angles.mk (kneeAngle sig) (hipAngle sig) 0;
               RepData.flags :=
                 pushIf (excessiveLean sig) "excessive_lean"%string
                   (pushIf (valgus sig) "knee_valgus"%string
                      (pushIf (negb (hasGoodDepth sig)) "shallow_squat"%string []));
               RepData.score := currentScore this;
               RepData.timestamp := now |} ].
Proof.
  intros Hdown Hsig Hb. rewrite (step_squat _ _ _ _ _ Hsig).
  unfold squatRepCounting. rewrite Hb. cbn. rewrite Hdown. cbn. auto.
Qed.

Lemma run_app this cs1 cs2 : run this (cs1 ++ cs2) = run (run this cs1) cs2.
Proof. apply fold_left_app. Qed.

Lemma run_squat_up calls : forall this,
  lastPosition this = Up -> Forall (squatCallOn kneeAtLeast120) calls ->
  lastPosition (run this calls) = Up /\ repCount (run this calls) = repCount this
  /\ repData (run this calls) = repData this.
Proof.
  induction calls as [|c calls IH]; intros this Hup Hall; [auto|].
  inversion Hall as [|c' calls' Hc Hrest]; subst.
  destruct c as [now landmarks config| | |]; try contradiction.
  destruct (squat_up_stays this now landmarks config Hup Hc) as (H1 & H2 & H3).
  cbn [run fold_left]. destruct (IH _ H1 Hrest) as (H4 & H5 & H6).
  unfold run in *. rewrite H4, H5, H6. auto.
Qed.

Lemma run_squat_down calls : forall this,
  lastPosition this = Down -> Forall (squatCallOn kneeBelow120) calls ->
  lastPosition (run this calls) = Down /\ repCount (run this calls) = repCount this
  /\ repData (run this calls) = repData this.
Proof.
  induction calls as [|c calls IH]; intros this Hdown Hall; [auto|].
  inversion Hall as [|c' calls' Hc Hrest]; subst.
  destruct c as [now landmarks config| | |]; try contradiction.
  destruct (squat_down_stays this now landmarks config Hdown Hc) as (H1 & H2 & H3).
  cbn [run fold_left]. destruct (IH _ H1 Hrest) as (H4 & H5 & H6).
  unfold run in *. rewrite H4, H5, H6. auto.
Qed.

(** C4. From a state whose phase is "up", squat frames with the knee angle
    at 120 degrees or more (any number of them), then one or more frames
    with the knee angle below 120, then one or more frames at 120 or more
    again, increment [repCount] by exactly 1 and append exactly one
    [RepData] entry, whose [repIndex] is the new [repCount]. *)
Theorem squat_cycle_counts_one_rep :
  forall this standing1 squatting standing2,
    lastPosition this = Up ->
    Forall (squatCallOn kneeAtLeast120) standing1 ->
    squatting <> [] -> Forall (squatCallOn kneeBelow120) squatting ->
    standing2 <> [] -> Forall (squatCallOn kneeAtLeast120) standing2 ->
    let this' := run this (standing1 ++ squatting ++ standing2) in
    repCount this' = repCount this + 1
    /\ exists rep,
        repData this' = repData this ++ [rep]
        /\ RepData.repIndex rep = repCount this'.
Proof.
  intros this standing1 squatting standing2 Hup H1 Hne2 H2 Hne3 H3.
  cbv zeta. rewrite !run_app.
  destruct (run_squat_up standing1 this Hup H1) as (Ha & Hb & Hc).
  set (this1 := run this standing1) in *.
  destruct squatting as [|c2 squatting]; [contradiction|].
  inversion H2 as [|? ? Hc2 Hrest2]; subst.
  destruct c2 as [now2 landmarks2 config2| | |]; try contradiction.
  destruct (squat_up_to_down this1 now2 landmarks2 config2 Ha Hc2) as (Hd & He & Hf).
  cbn [run fold_left]. fold (run (step this1 (CallSquat now2 landmarks2 config2)) squatting).
  set (this2 := step this1 (CallSquat now2 landmarks2 config2)) in *.
  destruct (run_squat_down squatting this2 Hd Hrest2) as (Hg & Hh & Hi).
  set (this3 := run this2 squatting) in *.
  destruct standing2 as [|c3 standing2]; [contradiction|].
  inversion H3 as [|? ? Hc3 Hrest3]; subst.
  destruct c3 as [now3 landmarks3 config3| | |]; try contradiction.
  destruct Hc3 as (sig & Hsig & Hknee).
  destruct (squatSignals_coherent _ _ Hsig) as (Hbottom & _).
  rewrite Rltb_false in Hbottom by exact Hknee.
  destruct (squat_down_to_up this3 now3 landmarks3 config3 sig Hg Hsig Hbottom)
    as (Hj & Hk & Hl).
  cbn [run fold_left]. fold (run (step this3 (CallSquat now3 landmarks3 config3)) standing2).
  set (this4 := step this3 (CallSquat now3 landmarks3 config3)) in *.
  destruct (run_squat_up standing2 this4 Hj Hrest3) as (Hm & Hn & Ho).
  rewrite Hn, Ho, Hk, Hl, Hh, Hi, He, Hf, Hb, Hc.
  split; [reflexivity|]. eexists. split; reflexivity.
Qed.

(* ------------------------------------------------------------------ *)
(** ** The shoulder-abduction rep cycle *)

Lemma step_shoulder landmarks config this sig :
  shoulderSignals (getKeyLandmarks landmarks) = Returned sig ->
  step this (CallShoulderAbduction landmarks config)
  = set_currentScore (Z.max 0 (snd (shoulderFeedback sig)))
      (shoulderRepCounting sig this).
Proof.
  intros H. cbn [step]. rewrite analyzeShoulderAbduction_unfold, H. reflexivity.
Qed.

Lemma shoulder_raised this c :
  shoulderCallOn (shoulderAvg (fun a => a > 75)%R) c ->
  lastPosition (step this c) = Up /\ repCount (step this c) = repCount this.
Proof.
  destruct c as [|landmarks config| |]; try contradiction.
  intros (sig & Hsig & Havg). rewrite (step_shoulder _ _ _ _ Hsig).
  destruct (shoulderSignals_coherent _ _ Hsig) as (Hpos & _).
  unfold shoulderRepCounting.
  rewrite Hpos, (Rgtb_true _ 45), (Rgtb_true _ 75) by lra.
  destruct (lastPosition this) eqn:Hlast; cbn; rewrite ?Hlast; auto.
Qed.

Lemma shoulder_not_lowered this c :
  shoulderCallOn (shoulderAvg (fun a => 30 <= a)%R) c ->
  repCount (step this c) = repCount this
  /\ (lastPosition this = Up -> lastPosition (step this c) = Up).
Proof.
  destruct c as [|landmarks config| |]; try contradiction.
  intros (sig & Hsig & Havg). rewrite (step_shoulder _ _ _ _ Hsig).
  unfold shoulderRepCounting. rewrite (Rltb_false _ 30) by lra.
  rewrite andb_false_r. cbn [andb].
  destruct (isInPosition sig && Rgtb (avgShoulderAngle sig) 75
            && Position_eqb (lastPosition this) Down); cbn; auto.
Qed.

Lemma shoulder_lowered this c :
  lastPosition this = Up ->
  shoulderCallOn (shoulderAvg (fun a => a < 30)%R) c ->
  repCount (step this c) = repCount this + 1.
Proof.
  destruct c as [|landmarks config| |]; try contradiction.
  intros Hup (sig & Hsig & Havg). rewrite (step_shoulder _ _ _ _ Hsig).
  destruct (shoulderSignals_coherent _ _ Hsig) as (Hpos & _).
  unfold shoulderRepCounting.
  rewrite Hpos, (Rgtb_false _ 45), (Rltb_true _ 30), Hup by lra. reflexivity.
Qed.

Lemma run_shoulder_not_lowered calls : forall this,
  Forall (shoulderCallOn (shoulderAvg (fun a => 30 <= a)%R)) calls ->
  repCount (run this calls) = repCount this
  /\ (lastPosition this = Up -> lastPosition (run this calls) = Up).
Proof.
  induction calls as [|c calls IH]; intros this Hall; [auto|].
  inversion Hall as [|? ? Hc Hrest]; subst.
  destruct (shoulder_not_lowered this c Hc) as (H1 & H2).
  cbn [run fold_left]. destruct (IH (step this c) Hrest) as (H3 & H4).
  unfold run in *. rewrite H3, H1. auto.
Qed.

Lemma shoulder_lowered_phase this c :
  lastPosition this = Up ->
  shoulderCallOn (shoulderAvg (fun a => a < 30)%R) c ->
  lastPosition (step this c) = Down.
Proof.
  destruct c as [|landmarks config| |]; try contradiction.
  intros Hup (sig & Hsig & Havg). rewrite (step_shoulder _ _ _ _ Hsig).
  destruct (shoulderSignals_coherent _ _ Hsig) as (Hpos & _).
  unfold shoulderRepCounting.
  rewrite Hpos, (Rgtb_false _ 45), (Rltb_true _ 30), Hup by lra. reflexivity.
Qed.

Lemma shoulder_not_raised this c :
  lastPosition this = Down ->
  shoulderCallOn (shoulderAvg (fun a => a <= 75)%R) c ->
  repCount (step this c) = repCount this /\ lastPosition (step this c) = Down.
Proof.
  destruct c as [|landmarks config| |]; try contradiction.
  intros Hdown (sig & Hsig & Havg). rewrite (step_shoulder _ _ _ _ Hsig).
  unfold shoulderRepCounting.
  rewrite (Rgtb_false _ 75), Hdown by lra.
  rewrite !andb_false_r. cbn. auto.
Qed.

Lemma run_shoulder_not_raised calls : forall this,
  lastPosition this = Down ->
  Forall (shoulderCallOn (shoulderAvg (fun a => a <= 75)%R)) calls ->
  repCount (run this calls) = repCount this /\ lastPosition (run this calls) = Down.
Proof.
  induction calls as [|c calls IH]; intros this Hdown Hall; [auto|].
  inversion Hall as [|? ? Hc Hrest]; subst.
  destruct (shoulder_not_raised this c Hdown Hc) as (H1 & H2).
  cbn [run fold_left]. fold (run (step this c) calls).
  destruct (IH (step this c) H2 Hrest) as (H3 & H4).
  rewrite H3, H1. auto.
Qed.

(** Frames that stay at or below 75 degrees, from phase "up": the first one
    below 30 degrees counts a rep and no later one does. *)
Lemma run_shoulder_rest_first calls : forall this,
  lastPosition this = Up ->
  Forall (shoulderCallOn (shoulderAvg (fun a => a <= 75)%R)) calls ->
  Exists (shoulderCallOn (shoulderAvg (fun a => a < 30)%R)) calls ->
  repCount (run this calls) = repCount this + 1.
Proof.
  induction calls as [|c calls IH]; intros this Hup Hall Hex;
    [inversion Hex|].
  inversion Hall as [|? ? Hc Hrest]; subst.
  cbn [run fold_left]. fold (run (step this c) calls).
  destruct c as [|landmarks config| |]; try contradiction.
  destruct Hc as (sig & Hsig & Havg).
  destruct (Rlt_dec (avgShoulderAngle sig) 30) as [Hlow|Hhigh].
  - assert (Hc : shoulderCallOn (shoulderAvg (fun a => a < 30)%R)
                   (CallShoulderAbduction landmarks config))
      by (exists sig; auto).
    destruct (run_shoulder_not_raised calls _
                (shoulder_lowered_phase this _ Hup Hc) Hrest) as (H1 & _).
    rewrite H1. apply shoulder_lowered; assumption.
  - assert (Hc : shoulderCallOn (shoulderAvg (fun a => 30 <= a)%R)
                   (CallShoulderAbduction landmarks config))
      by (exists sig; split; [exact Hsig | lra]).
    destruct (shoulder_not_lowered this _ Hc) as (H1 & H2).
    rewrite <- H1. apply IH; [exact (H2 Hup) | exact Hrest |].
    inversion Hex as [? ? Hhead|? ? Htail]; subst; [|exact Htail].
    destruct Hhead as (sig' & Hsig' & Hlow).
    rewrite Hsig in Hsig'. injection Hsig' as <-. lra.
Qed.

Lemma shoulder_raise_then_lower this raised between lowered :
  shoulderCallOn (shoulderAvg (fun a => a > 75)%R) raised ->
  Forall (shoulderCallOn (shoulderAvg (fun a => 30 <= a)%R)) between ->
  shoulderCallOn (shoulderAvg (fun a => a < 30)%R) lowered ->
  repCount (run this ([raised] ++ between ++ [lowered])) = repCount this + 1.
Proof.
  intros Hr Hb Hl. rewrite !run_app.
  cbn [run fold_left].
  destruct (shoulder_raised this raised Hr) as (H1 & H2).
  fold (run (step this raised) between).
  destruct (run_shoulder_not_lowered between (step this raised) Hb) as (H3 & H4).
  rewrite (shoulder_lowered _ lowered (H4 H1) Hl), H3, H2. reflexivity.
Qed.

(** C5. In [analyzeShoulderAbduction], from phase "down" the phase becomes
    "up" exactly when the frame is in position and the average shoulder
    angle exceeds 75 (and [repCount] is unchanged); from phase "up" the
    counted transition to "down" fires exactly when the frame is not in
    position and the average is below 30.  Frames whose average stays
    between 30 and 75 never change [repCount].  A sequence that rises above
    75 and then falls below 30 increments [repCount] by 1 when it starts in
    phase "down", or in phase "up" with no frame below 30 before the
    raise; but in phase "up", the phase of a new analyzer, a frame below 30
    before the raise is counted too, and the sequence rest, raise, rest
    increments [repCount] by 2. *)
Theorem shoulder_rep_transitions :
  (forall landmarks config this sig,
      shoulderSignals (getKeyLandmarks landmarks) = Returned sig ->
      let this' := step this (CallShoulderAbduction landmarks config) in
      let avg := avgShoulderAngle sig in
      (isInPosition sig = true <-> (avg > 45)%R)
      /\ (lastPosition this = Down ->
          (lastPosition this' = Up <-> isInPosition sig = true /\ (avg > 75)%R)
          /\ repCount this' = repCount this)
      /\ (lastPosition this = Up ->
          (repCount this' = repCount this + 1
           <-> isInPosition sig = false /\ (avg < 30)%R)
          /\ (lastPosition this' = Down
              <-> isInPosition sig = false /\ (avg < 30)%R)
          /\ (repCount this' = repCount this \/ repCount this' = repCount this + 1)))
  /\ (forall this before raised between lowered,
      Forall (shoulderCallOn (shoulderAvg (fun a => a <= 75)%R)) before ->
      shoulderCallOn (shoulderAvg (fun a => a > 75)%R) raised ->
      Forall (shoulderCallOn (shoulderAvg (fun a => 30 <= a)%R)) between ->
      shoulderCallOn (shoulderAvg (fun a => a < 30)%R) lowered ->
      let calls := before ++ [raised] ++ between ++ [lowered] in
      (lastPosition this = Down
       \/ Forall (shoulderCallOn (shoulderAvg (fun a => 30 <= a)%R)) before ->
       repCount (run this calls) = repCount this + 1)
      /\ (lastPosition this = Up ->
          Exists (shoulderCallOn (shoulderAvg (fun a => a < 30)%R)) before ->
          repCount (run this calls) = repCount this + 2))
  /\ (forall landmarks config,
      shoulderAvg (fun a => a < 30)%R landmarks ->
      repCount (step newAnalyzer (CallShoulderAbduction landmarks config)) = 1)
  /\ (forall this calls,
      Forall (shoulderCallOn (shoulderAvg (fun a => 30 <= a <= 75)%R)) calls ->
      repCount (run this calls) = repCount this).
Proof.
  split; [|split; [|split]].
  - intros landmarks config this sig Hsig this' avg.
    destruct (shoulderSignals_coherent _ _ Hsig) as (Hpos & _).
    assert (Hstep : this' = set_currentScore (Z.max 0 (snd (shoulderFeedback sig)))
                              (shoulderRepCounting sig this))
      by (apply step_shoulder; exact Hsig).
    fold avg in Hpos.
    split.
    { rewrite Hpos. destruct (Rgtb_spec avg 45); split; intros; try discriminate;
        try reflexivity; try assumption; contradiction. }
    split.
    + intros Hdown. rewrite Hstep. unfold shoulderRepCounting. fold avg.
      rewrite Hdown. cbn [Position_eqb]. rewrite !andb_true_r, !andb_false_r.
      destruct (isInPosition sig); destruct (Rgtb_spec avg 75); cbn;
        rewrite ?Hdown; intuition (discriminate || lia || idtac).
    + intros Hup. rewrite Hstep. unfold shoulderRepCounting. fold avg.
      rewrite Hup. cbn [Position_eqb]. rewrite !andb_true_r, !andb_false_r.
      destruct (isInPosition sig); destruct (Rltb_spec avg 30); cbn;
        rewrite ?Hup; intuition (discriminate || lia || idtac).
  - intros this before raised between lowered Hbefore Hr Hb Hl calls.
    unfold calls. rewrite run_app.
    rewrite (shoulder_raise_then_lower (run this before) _ _ _ Hr Hb Hl).
    split.
    + intros [Hdown|Hnone].
      * destruct (run_shoulder_not_raised before this Hdown Hbefore) as (H & _).
        rewrite H. reflexivity.
      * destruct (run_shoulder_not_lowered before this Hnone) as (H & _).
        rewrite H. reflexivity.
    + intros Hup Hex.
      rewrite (run_shoulder_rest_first before this Hup Hbefore Hex). lia.
  - intros landmarks config H.
    apply (shoulder_lowered newAnalyzer (CallShoulderAbduction landmarks config)
             eq_refl H).
  - intros this calls Hall.
    apply run_shoulder_not_lowered.
    eapply Forall_impl; [|exact Hall].
    intros [|landmarks config| |]; cbn; try tauto.
    intros (sig & Hsig & Ha). exists sig. split; [exact Hsig | lra].
Qed.

(* ------------------------------------------------------------------ *)
(** ** The rep log *)

Lemma In_pushIf {A} (c : bool) (v w : A) l :
  In w (pushIf c v l) <-> In w l \/ (c = true /\ w = v).
Proof.
  unfold pushIf. destruct c.
  - rewrite in_app_iff. cbn. intuition congruence.
  - intuition discriminate.
Qed.

Lemma squatRep_flags now sig this :
  let flags := RepData.flags (squatRep now sig this) in
  (In "shallow_squat"%string flags <-> hasGoodDepth sig = false)
  /\ (In "knee_valgus"%string flags <-> valgus sig = true)
  /\ (In "excessive_lean"%string flags <-> excessiveLean sig = true).
Proof.
  cbn [squatRep RepData.flags]. rewrite !In_pushIf. cbn [In].
  destruct (hasGoodDepth sig), (valgus sig), (excessiveLean sig); cbn;
    intuition (discriminate || idtac).
Qed.

Lemma squat_log_step this now landmarks config :
  let this' := step this (CallSquat now landmarks config) in
  (repCount this' = repCount this /\ repData this' = repData this)
  \/ (repCount this' = repCount this + 1
      /\ exists rep, repData this' = repData this ++ [rep]
                     /\ RepData.repIndex rep = repCount this').
Proof.
  cbn [step]. rewrite analyzeSquat_unfold. cbv zeta.
  destruct (squatSignals (getKeyLandmarks landmarks)) as [sig|e]; [|left; auto].
  unfold squatRepCounting. destruct this as [rc cs lp rd fc].
  destruct (isInBottomPosition sig), lp; cbn;
    try (left; split; reflexivity).
  right. split; [reflexivity|]. eexists. split; reflexivity.
Qed.

Lemma shoulder_log_step this landmarks config :
  repData (step this (CallShoulderAbduction landmarks config)) = repData this.
Proof.
  cbn [step]. rewrite analyzeShoulderAbduction_unfold.
  destruct (shoulderSignals (getKeyLandmarks landmarks)) as [sig|e]; [|reflexivity].
  unfold shoulderRepCounting.
  destruct (_ && _ && _); [reflexivity|]. destruct (_ && _ && _); reflexivity.
Qed.

(** C2. On the counted "down" to "up" transition the entry appended to the
    log carries the knee and hip angles of the current frame and the three
    flags exactly as the conditions hold at that frame, but its score is
    [currentScore] as the previous call left it, not the score of the
    current frame: after a squat frame scored 85, the standing frame that
    completes the rep returns 100 and logs 85. *)
Theorem squat_rep_snapshot :
  (forall this now landmarks config sig,
      lastPosition this = Down ->
      squatSignals (getKeyLandmarks landmarks) = Returned sig ->
      isInBottomPosition sig = false ->
      exists this' r rep,
        analyzeSquat now landmarks config this = (this', Returned r)
        /\ repData this' = repData this ++ [rep]
        /\ RepData.angles rep = Analysis.angles r
        /\ RepData.angles rep = Angles.mk (kneeAngle sig) (hipAngle sig) 0
        /\ (In "shallow_squat"%string (RepData.flags rep) <-> hasGoodDepth sig = false)
        /\ (In "knee_valgus"%string (RepData.flags rep) <-> valgus sig = true)
        /\ (In "excessive_lean"%string (RepData.flags rep)
            <-> excessiveLean sig = true)
        /\ RepData.score rep = currentScore this
        /\ Analysis.score r = snd (squatFeedback sig (frameCount this')))
  /\ analyzeSquat 1000 squatFrame squatConfig newAnalyzer
     = (afterSquatFrame, Returned onSquatFrame)
  /\ analyzeSquat 2000 standingFrame squatConfig afterSquatFrame
     = (afterStandingUp, Returned onStandingUp)
  /\ repData afterStandingUp = [loggedRep]
  /\ RepData.score loggedRep = 85
  /\ Analysis.score onStandingUp = 100.
Proof.
  split; [|split].
  - intros this now landmarks config sig Hdown Hsig Hb.
    rewrite analyzeSquat_unfold, Hsig. cbv zeta.
    unfold squatRepCounting. rewrite Hb. cbn [andb negb set_frameCount lastPosition].
    rewrite Hdown. cbn [Position_eqb].
    do 3 eexists. split; [reflexivity|].
    cbn [repData set_currentScore set_repData set_lastPosition set_repCount
         Analysis.angles Analysis.score frameCount currentScore repCount lastPosition].
    split; [reflexivity|].
    split; [reflexivity|]. split; [reflexivity|].
    pose proof (squatRep_flags now sig
                  {| repCount := repCount this + 1; currentScore := currentScore this;
                     lastPosition := Up; repData := repData this;
                     frameCount := frameCount this + 1 |}) as (F1 & F2 & F3).
    split; [exact F1|]. split; [exact F2|]. split; [exact F3|].
    split; [reflexivity|]. apply Z.max_r.
    match goal with
    | |- 0 <= snd (squatFeedback ?s ?f) =>
        pose proof (squatFeedback_score_bounds s f)
    end. lia.
  - rewrite analyzeSquat_unfold, squatSignals_squat. reflexivity.
  - rewrite analyzeSquat_unfold, squatSignals_standing. repeat split; reflexivity.
Qed.

Lemma run_log_append_only calls : forall this,
  Forall (fun c => c <> CallReset) calls ->
  exists appended, repData (run this calls) = repData this ++ appended.
Proof.
  induction calls as [|c calls IH]; intros this Hall.
  - exists []. cbn. rewrite app_nil_r. reflexivity.
  - inversion Hall as [|? ? Hc Hrest]; subst.
    cbn [run fold_left]. destruct (IH (step this c) Hrest) as [more Hmore].
    unfold run in Hmore. rewrite Hmore.
    destruct c as [now landmarks config|landmarks config| |].
    + destruct (squat_log_step this now landmarks config) as [(_ & H)|(_ & rep & H & _)];
        rewrite H.
      * exists more. reflexivity.
      * exists (rep :: more). rewrite <- app_assoc. reflexivity.
    + rewrite shoulder_log_step. exists more. reflexivity.
    + contradiction.
    + exists more. reflexivity.
Qed.

(** C3. A shoulder-abduction rep (arms raised, then lowered) increments
    [repCount] and leaves the rep log empty: [analyzeShoulderAbduction]
    never touches the log.  [analyzeSquat] extends the log by one entry
    exactly when it increments [repCount], and over any calls other than
    [reset] the entries already in the log stay as they are, in place. *)
Theorem shoulder_rep_not_logged :
  run newAnalyzer
    [ CallShoulderAbduction armsRaisedFrame shoulderAbductionConfig;
      CallShoulderAbduction standingFrame shoulderAbductionConfig ]
  = {| repCount := 1; currentScore := 85; lastPosition := Down;
       repData := []; frameCount := 0 |}
  /\ (forall this landmarks config,
      repData (step this (CallShoulderAbduction landmarks config)) = repData this)
  /\ (forall this now landmarks config,
      let this' := step this (CallSquat now landmarks config) in
      (repCount this' = repCount this /\ repData this' = repData this)
      \/ (repCount this' = repCount this + 1
          /\ exists rep, repData this' = repData this ++ [rep]
                         /\ RepData.repIndex rep = repCount this'))
  /\ (forall this calls,
      Forall (fun c => c <> CallReset) calls ->
      exists appended, repData (run this calls) = repData this ++ appended).
Proof.
  split; [|split; [|split]].
  - unfold run. cbn [fold_left].
    rewrite (step_shoulder _ _ _ _ shoulderSignals_armsRaised).
    rewrite (step_shoulder _ _ _ _ shoulderSignals_standing).
    unfold shoulderRepCounting, shoulderFeedback, targetAngle.
    cbn [avgShoulderAngle isInPosition angleDeviation shoulderSymmetry
         isInTargetRange hiking leftHiking rightHiking].
    numerals.
    reflexivity.
  - exact shoulder_log_step.
  - exact squat_log_step.
  - intros this calls. apply run_log_append_only.
Qed.

(* ------------------------------------------------------------------ *)
(** ** Instances on the test frames *)

Lemma standingFrame_complete : squatKeypointsPresent standingFrame.
Proof.
  intros i Hi. cbn [In] in Hi.
  repeat (destruct Hi as [<-|Hi]; [cbn; discriminate|]). contradiction.
Qed.

Lemma standingFrame_kneeAtLeast120 : kneeAtLeast120 standingFrame.
Proof.
  eexists. split; [exact squatSignals_standing | cbn; lra].
Qed.

Lemma squatFrame_kneeBelow120 : kneeBelow120 squatFrame.
Proof.
  eexists. split; [exact squatSignals_squat | cbn; lra].
Qed.

Lemma squatFrame_first_call :
  analyzeSquat 1000 squatFrame squatConfig newAnalyzer
  = (afterSquatFrame, Returned onSquatFrame).
Proof. rewrite analyzeSquat_unfold, squatSignals_squat. reflexivity. Qed.

(** C1 on a complete frame: the standing frame has every keypoint the squat
    policy reads, and the call returns. *)
Lemma complete_frame_is_analysed :
  squatKeypointsPresent standingFrame
  /\ exists r,
      snd (analyzeSquat 1000 standingFrame squatConfig newAnalyzer) = Returned r.
Proof.
  split; [exact standingFrame_complete|].
  apply (proj1 (missing_keypoint_throws 1000 standingFrame squatConfig newAnalyzer)).
  exact standingFrame_complete.
Defined.

(** C4 on a new analyzer: standing, squatting to 90 degrees, standing up. *)
Lemma squat_cycle_on_test_frames :
  let calls :=
    [CallSquat 1000 standingFrame squatConfig]
    ++ [CallSquat 2000 squatFrame squatConfig]
    ++ [CallSquat 3000 standingFrame squatConfig] in
  lastPosition newAnalyzer = Up
  /\ kneeAtLeast120 standingFrame
  /\ kneeBelow120 squatFrame
  /\ repCount (run newAnalyzer calls) = repCount newAnalyzer + 1
  /\ exists rep,
      repData (run newAnalyzer calls) = repData newAnalyzer ++ [rep]
      /\ RepData.repIndex rep = repCount (run newAnalyzer calls).
Proof.
  split; [reflexivity|].
  split; [exact standingFrame_kneeAtLeast120|].
  split; [exact squatFrame_kneeBelow120|].
  apply (squat_cycle_counts_one_rep newAnalyzer
           [CallSquat 1000 standingFrame squatConfig]
           [CallSquat 2000 squatFrame squatConfig]
           [CallSquat 3000 standingFrame squatConfig]).
  - reflexivity.
  - constructor; [exact standingFrame_kneeAtLeast120 | constructor].
  - discriminate.
  - constructor; [exact squatFrame_kneeBelow120 | constructor].
  - discriminate.
  - constructor; [exact standingFrame_kneeAtLeast120 | constructor].
Defined.

(** C5 on a new analyzer.  Arms raised to 90 degrees, one arm lowered (45
    degrees on average), both arms lowered: one rep.  Arms at rest, raised,
    at rest again: two reps, the first of them on the first frame. *)
Lemma rest_raise_rest_counts_two :
  repCount
    (run newAnalyzer
       [ CallShoulderAbduction armsRaisedFrame shoulderAbductionConfig;
         CallShoulderAbduction oneArmRaisedFrame shoulderAbductionConfig;
         CallShoulderAbduction standingFrame shoulderAbductionConfig ]) = 1
  /\ repCount
       (run newAnalyzer
          [ CallShoulderAbduction standingFrame shoulderAbductionConfig;
            CallShoulderAbduction armsRaisedFrame shoulderAbductionConfig;
            CallShoulderAbduction standingFrame shoulderAbductionConfig ]) = 2
  /\ repCount
       (step newAnalyzer
          (CallShoulderAbduction standingFrame shoulderAbductionConfig)) = 1.
Proof.
  set (rest := CallShoulderAbduction standingFrame shoulderAbductionConfig).
  set (raised := CallShoulderAbduction armsRaisedFrame shoulderAbductionConfig).
  set (halfway := CallShoulderAbduction oneArmRaisedFrame shoulderAbductionConfig).
  assert (H1 : shoulderAvg (fun a => a > 75)%R armsRaisedFrame)
    by (eexists; split; [exact shoulderSignals_armsRaised | cbn; lra]).
  assert (H2 : shoulderAvg (fun a => 30 <= a)%R oneArmRaisedFrame)
    by (eexists; split; [exact shoulderSignals_oneArmRaised | cbn; lra]).
  assert (H3 : shoulderAvg (fun a => a < 30)%R standingFrame)
    by (eexists; split; [exact shoulderSignals_standing | cbn; lra]).
  assert (H4 : shoulderAvg (fun a => a <= 75)%R standingFrame)
    by (eexists; split; [exact shoulderSignals_standing | cbn; lra]).
  assert (F0 : forall P : Call -> Prop, Forall P []) by (intros P; apply Forall_nil).
  assert (F2 : Forall (shoulderCallOn (shoulderAvg (fun a => 30 <= a)%R)) [halfway])
    by (apply Forall_cons; [exact H2 | apply Forall_nil]).
  assert (F4 : Forall (shoulderCallOn (shoulderAvg (fun a => a <= 75)%R)) [rest])
    by (apply Forall_cons; [exact H4 | apply Forall_nil]).
  destruct shoulder_rep_transitions as (_ & Hcycle & Hfirst & _).
  destruct (Hcycle newAnalyzer [] raised [halfway] rest (F0 _) H1 F2 H3) as (Hone & _).
  destruct (Hcycle newAnalyzer [rest] raised [] rest F4 H1 (F0 _) H3) as (_ & Htwo).
  split; [|split].
  - exact (Hone (or_intror (F0 _))).
  - apply Htwo; [reflexivity | apply Exists_cons_hd; exact H3].
  - apply Hfirst. exact H3.
Defined.

(** A reflex configuration in exact arithmetic: the raw difference is 270
    degrees and the value is 360 - 270. *)
Lemma reflex_configuration_is_folded :
  (Rabs ((atan2 (0 - 0) (-1 - 0) - atan2 (-1 - 0) (0 - 0)) * (180 / PI)) = 270)%R
  /\ calculateAngle (Some (pt 0 (-1))) (Some (pt 0 0)) (Some (pt (-1) 0))
     = Returned (360 - 270)%R.
Proof.
  assert (Hraw : (Rabs ((atan2 (0 - 0) (-1 - 0) - atan2 (-1 - 0) (0 - 0))
                        * (180 / PI)) = 270)%R).
  { replace (0 - 0)%R with 0%R by lra. replace (-1 - 0)%R with (-1)%R by lra.
    rewrite atan2_negative_x_axis, atan2_negative_y_axis by lra.
    pose proof PI_RGT_0.
    replace ((PI - - PI / 2) * (180 / PI))%R with 270%R by (field; lra).
    apply Rabs_pos_eq. lra. }
  split; [exact Hraw|].
  destruct (calculateAngle_unsigned_angle (pt 0 (-1)) (pt 0 0) (pt (-1) 0))
    as (theta & Heq & _ & _ & Hfold & _).
  cbn [pt PoseLandmark.x PoseLandmark.y] in Hfold.
  rewrite Heq, Hfold, Hraw; [reflexivity|]. rewrite Hraw. lra.
Defined.

(** C7 on the four squat messages of priorities 3, 1, 4 and 2. *)
Lemma squat_messages_ranked :
  rankFeedback [msgGoDeeper; msgGreatDepth; msgKneesOut; msgChestUp]
  = [msgKneesOut; msgGoDeeper].
Proof.
  apply (proj2 (proj2 (proj2 (proj2 feedback_ranked_top_two)))); reflexivity.
Defined.

(** C8 on the squat frame: in the bottom position without good depth, no
    valgus, no lean; the score stored and returned is 85. *)
Lemma squatFrame_score_floored :
  exists sig,
    squatSignals (getKeyLandmarks squatFrame) = Returned sig
    /\ currentScore afterSquatFrame
       = Z.max 0 (100
                  - (if isInBottomPosition sig && negb (hasGoodDepth sig)
                     then 15 else 0)
                  - (if valgus sig then 20 else 0)
                  - (if excessiveLean sig then 10 else 0))
    /\ Analysis.score onSquatFrame = currentScore afterSquatFrame.
Proof.
  exact (proj1 currentScore_floored_in_range _ _ _ _ _ _ squatFrame_first_call).
Defined.

(** C10 on the squat frame. *)
Lemma squatFrame_score_at_least_55 :
  55 <= Analysis.score onSquatFrame <= 100.
Proof.
  exact (proj1 (proj1 returned_score_at_least_55 _ _ _ _ _ _ squatFrame_first_call)).
Defined.

(* ------------------------------------------------------------------ *)
(** ** Further facts about the squat policy *)

(** X1. Every entry [analyzeSquat] appends is flagged "shallow_squat": the rep
    is counted on a frame with the knee angle at 120 degrees or more, where
    [hasGoodDepth] is false. *)
Theorem every_squat_rep_is_flagged_shallow :
  forall this now landmarks config,
    repCount (step this (CallSquat now landmarks config)) = repCount this + 1 ->
    exists rep,
      repData (step this (CallSquat now landmarks config)) = repData this ++ [rep]
      /\ In "shallow_squat"%string (RepData.flags rep).
Proof.
  intros this now landmarks config. cbn [step]. rewrite analyzeSquat_unfold. cbv zeta.
  destruct (squatSignals (getKeyLandmarks landmarks)) as [sig|e] eqn:Hsig;
    [|cbn; lia].
  destruct (squatSignals_coherent _ _ Hsig) as (Hb & Hd & _).
  unfold squatRepCounting. destruct this as [rc cs lp rd fc].
  destruct (isInBottomPosition sig) eqn:Hbottom, lp; cbn; try lia.
  intros _. eexists. split; [reflexivity|].
  apply squatRep_flags. rewrite Hd.
  rewrite Hb in Hbottom. destruct (Rltb_spec (kneeAngle sig) 120) as [|Hge]; [discriminate|].
  apply Rltb_false. lra.
Qed.

(** X1 on the standing frame that completes the first rep. *)
Lemma standing_up_is_flagged_shallow :
  exists rep,
    repData (step afterSquatFrame (CallSquat 2000 standingFrame squatConfig))
    = repData afterSquatFrame ++ [rep]
    /\ In "shallow_squat"%string (RepData.flags rep).
Proof.
  apply (every_squat_rep_is_flagged_shallow
           afterSquatFrame 2000 standingFrame squatConfig).
  rewrite (step_squat _ _ _ _ _ squatSignals_standing). reflexivity.
Defined.

(** X2. The periodic "Looking good!" message (priority 0) is never among the
    generated messages: in the bottom position a depth message has
    already been pushed, so the list is not empty. *)
Theorem periodic_info_is_never_emitted :
  forall sig frameCount,
    Forall (fun m => FeedbackMessage.priority m <> 0)
      (fst (squatFeedback sig frameCount)).
Proof.
  intros sig frameCount. unfold squatFeedback, pushIf.
  destruct (isInBottomPosition sig), (hasGoodDepth sig), (valgus sig),
    (excessiveLean sig), (Z.rem frameCount 30 =? 0); cbn;
    repeat constructor; discriminate.
Qed.

(* ------------------------------------------------------------------ *)
(** ** Further facts about the facade *)

(** [reset] brings any analyzer back to the state of a new one, with an
    empty rep log, and resetting twice is resetting once. *)
Lemma reset_is_idempotent :
  forall this,
    reset this = newAnalyzer
    /\ getRepData (reset this) = []
    /\ reset (reset this) = reset this.
Proof. intros this. repeat split. Qed.

Open Scope R_scope.

(** X3. [calculateAngle] does not depend on the order of the two outer
    points, and it reads the [x] and [y] of its points only: landmarks that
    differ in [z] or [visibility] give the same result.  An undefined
    point throws in either order. *)
Theorem calculateAngle_swap_and_plane :
  forall p1 p2 p3 : option PoseLandmark.t,
    calculateAngle p1 p2 p3 = calculateAngle p3 p2 p1
    /\ (forall q1 q2 q3,
        sameXY p1 q1 -> sameXY p2 q2 -> sameXY p3 q3 ->
        calculateAngle q1 q2 q3 = calculateAngle p1 p2 p3)
    /\ ((p1 = None \/ p2 = None \/ p3 = None) ->
        calculateAngle p1 p2 p3 = Thrown TypeError).
Proof.
  intros p1 p2 p3. split; [|split].
  - destruct p1 as [p1|], p2 as [p2|], p3 as [p3|]; try reflexivity.
    rewrite !calculateAngle_present. f_equal. cbv zeta.
    set (a := atan2 (PoseLandmark.y p3 - PoseLandmark.y p2)
                (PoseLandmark.x p3 - PoseLandmark.x p2)).
    set (b := atan2 (PoseLandmark.y p1 - PoseLandmark.y p2)
                (PoseLandmark.x p1 - PoseLandmark.x p2)).
    replace ((b - a) * (180 / PI)) with (- ((a - b) * (180 / PI))) by ring.
    rewrite Rabs_Ropp. reflexivity.
  - intros q1 q2 q3 H1 H2 H3.
    destruct p1 as [p1|], q1 as [q1|]; try contradiction;
      destruct p2 as [p2|], q2 as [q2|]; try contradiction;
      destruct p3 as [p3|], q3 as [q3|]; try contradiction; try reflexivity.
    destruct H1 as (H1x & H1y), H2 as (H2x & H2y), H3 as (H3x & H3y).
    rewrite !calculateAngle_present, H1x, H1y, H2x, H2y, H3x, H3y. reflexivity.
  - intros H. destruct p1 as [p1|], p2 as [p2|], p3 as [p3|];
      try reflexivity. destruct H as [H|[H|H]]; discriminate.
Qed.

Lemma calculateAngle_range p1 p2 p3 a :
  calculateAngle p1 p2 p3 = Returned a -> 0 <= a <= 180.
Proof.
  destruct p1 as [p1|], p2 as [p2|], p3 as [p3|]; try discriminate.
  destruct (calculateAngle_cos p1 p2 p3) as (theta & Heq & Hrange & _).
  rewrite Heq. intros H. injection H as <-. exact Hrange.
Qed.

Lemma squatSignals_ranges keyLandmarks sig :
  squatSignals keyLandmarks = Returned sig ->
  0 <= kneeAngle sig <= 180 /\ 0 <= hipAngle sig <= 180 /\ 0 <= torsoLean sig.
Proof.
  unfold squatSignals. intros H. invert_binds H. injection H as <-. cbn.
  repeat match goal with
         | H : calculateAngle _ _ _ = Returned _ |- _ =>
             apply calculateAngle_range in H
         end.
  split; [|split; [assumption | apply Rabs_pos]].
  unfold Rmin. destruct (Rle_dec _ _); assumption.
Qed.

Lemma shoulderSignals_ranges keyLandmarks sig :
  shoulderSignals keyLandmarks = Returned sig ->
  0 <= avgShoulderAngle sig <= 180
  /\ 0 <= shoulderSymmetry sig <= 180
  /\ 0 <= angleDeviation sig <= 90.
Proof.
  unfold shoulderSignals, targetAngle. intros H. invert_binds H. injection H as <-. cbn.
  repeat match goal with
         | H : calculateAngle _ _ _ = Returned _ |- _ =>
             apply calculateAngle_range in H
         end.
  split; [lra|]. split.
  - split; [apply Rabs_pos|]. apply Rabs_le. lra.
  - split; [apply Rabs_pos|]. apply Rabs_le. lra.
Qed.

(** X4. Every angle a returned analysis reports lies between 0 and 180
    degrees, and the angles the policy does not measure are 0: the shoulder
    for the squat, knee and hip for the shoulder abduction. *)
Theorem returned_angles_in_range :
  (forall now landmarks config this this' r,
      analyzeSquat now landmarks config this = (this', Returned r) ->
      0 <= Angles.knee (Analysis.angles r) <= 180
      /\ 0 <= Angles.hip (Analysis.angles r) <= 180
      /\ Angles.shoulder (Analysis.angles r) = 0)
  /\ (forall landmarks config this this' r,
      analyzeShoulderAbduction landmarks config this = (this', Returned r) ->
      0 <= Angles.shoulder (Analysis.angles r) <= 180
      /\ Angles.knee (Analysis.angles r) = 0
      /\ Angles.hip (Analysis.angles r) = 0).
Proof.
  split.
  - intros now landmarks config this this' r H.
    rewrite analyzeSquat_unfold in H. cbv zeta in H.
    destruct (squatSignals (getKeyLandmarks landmarks)) as [sig|e] eqn:Hsig; [|discriminate].
    injection H as _ <-. cbn.
    destruct (squatSignals_ranges _ _ Hsig) as (Hk & Hh & _). auto.
  - intros landmarks config this this' r H.
    rewrite analyzeShoulderAbduction_unfold in H.
    destruct (shoulderSignals (getKeyLandmarks landmarks)) as [sig|e] eqn:Hsig; [|discriminate].
    injection H as _ <-. cbn.
    destruct (shoulderSignals_ranges _ _ Hsig) as (Ha & _). auto.
Qed.

(** X4 on the first call on the squat frame. *)
Lemma returned_angles_on_squatFrame :
  0 <= Angles.knee (Analysis.angles onSquatFrame) <= 180
  /\ 0 <= Angles.hip (Analysis.angles onSquatFrame) <= 180
  /\ Angles.shoulder (Analysis.angles onSquatFrame) = 0.
Proof.
  exact (proj1 returned_angles_in_range _ _ _ _ _ _ squatFrame_first_call).
Defined.

Close Scope R_scope.
Open Scope Z_scope.

Ltac messages :=
  unfold msgGoDeeper, msgGreatDepth, msgKneesOut, msgChestUp, msgLookingGood,
    msgRaiseArms, msgLowerArms, msgSymmetry, msgRelaxShoulders, msgPerfectForm in *.

Lemma squat_feedback_shown sig fc :
  let shown := rankFeedback (fst (squatFeedback sig fc)) in
  (In msgKneesOut shown <-> valgus sig = true)
  /\ (In msgGoDeeper shown
      <-> isInBottomPosition sig = true /\ hasGoodDepth sig = false)
  /\ (In msgChestUp shown
      <-> excessiveLean sig = true
          /\ ~ (valgus sig = true
                /\ isInBottomPosition sig = true /\ hasGoodDepth sig = false))
  /\ (In msgGreatDepth shown
      <-> isInBottomPosition sig = true /\ hasGoodDepth sig = true
          /\ ~ (valgus sig = true /\ excessiveLean sig = true))
  /\ Forall (fun m => In m [msgKneesOut; msgGoDeeper; msgChestUp; msgGreatDepth]) shown.
Proof.
  unfold squatFeedback, rankFeedback, pushIf.
  destruct (isInBottomPosition sig), (hasGoodDepth sig), (valgus sig),
    (excessiveLean sig), (Z.rem fc 30 =? 0); cbn; messages;
    repeat split; try (repeat constructor; cbn; tauto);
    intuition (discriminate || congruence || idtac).
Qed.

Lemma Rleb_spec a b : reflect (a <= b)%R (Rleb a b).
Proof. unfold Rleb. destruct (Rle_dec a b); constructor; assumption. Qed.

(** X5. Which messages a returned squat analysis shows, after ranking and
    the cut to two: the knees-out message exactly on valgus, the go-deeper
    message exactly for a knee angle in [90, 120), the chest-up message
    exactly on a lean that is not crowded out by the other two, the
    great-depth message exactly below 90 degrees unless valgus and lean
    both fire; and nothing else. *)
Theorem squat_messages_returned :
  forall now landmarks config this this' r,
    analyzeSquat now landmarks config this = (this', Returned r) ->
    exists sig,
      squatSignals (getKeyLandmarks landmarks) = Returned sig
      /\ let shown := Analysis.feedback r in
         let knee := kneeAngle sig in
         let lean := torsoLean sig in
         (In msgKneesOut shown <-> valgus sig = true)
         /\ (In msgGoDeeper shown <-> (90 <= knee < 120)%R)
         /\ (In msgChestUp shown
             <-> (lean > 0.05)%R
                 /\ ~ (valgus sig = true /\ (90 <= knee < 120)%R))
         /\ (In msgGreatDepth shown
             <-> (knee < 90)%R /\ ~ (valgus sig = true /\ (lean > 0.05)%R))
         /\ Forall (fun m => In m [msgKneesOut; msgGoDeeper; msgChestUp; msgGreatDepth])
              shown.
Proof.
  intros now landmarks config this this' r H.
  rewrite analyzeSquat_unfold in H. cbv zeta in H.
  destruct (squatSignals (getKeyLandmarks landmarks)) as [sig|e] eqn:Hsig; [|discriminate].
  injection H as _ <-. exists sig. split; [reflexivity|].
  cbn [Analysis.feedback].
  destruct (squatSignals_coherent _ _ Hsig) as (Hb & Hd & Hl).
  match goal with
  | |- context [squatFeedback sig ?fc] =>
      destruct (squat_feedback_shown sig fc) as (S1 & S2 & S3 & S4 & S5)
  end.
  cbv zeta. rewrite S1, S2, S3, S4, Hb, Hd, Hl.
  destruct (Rltb_spec (kneeAngle sig) 120), (Rltb_spec (kneeAngle sig) 90),
    (Rgtb_spec (torsoLean sig) 0.05), (valgus sig);
    repeat split; try assumption; intros; try discriminate; try lra;
    intuition (discriminate || lra || idtac).
Qed.

Lemma shoulder_feedback_shown sig :
  angleDeviation sig = Rabs (avgShoulderAngle sig - targetAngle) ->
  isInTargetRange sig = Rleb (angleDeviation sig) 10 ->
  let shown := rankFeedback (fst (shoulderFeedback sig)) in
  let avg := avgShoulderAngle sig in
  let sym := shoulderSymmetry sig in
  (In msgSymmetry shown <-> (sym > 15)%R)
  /\ (In msgRaiseArms shown <-> (avg < 75)%R)
  /\ (In msgLowerArms shown <-> (avg > 105)%R)
  /\ (In msgRelaxShoulders shown
      <-> hiking sig = true
          /\ ~ ((sym > 15)%R /\ ((avg < 75)%R \/ (avg > 105)%R)))
  /\ (In msgPerfectForm shown <-> (80 <= avg <= 100)%R /\ (sym <= 10)%R)
  /\ Forall (fun m => In m [msgSymmetry; msgRaiseArms; msgLowerArms;
                            msgRelaxShoulders; msgPerfectForm]) shown.
Proof.
  intros Hdev Htarget. cbv zeta.
  unfold shoulderFeedback, rankFeedback, pushIf. rewrite Htarget, Hdev.
  unfold targetAngle.
  assert (Habs : forall t : R,
             (Rabs (avgShoulderAngle sig - 90) > t <->
              avgShoulderAngle sig < 90 - t \/ avgShoulderAngle sig > 90 + t)%R).
  { intros t. unfold Rabs. destruct (Rcase_abs _); split; intros; lra. }
  destruct (Rgtb_spec (Rabs (avgShoulderAngle sig - 90)) 15) as [D|D];
    rewrite Habs in D;
    destruct (Rltb_spec (avgShoulderAngle sig) (90 - 15)) as [L|L];
    destruct (Rgtb_spec (avgShoulderAngle sig) (90 + 15)) as [G|G];
    try (exfalso; lra);
    destruct (Rgtb_spec (shoulderSymmetry sig) 15) as [S|S];
    destruct (hiking sig);
    destruct (Rleb_spec (Rabs (avgShoulderAngle sig - 90)) 10) as [T|T];
    try (assert (T' : ~ (Rabs (avgShoulderAngle sig - 90) > 10)%R) by lra;
         rewrite Habs in T');
    try (assert (T' : (Rabs (avgShoulderAngle sig - 90) > 10)%R) by lra;
         rewrite Habs in T');
    try (exfalso; lra);
    destruct (Rleb_spec (shoulderSymmetry sig) 10) as [P|P];
    try (exfalso; lra);
    cbn; messages;
    (repeat split; try (repeat constructor; cbn; tauto);
     intros; try discriminate; try lra;
     intuition (discriminate || congruence || lra || idtac)).
Qed.

(** X6. Which messages a returned shoulder-abduction analysis shows: the
    symmetry message exactly when the two angles differ by more than 15
    degrees, raise-arms exactly below 75 degrees, lower-arms exactly above
    105 degrees, relax-shoulders on hiking unless the former two are both
    shown, perfect-form exactly within 10 degrees of the target with a
    difference of at most 10; and nothing else. *)
Theorem shoulder_messages_returned :
  forall landmarks config this this' r,
    analyzeShoulderAbduction landmarks config this = (this', Returned r) ->
    exists sig,
      shoulderSignals (getKeyLandmarks landmarks) = Returned sig
      /\ let shown := Analysis.feedback r in
         let avg := avgShoulderAngle sig in
         let sym := shoulderSymmetry sig in
         (In msgSymmetry shown <-> (sym > 15)%R)
         /\ (In msgRaiseArms shown <-> (avg < 75)%R)
         /\ (In msgLowerArms shown <-> (avg > 105)%R)
         /\ (In msgRelaxShoulders shown
             <-> hiking sig = true
                 /\ ~ ((sym > 15)%R /\ ((avg < 75)%R \/ (avg > 105)%R)))
         /\ (In msgPerfectForm shown <-> (80 <= avg <= 100)%R /\ (sym <= 10)%R)
         /\ Forall (fun m => In m [msgSymmetry; msgRaiseArms; msgLowerArms;
                                   msgRelaxShoulders; msgPerfectForm]) shown.
Proof.
  intros landmarks config this this' r H.
  rewrite analyzeShoulderAbduction_unfold in H.
  destruct (shoulderSignals (getKeyLandmarks landmarks)) as [sig|e] eqn:Hsig; [|discriminate].
  injection H as _ <-. exists sig. split; [reflexivity|].
  cbn [Analysis.feedback].
  destruct (shoulderSignals_coherent _ _ Hsig) as (_ & Ht & Hd).
  exact (shoulder_feedback_shown sig Hd Ht).
Qed.

Ltac consistency :=
  unfold consistent; cbn; messages;
  split; [lia|];
  split; [repeat constructor; unfold outranks; cbn; lia|];
  split;
  [ split;
    [ intros Hs; try lia; do 2 eexists; split; reflexivity
    | intros (m & rest & E & C); try discriminate;
      injection E as <- <-; cbn in C; try discriminate; lia ]
  | intros m Hin Hty; cbn in Hin;
    repeat (destruct Hin as [<-|Hin]; [try discriminate; try reflexivity|]);
    try contradiction ].

Lemma squatFeedback_consistent sig fc :
  consistent (rankFeedback (fst (squatFeedback sig fc))) (snd (squatFeedback sig fc)).
Proof.
  unfold squatFeedback, rankFeedback, pushIf.
  destruct (isInBottomPosition sig), (hasGoodDepth sig), (valgus sig),
    (excessiveLean sig), (Z.rem fc 30 =? 0); consistency.
Qed.

Lemma shoulderFeedback_consistent sig :
  consistent (rankFeedback (fst (shoulderFeedback sig))) (snd (shoulderFeedback sig)).
Proof.
  unfold shoulderFeedback, rankFeedback, pushIf.
  destruct (Rgtb (angleDeviation sig) 15),
    (Rltb (avgShoulderAngle sig) (targetAngle - 15)),
    (Rgtb (avgShoulderAngle sig) (targetAngle + 15)),
    (Rgtb (shoulderSymmetry sig) 15), (hiking sig),
    (isInTargetRange sig && Rleb (shoulderSymmetry sig) 10); consistency.
Qed.

(** X7. The feedback and the score of one returned analysis agree: at most
    two messages, of strictly decreasing priority; the score is below 100
    exactly when the first message asks for a correction (a warning or an
    error); and a message of type error is always the first one. *)
Theorem feedback_consistent_with_score :
  (forall now landmarks config this this' r,
      analyzeSquat now landmarks config this = (this', Returned r) ->
      consistent (Analysis.feedback r) (Analysis.score r))
  /\ (forall landmarks config this this' r,
      analyzeShoulderAbduction landmarks config this = (this', Returned r) ->
      consistent (Analysis.feedback r) (Analysis.score r)).
Proof.
  split.
  - intros now landmarks config this this' r H.
    rewrite analyzeSquat_unfold in H. cbv zeta in H.
    destruct (squatSignals (getKeyLandmarks landmarks)) as [sig|e]; [|discriminate].
    injection H as _ <-. cbn [Analysis.feedback Analysis.score].
    match goal with
    | |- context [squatFeedback sig ?fc] =>
        pose proof (squatFeedback_consistent sig fc) as Hc;
        pose proof (squatFeedback_score_bounds sig fc)
    end.
    rewrite Z.max_r by lia. exact Hc.
  - intros landmarks config this this' r H.
    rewrite analyzeShoulderAbduction_unfold in H.
    destruct (shoulderSignals (getKeyLandmarks landmarks)) as [sig|e]; [|discriminate].
    injection H as _ <-. cbn [Analysis.feedback Analysis.score].
    pose proof (shoulderFeedback_consistent sig) as Hc.
    pose proof (shoulderFeedback_score_bounds sig).
    rewrite Z.max_r by lia. exact Hc.
Qed.

(** X7 on the first call on the squat frame. *)
Lemma feedback_consistent_on_squatFrame :
  consistent (Analysis.feedback onSquatFrame) (Analysis.score onSquatFrame).
Proof.
  exact (proj1 feedback_consistent_with_score _ _ _ _ _ _ squatFrame_first_call).
Defined.

(* ------------------------------------------------------------------ *)
(** ** Hysteresis *)

Lemma squat_step_pending this c :
  isShoulderCall c = false -> c <> CallReset ->
  repCount (step this c) + pending (step this c)
  = repCount this + pending this
    + (if isBottomCall c && Position_eqb (lastPosition this) Up then 1 else 0).
Proof.
  intros Hs Hr. destruct c as [now landmarks config| | |];
    try discriminate; try contradiction.
  - cbn [step isBottomCall]. rewrite analyzeSquat_unfold. cbv zeta.
    destruct (squatSignals (getKeyLandmarks landmarks)) as [sig|e]; cbn [fst].
    + unfold squatRepCounting, pending. destruct this as [rc cs lp rd fc].
      destruct (isInBottomPosition sig), lp; cbn; lia.
    + unfold pending. cbn. destruct (lastPosition this); lia.
  - cbn. lia.
Qed.

Lemma run_squat_pending calls : forall this,
  Forall (fun c => isShoulderCall c = false /\ c <> CallReset) calls ->
  repCount (run this calls) + pending (run this calls)
  <= repCount this + pending this
     + Z.of_nat (List.length (filter isBottomCall calls)).
Proof.
  induction calls as [|c calls IH]; intros this Hall; [cbn; lia|].
  inversion Hall as [|? ? (Hs & Hr) Hrest]; subst.
  cbn [run fold_left]. fold (run (step this c) calls).
  specialize (IH (step this c) Hrest).
  pose proof (squat_step_pending this c Hs Hr) as Hstep.
  cbn [filter]. destruct (isBottomCall c); cbn [andb] in Hstep.
  - cbn [List.length]. destruct (Position_eqb (lastPosition this) Up); lia.
  - lia.
Qed.

Lemma pending_range this : 0 <= pending this <= 1.
Proof. unfold pending. destruct (lastPosition this); lia. Qed.

Lemma squat_step_phase this now landmarks config :
  let this' := step this (CallSquat now landmarks config) in
  repCount this' = repCount this
  \/ (repCount this' = repCount this + 1
      /\ lastPosition this = Down /\ lastPosition this' = Up).
Proof.
  cbn [step]. rewrite analyzeSquat_unfold. cbv zeta.
  destruct (squatSignals (getKeyLandmarks landmarks)) as [sig|e]; [|left; reflexivity].
  unfold squatRepCounting. destruct this as [rc cs lp rd fc].
  destruct (isInBottomPosition sig), lp; cbn; auto.
Qed.

(** X8. Squat reps need a bottom frame each: on a new analyzer the rep count
    never exceeds the number of squat frames seen in the bottom position;
    from any state it exceeds the old count by at most that number plus one
    for a descent already under way; and two consecutive frames count at
    most one rep. *)
Theorem reps_bounded_by_bottom_frames :
  (forall calls,
      Forall (fun c => isShoulderCall c = false /\ c <> CallReset) calls ->
      repCount (run newAnalyzer calls)
      <= Z.of_nat (List.length (filter isBottomCall calls)))
  /\ (forall this calls,
      Forall (fun c => isShoulderCall c = false /\ c <> CallReset) calls ->
      repCount (run this calls)
      <= repCount this + pending this
         + Z.of_nat (List.length (filter isBottomCall calls)))
  /\ (forall this c1 c2,
      isSquatCall c1 = true -> isSquatCall c2 = true ->
      repCount (step (step this c1) c2) <= repCount this + 1).
Proof.
  split; [|split].
  - intros calls Hall. pose proof (run_squat_pending calls newAnalyzer Hall) as H.
    pose proof (pending_range (run newAnalyzer calls)). cbn in H. lia.
  - intros this calls Hall. pose proof (run_squat_pending calls this Hall) as H.
    pose proof (pending_range (run this calls)). lia.
  - intros this c1 c2 H1 H2.
    destruct c1 as [n1 l1 g1| | |]; try discriminate.
    destruct c2 as [n2 l2 g2| | |]; try discriminate.
    destruct (squat_step_phase this n1 l1 g1) as [Ha|(Ha & _ & Hup)];
      destruct (squat_step_phase (step this (CallSquat n1 l1 g1)) n2 l2 g2)
        as [Hb|(Hb & Hdown & _)]; try lia.
    rewrite Hup in Hdown. discriminate.
Qed.

(* ------------------------------------------------------------------ *)
(** ** Invariants of the rep log *)

Lemma StronglySorted_snoc {A} (R : A -> A -> Prop) l x :
  StronglySorted R l -> Forall (fun a => R a x) l -> StronglySorted R (l ++ [x]).
Proof.
  induction 1 as [|a l Hs IH Ha]; intros Hx; cbn.
  - constructor; constructor.
  - inversion Hx as [|? ? Hax Hlx]; subst.
    constructor; [apply IH, Hlx|].
    apply Forall_app. split; [exact Ha | constructor; [exact Hax | constructor]].
Qed.

Lemma step_logInvariant this c : logInvariant this -> logInvariant (step this c).
Proof.
  intros (H0 & Hlen & Hs & Hall).
  destruct c as [now landmarks config|landmarks config| |].
  - destruct (squat_log_step this now landmarks config)
      as [(Hrc & Hrd)|(Hrc & rep & Hrd & Hidx)];
      unfold logInvariant; rewrite Hrc, Hrd.
    + auto.
    + rewrite Hrc in Hidx. split; [lia|]. split.
      { rewrite length_app. cbn. lia. }
      split.
      { apply StronglySorted_snoc; [exact Hs|].
        eapply Forall_impl; [|exact Hall]. intros a Ha. cbv beta in *. lia. }
      apply Forall_app. split.
      { eapply Forall_impl; [|exact Hall]. intros a Ha. cbv beta in *. lia. }
      constructor; [lia | constructor].
  - unfold logInvariant. rewrite shoulder_log_step.
    assert (Hrc : repCount (step this (CallShoulderAbduction landmarks config))
                  = repCount this
                  \/ repCount (step this (CallShoulderAbduction landmarks config))
                     = repCount this + 1).
    { cbn [step]. rewrite analyzeShoulderAbduction_unfold.
      destruct (shoulderSignals (getKeyLandmarks landmarks)) as [sig|e]; [|left; reflexivity].
      unfold shoulderRepCounting.
      destruct (_ && _ && _); [left; reflexivity|].
      destruct (_ && _ && _); [right|left]; reflexivity. }
    split; [lia|]. split; [lia|]. split; [exact Hs|].
    eapply Forall_impl; [|exact Hall]. intros a Ha. cbv beta in *. lia.
  - cbn. unfold logInvariant. cbn. repeat split; try lia; constructor.
  - exact (conj H0 (conj Hlen (conj Hs Hall))).
Qed.

Lemma run_logInvariant calls : forall this,
  logInvariant this -> logInvariant (run this calls).
Proof.
  induction calls as [|c calls IH]; intros this H; [exact H|].
  cbn [run fold_left]. apply IH, step_logInvariant, H.
Qed.

Lemma newAnalyzer_logInvariant : logInvariant newAnalyzer.
Proof. unfold logInvariant. cbn. repeat split; try lia; constructor. Qed.

Lemma run_squat_log_exact calls : forall this,
  Forall (fun c => isShoulderCall c = false) calls ->
  repCount this = Z.of_nat (List.length (repData this)) ->
  map RepData.repIndex (repData this)
  = map Z.of_nat (seq 1 (List.length (repData this))) ->
  let this' := run this calls in
  repCount this' = Z.of_nat (List.length (repData this'))
  /\ map RepData.repIndex (repData this')
     = map Z.of_nat (seq 1 (List.length (repData this'))).
Proof.
  induction calls as [|c calls IH]; intros this Hall Hrc Hidx; [cbn; auto|].
  inversion Hall as [|? ? Hc Hrest]; subst.
  cbn [run fold_left]. apply (IH (step this c) Hrest).
  - destruct c as [now landmarks config|landmarks config| |]; try discriminate.
    + destruct (squat_log_step this now landmarks config)
        as [(E1 & E2)|(E1 & rep & E2 & _)]; rewrite E1, E2; [exact Hrc|].
      rewrite length_app. cbn. lia.
    + reflexivity.
    + exact Hrc.
  - destruct c as [now landmarks config|landmarks config| |]; try discriminate.
    + destruct (squat_log_step this now landmarks config)
        as [(E1 & E2)|(E1 & rep & E2 & E3)]; rewrite E2; [exact Hidx|].
      rewrite length_app, map_app, Hidx. cbn [List.length map].
      rewrite Nat.add_1_r, seq_S, map_app. cbn [map]. f_equal. f_equal.
      rewrite E3, E1, Hrc. lia.
    + reflexivity.
    + exact Hidx.
Qed.

(** X9. The rep log under any sequence of calls of the four methods: the
    log is never longer than the rep count, its rep indices increase
    strictly and lie between 1 and the rep count; as long as no
    shoulder-abduction frame is analysed the log has one entry per rep,
    numbered 1, 2, ..., n. *)
Theorem rep_log_invariants :
  (forall calls, logInvariant (run newAnalyzer calls))
  /\ (forall calls,
      Forall (fun c => isShoulderCall c = false) calls ->
      let this := run newAnalyzer calls in
      repCount this = Z.of_nat (List.length (getRepData this))
      /\ map RepData.repIndex (getRepData this)
         = map Z.of_nat (seq 1 (List.length (getRepData this)))).
Proof.
  split.
  - intros calls. apply run_logInvariant, newAnalyzer_logInvariant.
  - intros calls Hall. apply run_squat_log_exact; [exact Hall | reflexivity..].
Qed.

(* ------------------------------------------------------------------ *)
(** ** Chronology *)

Lemma StronglySorted_app_drop {A} (R : A -> A -> Prop) l x r :
  StronglySorted R (l ++ x :: r) -> StronglySorted R (l ++ r).
Proof.
  induction l as [|a l IH]; cbn; intros H.
  - inversion H; assumption.
  - inversion H as [|? ? Hs Ha]; subst. constructor; [apply IH, Hs|].
    apply Forall_app in Ha. destruct Ha as [Hl Hxr].
    apply Forall_app. split; [exact Hl|]. inversion Hxr; assumption.
Qed.

Lemma StronglySorted_app_r {A} (R : A -> A -> Prop) l r :
  StronglySorted R (l ++ r) -> StronglySorted R r.
Proof.
  induction l as [|a l IH]; cbn; intros H; [exact H|].
  inversion H; subst. apply IH. assumption.
Qed.

Lemma run_chronological calls : forall this,
  StronglySorted Z.le (map RepData.timestamp (repData this) ++ callTimes calls) ->
  StronglySorted Z.le (map RepData.timestamp (repData (run this calls))).
Proof.
  induction calls as [|c calls IH]; intros this Hs.
  - cbn in Hs. rewrite app_nil_r in Hs. exact Hs.
  - cbn [run fold_left]. apply (IH (step this c)).
    destruct c as [now landmarks config|landmarks config| |]; cbn [callTimes flat_map] in Hs.
    + cbn [app] in Hs. fold (callTimes calls) in Hs.
      cbn [step]. rewrite analyzeSquat_unfold. cbv zeta.
      destruct (squatSignals (getKeyLandmarks landmarks)) as [sig|e]; cbn [fst].
      * unfold squatRepCounting. destruct this as [rc cs lp rd fc].
        cbn [repData lastPosition set_frameCount] in *.
        destruct (isInBottomPosition sig), lp; cbn;
          try (apply StronglySorted_app_drop in Hs; exact Hs).
        rewrite map_app, <- app_assoc. exact Hs.
      * cbn. apply StronglySorted_app_drop in Hs. exact Hs.
    + rewrite shoulder_log_step. exact Hs.
    + cbn. apply StronglySorted_app_r in Hs. exact Hs.
    + exact Hs.
Qed.

Lemma run_timestamps calls : forall this,
  incl (map RepData.timestamp (repData (run this calls)))
       (map RepData.timestamp (repData this) ++ callTimes calls).
Proof.
  induction calls as [|c calls IH]; intros this.
  - cbn. rewrite app_nil_r. apply incl_refl.
  - cbn [run fold_left]. eapply incl_tran; [apply (IH (step this c))|].
    apply incl_app; [|cbn [callTimes flat_map]; apply incl_appr, incl_appr, incl_refl].
    destruct c as [now landmarks config|landmarks config| |].
    + destruct (squat_log_step this now landmarks config)
        as [(_ & E)|(_ & rep & E & _)]; rewrite E.
      * apply incl_appl, incl_refl.
      * rewrite map_app. apply incl_app; [apply incl_appl, incl_refl|].
        apply incl_appr. cbn [callTimes flat_map map].
        assert (Ht : RepData.timestamp rep = now).
        { revert E. cbn [step]. rewrite analyzeSquat_unfold. cbv zeta.
          destruct (squatSignals (getKeyLandmarks landmarks)) as [sig|e]; cbn [fst].
          - unfold squatRepCounting. destruct this as [rc cs lp rd fc].
            destruct (isInBottomPosition sig), lp; cbn; intros E;
              try (apply (f_equal (@List.length _)) in E;
                   rewrite length_app in E; cbn in E; lia).
            apply app_inj_tail in E. destruct E as [_ <-]. reflexivity.
          - cbn. intros E. apply (f_equal (@List.length _)) in E.
            rewrite length_app in E. cbn in E. lia. }
        rewrite Ht. intros t [<-|[]]. left. reflexivity.
    + rewrite shoulder_log_step. apply incl_appl, incl_refl.
    + cbn. intros t [].
    + apply incl_appl, incl_refl.
Qed.

(** X10. If the clock does not run backwards between the squat calls, the
    timestamps of the rep log are in ascending order, and each of them is
    the reading of one of the calls. *)
Theorem rep_log_is_chronological :
  forall calls,
    StronglySorted Z.le (callTimes calls) ->
    StronglySorted Z.le (map RepData.timestamp (getRepData (run newAnalyzer calls)))
    /\ incl (map RepData.timestamp (getRepData (run newAnalyzer calls)))
         (callTimes calls).
Proof.
  intros calls Hs. split.
  - apply run_chronological. exact Hs.
  - apply (run_timestamps calls newAnalyzer).
Qed.

(** X10 on a descent at time 1000 and a return at time 2000. *)
Lemma squat_cycle_is_chronological :
  let calls :=
    [CallSquat 1000 squatFrame squatConfig;
     CallSquat 2000 standingFrame squatConfig] in
  StronglySorted Z.le (callTimes calls)
  /\ StronglySorted Z.le
       (map RepData.timestamp (getRepData (run newAnalyzer calls)))
  /\ incl (map RepData.timestamp (getRepData (run newAnalyzer calls)))
         (callTimes calls).
Proof.
  assert (H : StronglySorted Z.le [1000; 2000])
    by (repeat constructor; lia).
  split; [exact H|].
  exact (rep_log_is_chronological
           [CallSquat 1000 squatFrame squatConfig;
            CallSquat 2000 standingFrame squatConfig] H).
Defined.

(* ------------------------------------------------------------------ *)
(** ** The frame counter *)

Lemma squatFeedback_frameCount sig fc1 fc2 :
  squatFeedback sig fc1 = squatFeedback sig fc2.
Proof.
  unfold squatFeedback, pushIf.
  destruct (isInBottomPosition sig), (hasGoodDepth sig), (valgus sig),
    (excessiveLean sig), (Z.rem fc1 30 =? 0), (Z.rem fc2 30 =? 0); reflexivity.
Qed.

(** X11. [frameCount] is write-only: two analyzers that differ in it alone
    return the same analysis for the same frame and differ in it alone
    afterwards; [analyzeSquat] advances it by one, also when it throws, and
    [analyzeShoulderAbduction] never touches it. *)
Theorem frameCount_is_never_observed :
  forall a b,
    sameButFrameCount a b ->
    (forall now landmarks config,
        snd (analyzeSquat now landmarks config a)
        = snd (analyzeSquat now landmarks config b)
        /\ sameButFrameCount (fst (analyzeSquat now landmarks config a))
             (fst (analyzeSquat now landmarks config b))
        /\ frameCount (fst (analyzeSquat now landmarks config a))
           = frameCount a + 1)
    /\ (forall landmarks config,
        snd (analyzeShoulderAbduction landmarks config a)
        = snd (analyzeShoulderAbduction landmarks config b)
        /\ sameButFrameCount (fst (analyzeShoulderAbduction landmarks config a))
             (fst (analyzeShoulderAbduction landmarks config b))
        /\ frameCount (fst (analyzeShoulderAbduction landmarks config a))
           = frameCount a).
Proof.
  intros [rc cs lp rd fca] [rc' cs' lp' rd' fcb] (E1 & E2 & E3 & E4).
  cbn in E1, E2, E3, E4. subst rc' cs' lp' rd'.
  split.
  - intros now landmarks config. rewrite !analyzeSquat_unfold. cbv zeta.
    destruct (squatSignals (getKeyLandmarks landmarks)) as [sig|e].
    + unfold squatRepCounting.
      destruct (isInBottomPosition sig), lp; cbn;
        match goal with
        | |- context [squatFeedback sig ?x] =>
            rewrite (squatFeedback_frameCount sig x (fcb + 1))
        end; repeat split; reflexivity.
    + cbn. repeat split; reflexivity.
  - intros landmarks config. rewrite !analyzeShoulderAbduction_unfold.
    destruct (shoulderSignals (getKeyLandmarks landmarks)) as [sig|e].
    + unfold shoulderRepCounting. cbn [lastPosition].
      destruct (_ && _ && _); [cbn; repeat split; reflexivity|].
      destruct (_ && _ && _); cbn; repeat split; reflexivity.
    + cbn. repeat split; reflexivity.
Qed.

(** X11 on a new analyzer and one whose [frameCount] is 29. *)
Lemma frameCount_witness :
  sameButFrameCount newAnalyzer (set_frameCount 29 newAnalyzer)
  /\ snd (analyzeSquat 1000 squatFrame squatConfig newAnalyzer)
     = snd (analyzeSquat 1000 squatFrame squatConfig (set_frameCount 29 newAnalyzer)).
Proof.
  assert (H : sameButFrameCount newAnalyzer (set_frameCount 29 newAnalyzer))
    by (repeat split).
  split; [exact H|].
  exact (proj1 (proj1 (frameCount_is_never_observed _ _ H) 1000 squatFrame squatConfig)).
Defined.

(* ------------------------------------------------------------------ *)
(** ** Frames by their length *)

Lemma index_complete landmarks i :
  completeFrame landmarks -> (i < 33)%nat -> index landmarks i <> None.
Proof.
  intros (Hlen & Hall) Hi. unfold index.
  destruct (nth_error landmarks i) as [slot|] eqn:E.
  - rewrite Forall_forall in Hall. apply Hall. eapply nth_error_In, E.
  - apply nth_error_None in E. lia.
Qed.

Lemma index_short landmarks i :
  (List.length landmarks <= i)%nat -> index landmarks i = None.
Proof.
  intros H. unfold index. apply nth_error_None in H. rewrite H. reflexivity.
Qed.

(** X12. Frames by their length.  On the estimator's full output (33 slots,
    all defined) both policies return.  On an array of fewer than 29 slots
    [analyzeSquat] throws; on one of fewer than 25 slots
    [analyzeShoulderAbduction] throws and leaves the analyzer as it was. *)
Theorem frames_by_length :
  forall now landmarks config this,
    (completeFrame landmarks ->
     (exists r, snd (analyzeSquat now landmarks config this) = Returned r)
     /\ (exists r, snd (analyzeShoulderAbduction landmarks config this) = Returned r))
    /\ ((List.length landmarks < 29)%nat ->
        snd (analyzeSquat now landmarks config this) = Thrown TypeError)
    /\ ((List.length landmarks < 25)%nat ->
        analyzeShoulderAbduction landmarks config this = (this, Thrown TypeError)).
Proof.
  intros now landmarks config this. split; [|split].
  - intros Hc. split.
    + destruct (squatSignals_present landmarks) as [sig Hsig].
      { intros i Hi. apply index_complete; [exact Hc|].
        cbn in Hi. repeat (destruct Hi as [<-|Hi]; [lia|]). contradiction. }
      rewrite analyzeSquat_unfold, Hsig. cbv zeta. eexists. reflexivity.
    + destruct (shoulderSignals_present landmarks) as [sig Hsig].
      { intros i Hi. apply index_complete; [exact Hc|].
        cbn in Hi. repeat (destruct Hi as [<-|Hi]; [lia|]). contradiction. }
      rewrite analyzeShoulderAbduction_unfold, Hsig. eexists. reflexivity.
  - intros Hlen. rewrite analyzeSquat_unfold, squatSignals_absent; [reflexivity|].
    intros Hp. apply (Hp 28%nat); [cbn; tauto|]. apply index_short. lia.
  - intros Hlen. rewrite analyzeShoulderAbduction_unfold, shoulderSignals_absent;
      [reflexivity|].
    intros Hp. apply (Hp 24%nat); [cbn; tauto|]. apply index_short. lia.
Qed.

(* ------------------------------------------------------------------ *)
(** ** Drawing *)

Lemma drawLandmarks_returns canvas landmarks :
  snd (drawLandmarks canvas landmarks) = Returned tt <-> allDefined landmarks.
Proof.
  unfold allDefined. induction landmarks as [|[l|] rest IH]; cbn.
  - split; [constructor | reflexivity].
  - destruct (drawLandmarks canvas rest) as [calls out]. cbn in *.
    rewrite IH. split.
    + intros H. constructor; [discriminate | exact H].
    + intros H. inversion H; assumption.
  - split; [discriminate|]. intros H. inversion H. contradiction.
Qed.

Lemma drawBodies_returns canvas dc bodies :
  snd (drawBodies canvas dc bodies) = Returned tt <-> Forall allDefined bodies.
Proof.
  induction bodies as [|landmarks rest IH]; cbn.
  - split; [constructor | reflexivity].
  - pose proof (drawLandmarks_returns canvas landmarks) as Hl.
    destruct (drawLandmarks canvas landmarks) as [dots [[]|e]]; cbn in Hl.
    + destruct (drawBodies canvas dc rest) as [calls out]. cbn in *.
      rewrite IH. split.
      * intros H. constructor; [apply Hl; reflexivity | exact H].
      * intros H. inversion H; assumption.
    + cbn. split; [discriminate|]. intros H. inversion H as [|? ? Hd _]; subst.
      apply Hl in Hd. discriminate.
Qed.

(** X13. [drawPose] returns normally exactly when there is no body, no 2D
    context, or every slot of every body is defined: the loop over the
    landmarks reads [landmark.x] without the guard the connections have.
    Without a body or a context it draws nothing, not even [clearRect]. *)
Theorem drawPose_returns_iff :
  forall canvas results drawConnections,
    (snd (drawPose canvas results drawConnections) = Returned tt
     <-> PoseResults.landmarks results = []
         \/ Canvas.context2d canvas = false
         \/ Forall allDefined (PoseResults.landmarks results))
    /\ (PoseResults.landmarks results = [] \/ Canvas.context2d canvas = false ->
        drawPose canvas results drawConnections = ([], Returned tt)).
Proof.
  intros canvas results dc. unfold drawPose.
  destruct (PoseResults.landmarks results) as [|b bs] eqn:E.
  - cbn. split; [tauto | reflexivity].
  - cbn [List.length Nat.eqb].
    destruct (Canvas.context2d canvas); cbn [negb].
    + pose proof (drawBodies_returns canvas dc (b :: bs)) as H.
      destruct (drawBodies canvas dc (b :: bs)) as [calls out]. cbn [snd] in *.
      split.
      * rewrite H. split; [tauto|]. intros [D|[D|D]]; [discriminate.. | exact D].
      * intros [D|D]; discriminate.
    + split; [split; [tauto | reflexivity] | reflexivity].
Qed.

Lemma index_complete' landmarks i :
  completeFrame landmarks -> (i < 33)%nat -> exists l, index landmarks i = Some l.
Proof.
  intros (Hlen & Hall) Hi. unfold index.
  destruct (nth_error landmarks i) as [slot|] eqn:E.
  - rewrite Forall_forall in Hall. specialize (Hall slot (nth_error_In _ _ E)).
    destruct slot as [l|]; [eauto | contradiction].
  - apply nth_error_None in E. lia.
Qed.

Lemma connections_in_range c :
  In c connections -> (fst c < 33)%nat /\ (snd c < 33)%nat.
Proof.
  unfold connections. cbn [In].
  intros H. repeat (destruct H as [<-|H]; [cbn; split; lia|]). contradiction.
Qed.

Lemma length_filter_flat_map {A B} (p : B -> bool) (f : A -> list B) k l :
  (forall x, In x l -> List.length (filter p (f x)) = k) ->
  List.length (filter p (flat_map f l)) = (k * List.length l)%nat.
Proof.
  induction l as [|x l IH]; intros H; cbn; [lia|].
  rewrite filter_app, length_app, (H x (or_introl eq_refl)).
  rewrite IH by (intros y Hy; apply H; right; exact Hy). lia.
Qed.

Lemma drawConnection_complete canvas landmarks c :
  completeFrame landmarks -> In c connections ->
  List.length (filter isStroke (drawConnection canvas landmarks c)) = 1%nat
  /\ List.length (filter isFill (drawConnection canvas landmarks c)) = 0%nat
  /\ List.length (filter isClearRect (drawConnection canvas landmarks c)) = 0%nat.
Proof.
  intros Hc Hin. destruct (connections_in_range c Hin) as (Ha & Hb).
  destruct c as [a b]. cbn [fst snd] in *. unfold drawConnection.
  destruct (index_complete' landmarks a Hc Ha) as [s ->].
  destruct (index_complete' landmarks b Hc Hb) as [e ->].
  cbn. auto.
Qed.

Lemma drawLandmarks_defined canvas landmarks :
  allDefined landmarks ->
  List.length (filter isFill (fst (drawLandmarks canvas landmarks)))
  = List.length landmarks
  /\ List.length (filter isStroke (fst (drawLandmarks canvas landmarks))) = 0%nat
  /\ List.length (filter isClearRect (fst (drawLandmarks canvas landmarks))) = 0%nat
  /\ snd (drawLandmarks canvas landmarks) = Returned tt.
Proof.
  unfold allDefined. induction 1 as [|slot rest Hs Hrest IH]; cbn; [auto|].
  destruct slot as [l|]; [|contradiction].
  destruct (drawLandmarks canvas rest) as [calls out]. cbn in *.
  destruct IH as (I1 & I2 & I3 & I4). auto.
Qed.

Lemma drawBodies_complete canvas bodies :
  Forall completeFrame bodies ->
  let '(calls, out) := drawBodies canvas true bodies in
  out = Returned tt
  /\ List.length (filter isStroke calls) = (12 * List.length bodies)%nat
  /\ List.length (filter isFill calls) = (33 * List.length bodies)%nat
  /\ List.length (filter isClearRect calls) = 0%nat.
Proof.
  induction 1 as [|landmarks rest Hc Hrest IH]; cbn [drawBodies]; [cbn; auto|].
  assert (Hd : allDefined landmarks) by (destruct Hc; assumption).
  destruct (drawLandmarks_defined canvas landmarks Hd) as (F1 & F2 & F3 & F4).
  destruct (drawLandmarks canvas landmarks) as [dots out]. cbn [fst snd] in *.
  subst out. destruct (drawBodies canvas true rest) as [calls out'].
  destruct IH as (I1 & I2 & I3 & I4).
  split; [exact I1|].
  rewrite !filter_app, !length_app, F1, F2, F3, I2, I3, I4.
  rewrite (length_filter_flat_map isStroke _ 1)
    by (intros c Hin; apply (drawConnection_complete canvas landmarks c Hc Hin)).
  rewrite (length_filter_flat_map isFill _ 0)
    by (intros c Hin; apply (drawConnection_complete canvas landmarks c Hc Hin)).
  rewrite (length_filter_flat_map isClearRect _ 0)
    by (intros c Hin; apply (drawConnection_complete canvas landmarks c Hc Hin)).
  destruct Hc as (Hlen & _). rewrite Hlen. cbn [List.length connections]. lia.
Qed.

(** X14. With a context and complete bodies, [drawPose] clears the canvas
    once, first, and then strokes 12 connections and fills 33 dots for
    each body. *)
Theorem drawPose_complete_bodies :
  forall canvas results,
    Canvas.context2d canvas = true ->
    PoseResults.landmarks results <> [] ->
    Forall completeFrame (PoseResults.landmarks results) ->
    exists calls,
      drawPose canvas results true
      = (clearRect 0 0 (INR (Canvas.width canvas)) (INR (Canvas.height canvas))
         :: calls, Returned tt)
      /\ List.length (filter isStroke calls)
         = (12 * List.length (PoseResults.landmarks results))%nat
      /\ List.length (filter isFill calls)
         = (33 * List.length (PoseResults.landmarks results))%nat
      /\ List.length (filter isClearRect calls) = 0%nat.
Proof.
  intros canvas results Hctx Hne Hall. unfold drawPose.
  destruct (PoseResults.landmarks results) as [|b bs] eqn:E; [contradiction|].
  cbn [List.length Nat.eqb]. rewrite Hctx. cbn [negb].
  pose proof (drawBodies_complete canvas (b :: bs) Hall) as H.
  destruct (drawBodies canvas true (b :: bs)) as [calls out].
  destruct H as (-> & H2 & H3 & H4). exists calls. auto.
Qed.

Lemma scaled_inside (x : R) (n : nat) :
  (0 <= x <= 1)%R -> (0 <= x * INR n <= INR n)%R.
Proof. intros H. pose proof (pos_INR n). split; nra. Qed.

Ltac inside :=
  repeat (apply Forall_cons || apply Forall_nil);
  cbn [insideCanvas]; try exact I; try assumption;
  try (split; apply scaled_inside; assumption).

Lemma index_normalised landmarks i l :
  normalised landmarks -> index landmarks i = Some l ->
  (0 <= PoseLandmark.x l <= 1 /\ 0 <= PoseLandmark.y l <= 1)%R.
Proof.
  unfold normalised, index. intros Hn H.
  destruct (nth_error landmarks i) as [slot|] eqn:E; [|discriminate]. subst slot.
  rewrite Forall_forall in Hn. exact (Hn _ (nth_error_In _ _ E)).
Qed.

Lemma drawConnection_inside canvas landmarks c :
  normalised landmarks -> Forall (insideCanvas canvas) (drawConnection canvas landmarks c).
Proof.
  intros Hn. destruct c as [a b]. unfold drawConnection.
  destruct (index landmarks a) as [s|] eqn:Ea; [|constructor].
  destruct (index landmarks b) as [e|] eqn:Eb; [|constructor].
  destruct (index_normalised _ _ _ Hn Ea) as (Sx & Sy).
  destruct (index_normalised _ _ _ Hn Eb) as (Ex & Ey).
  inside.
Qed.

Lemma drawLandmarks_inside canvas landmarks :
  normalised landmarks -> Forall (insideCanvas canvas) (fst (drawLandmarks canvas landmarks)).
Proof.
  unfold normalised. induction 1 as [|slot rest Hs Hrest IH]; cbn; [constructor|].
  destruct slot as [l|]; [|inside].
  destruct (drawLandmarks canvas rest) as [calls out]. cbn [fst] in *.
  destruct Hs as (Hx & Hy).
  inside.
Qed.

Lemma drawBodies_inside canvas dc bodies :
  Forall normalised bodies -> Forall (insideCanvas canvas) (fst (drawBodies canvas dc bodies)).
Proof.
  induction 1 as [|landmarks rest Hn Hrest IH]; cbn [drawBodies]; [constructor|].
  assert (Hlines : Forall (insideCanvas canvas)
                     (if dc then flat_map (drawConnection canvas landmarks) connections
                      else [])).
  { destruct dc; [|constructor]. rewrite Forall_flat_map.
    apply Forall_forall. intros c _. apply drawConnection_inside, Hn. }
  pose proof (drawLandmarks_inside canvas landmarks Hn) as Hdots.
  destruct (drawLandmarks canvas landmarks) as [dots [[]|e]]; cbn [fst] in *.
  - destruct (drawBodies canvas dc rest) as [calls out]. cbn [fst] in *.
    repeat (apply Forall_app; split); assumption.
  - apply Forall_app; split; assumption.
Qed.

(** X15. If the landmarks are normalised (x and y between 0 and 1), every
    point [drawPose] moves to, draws a line to or centres a dot on lies on
    the canvas. *)
Theorem drawPose_stays_inside_canvas :
  forall canvas results drawConnections,
    Forall normalised (PoseResults.landmarks results) ->
    Forall (insideCanvas canvas) (fst (drawPose canvas results drawConnections)).
Proof.
  intros canvas results dc Hn. unfold drawPose.
  destruct (_ =? _)%nat; [constructor|].
  destruct (negb _); [constructor|].
  pose proof (drawBodies_inside canvas dc _ Hn) as H.
  destruct (drawBodies canvas dc (PoseResults.landmarks results)) as [calls out].
  constructor; [exact I | exact H].
Qed.

(* ------------------------------------------------------------------ *)
(** ** The store *)

Lemma dispatch_recording s a :
  (PoseState.isRecording s = true <-> PoseState.recordingStartTime s <> None) ->
  (PoseState.isRecording (dispatch s a) = true
   <-> PoseState.recordingStartTime (dispatch s a) <> None).
Proof.
  intros H. destruct a; cbn; try exact H.
  - destruct recording; split; intros; congruence.
  - unfold endSession.
    destruct (PoseState.sessionStartTime s) as [t|]; [|exact H].
    destruct (PoseState.currentExercise s); [|exact H].
    destruct (t =? 0); exact H.
  - split; intros; congruence.
Qed.

Lemma dispatch_session s a :
  (PoseState.sessionStartTime s <> None -> PoseState.sessionData s <> None) ->
  (PoseState.sessionStartTime (dispatch s a) <> None ->
   PoseState.sessionData (dispatch s a) <> None).
Proof.
  intros H. destruct a; cbn; try exact H; try discriminate.
  - unfold endSession.
    destruct (PoseState.sessionStartTime s) as [t|] eqn:Et; [|rewrite Et; exact H].
    destruct (PoseState.currentExercise s); [|rewrite Et; exact H].
    destruct (t =? 0); [rewrite Et; exact H | cbn; discriminate].
  - congruence.
Qed.

(** X16. Under any sequence of store actions from the initial state, the
    recording flag is set exactly when a recording start time is held, and
    a session that has started has session data. *)
Theorem store_invariants :
  forall actions,
    let s := fold_left dispatch actions initialStore in
    (PoseState.isRecording s = true <-> PoseState.recordingStartTime s <> None)
    /\ (PoseState.sessionStartTime s <> None -> PoseState.sessionData s <> None).
Proof.
  intros actions. cbv zeta.
  assert (G : forall s0,
             (PoseState.isRecording s0 = true
              <-> PoseState.recordingStartTime s0 <> None)
             /\ (PoseState.sessionStartTime s0 <> None ->
                 PoseState.sessionData s0 <> None) ->
             (PoseState.isRecording (fold_left dispatch actions s0) = true
              <-> PoseState.recordingStartTime (fold_left dispatch actions s0) <> None)
             /\ (PoseState.sessionStartTime (fold_left dispatch actions s0) <> None ->
                 PoseState.sessionData (fold_left dispatch actions s0) <> None)).
  { induction actions as [|a actions IH]; intros s0 H; [exact H|].
    cbn [fold_left]. apply IH. destruct H as (H1 & H2).
    split; [apply dispatch_recording, H1 | apply dispatch_session, H2]. }
  apply G. cbn. split; [split; intros; congruence | congruence].
Qed.

(** X17. [endSession] on a running session with an exercise writes the
    summary (rep count, the last frame's score as [avgScore], the elapsed
    time, the last frame's messages as flags) and clears the start time; it
    does nothing without a start time, with the start time 0 or without an
    exercise; and ending twice is ending once. *)
Theorem endSession_summarises_once :
  forall now s,
    (forall start exercise,
        PoseState.sessionStartTime s = Some start -> start <> 0 ->
        PoseState.currentExercise s = Some exercise ->
        PoseState.sessionStartTime (endSession now s) = None
        /\ PoseState.sessionData (endSession now s)
           = Some {| SessionData.repCount :=
                       ExerciseMetrics.repCount (PoseState.metrics s);
                     SessionData.avgScore :=
                       ExerciseMetrics.currentScore (PoseState.metrics s);
                     SessionData.totalTime := now - start;
                     SessionData.exercise := Some exercise;
                     SessionData.flags :=
                       ExerciseMetrics.feedback (PoseState.metrics s) |})
    /\ (PoseState.sessionStartTime s = None \/ PoseState.sessionStartTime s = Some 0
        \/ PoseState.currentExercise s = None ->
        endSession now s = s)
    /\ (forall later, endSession later (endSession now s) = endSession now s).
Proof.
  intros now s. split; [|split].
  - intros start exercise Hs Hz He. unfold endSession. rewrite Hs, He.
    destruct (Z.eqb_spec start 0) as [|_]; [contradiction|].
    cbn. rewrite map_id. auto.
  - intros [H|[H|H]]; unfold endSession; rewrite H; [reflexivity | |].
    + destruct (PoseState.currentExercise s); reflexivity.
    + destruct (PoseState.sessionStartTime s); reflexivity.
  - intros later. unfold endSession at 2 3.
    destruct (PoseState.sessionStartTime s) as [t0|] eqn:E0;
      [|unfold endSession; rewrite E0; reflexivity].
    destruct (PoseState.currentExercise s) as [ex|] eqn:E1;
      [|unfold endSession; rewrite E0, E1; reflexivity].
    destruct (Z.eqb_spec t0 0) as [Hz|Hnz].
    + unfold endSession. rewrite E0, E1. subst t0. reflexivity.
    + reflexivity.
Qed.

(* ------------------------------------------------------------------ *)
(** ** The session page *)

Lemma analyzeSquat_counters now landmarks config this :
  let '(this', out) := analyzeSquat now landmarks config this in
  repCount this <= repCount this'
  /\ match out with
     | Returned r =>
         Analysis.repCount r = repCount this'
         /\ Analysis.score r = currentScore this'
     | Thrown _ =>
         repCount this' = repCount this /\ currentScore this' = currentScore this
     end.
Proof.
  rewrite analyzeSquat_unfold. cbv zeta.
  destruct (squatSignals (getKeyLandmarks landmarks)) as [sig|e]; cbn.
  - split; [|split; reflexivity].
    unfold squatRepCounting. destruct this as [rc cs lp rd fc].
    destruct (isInBottomPosition sig), lp; cbn; lia.
  - split; [lia | split; reflexivity].
Qed.

Lemma analyzeShoulderAbduction_counters landmarks config this :
  let '(this', out) := analyzeShoulderAbduction landmarks config this in
  repCount this <= repCount this'
  /\ match out with
     | Returned r =>
         Analysis.repCount r = repCount this'
         /\ Analysis.score r = currentScore this'
     | Thrown _ =>
         repCount this' = repCount this /\ currentScore this' = currentScore this
     end.
Proof.
  rewrite analyzeShoulderAbduction_unfold.
  destruct (shoulderSignals (getKeyLandmarks landmarks)) as [sig|e]; cbn.
  - split; [|split; reflexivity].
    unfold shoulderRepCounting.
    destruct (_ && _ && _); [cbn; lia|]. destruct (_ && _ && _); cbn; lia.
  - split; [lia | split; reflexivity].
Qed.

(** What one pass does to the counters, whatever it was given. *)
Lemma processFrame_counters now results speechSynthesis p :
  let o := processFrame now results speechSynthesis p in
  repCount (analyzer p) <= repCount (analyzer (page o))
  /\ (inSync (page o)
      \/ (store (page o) = store p
          /\ repCount (analyzer (page o)) = repCount (analyzer p)
          /\ currentScore (analyzer (page o)) = currentScore (analyzer p))).
Proof.
  unfold processFrame.
  destruct (PoseState.isCameraActive (store p)); [|cbn; split; [lia | auto]].
  destruct (PoseState.videoElement (store p)); [|cbn; split; [lia | auto]].
  destruct (PoseState.currentExercise (store p)) as [exercise|];
    [|cbn; split; [lia | auto]].
  destruct (PoseState.exerciseConfig (store p)) as [config|];
    [|cbn; split; [lia | auto]].
  destruct results as [results|]; [|cbn; split; [lia | auto]].
  destruct (PoseResults.landmarks results) as [|landmarks rest];
    [cbn; split; [lia | auto]|].
  destruct exercise.
  - pose proof (analyzeSquat_counters now landmarks config (analyzer p)) as H.
    destruct (analyzeSquat now landmarks config (analyzer p)) as [a' [ana|err]];
      destruct H as (Hle & H1 & H2); cbn; (split; [exact Hle|]).
    + left. split; assumption.
    + right. auto.
  - pose proof (analyzeShoulderAbduction_counters landmarks config (analyzer p)) as H.
    destruct (analyzeShoulderAbduction landmarks config (analyzer p)) as [a' [ana|err]];
      destruct H as (Hle & H1 & H2); cbn; (split; [exact Hle|]).
    + left. split; assumption.
    + right. auto.
Qed.




(** X19. Going back to the selection and picking an exercise resets the
    store but not the analyzer: the overlay shows 0 reps, the analyzer
    keeps its state, and the next analysed frame puts the analyzer's count,
    which is at least the old one, back on the overlay. *)
Theorem analyzer_survives_back_to_selection :
  forall p exerciseId now results speechSynthesis,
    let p1 := handle (handle p BackToSelection) (SelectExercise exerciseId) in
    let o := processFrame now results speechSynthesis p1 in
    ExerciseMetrics.repCount (PoseState.metrics (store p1)) = 0
    /\ analyzer p1 = analyzer p
    /\ repCount (analyzer p) <= repCount (analyzer (page o))
    /\ (store (page o) = store p1
        \/ ExerciseMetrics.repCount (PoseState.metrics (store (page o)))
           = repCount (analyzer (page o))).
Proof.
  intros p exerciseId now results speechSynthesis p1 o.
  split; [reflexivity|]. split; [reflexivity|].
  destruct (processFrame_counters now results speechSynthesis p1)
    as (Hle & [(Hs & _)|(Hst & _)]).
  - split; [exact Hle | right; exact Hs].
  - split; [exact Hle | left; exact Hst].
Qed.

(* ------------------------------------------------------------------ *)
(** ** Voice *)

Lemma voiceFeedback_speaks_the_error showFeedback feedbackVolume speechSynthesis
  analysis allowed err :
  (forall m, In m (Analysis.feedback analysis) ->
             FeedbackMessage.type m = FeedbackMessage.error ->
             hd_error (Analysis.feedback analysis) = Some m) ->
  Forall (fun m => In m allowed) (Analysis.feedback analysis) ->
  (forall m, In m allowed ->
             FeedbackMessage.type m = FeedbackMessage.error -> m = err) ->
  FeedbackMessage.type err = FeedbackMessage.error ->
  (voiceFeedback showFeedback feedbackVolume speechSynthesis analysis <> None
   <-> showFeedback = true /\ (feedbackVolume > 0)%R /\ speechSynthesis = true
       /\ In err (Analysis.feedback analysis))
  /\ (forall u,
      voiceFeedback showFeedback feedbackVolume speechSynthesis analysis = Some u ->
      u = {| Utterance.text := FeedbackMessage.message err;
             Utterance.volume := feedbackVolume;
             Utterance.rate := 0.9 |}).
Proof.
  intros Hfirst Hall Honly Herr. unfold voiceFeedback.
  destruct (Analysis.feedback analysis) as [|m rest] eqn:E.
  - rewrite !andb_false_r. split; [|discriminate].
    split; [congruence | intros (_ & _ & _ & []) ].
  - cbn [List.length Nat.ltb Nat.leb]. rewrite andb_true_r.
    assert (Hm : FeedbackMessage.type m = FeedbackMessage.error -> m = err).
    { apply Honly. inversion Hall; assumption. }
    assert (Hin : In err (m :: rest) -> m = err).
    { intros Hin. specialize (Hfirst err Hin Herr). cbn in Hfirst. congruence. }
    destruct showFeedback; cbn [andb];
      [|split; [split; [congruence | intros (D & _); discriminate] | discriminate]].
    destruct (Rgtb_spec feedbackVolume 0) as [Hv|Hv];
      [|split; [split; [congruence | intros (_ & D & _); contradiction] | discriminate]].
    destruct (FeedbackMessage.type m) eqn:Ety; cbn [isError andb];
      try (split; [split; [congruence|]; intros (_ & _ & _ & Hi);
                   apply Hin in Hi; subst m; congruence | discriminate]).
    destruct speechSynthesis;
      [|split; [split; [congruence | intros (_ & _ & D & _); discriminate]
               | discriminate]].
    rewrite (Hm eq_refl) in *. split.
    + split; [intros _; repeat split; try assumption; left; reflexivity
             | discriminate].
    + intros u Hu. injection Hu as <-. reflexivity.
Qed.

(** X20. The page speaks at most one utterance per frame, and only an
    error: with voice feedback on, a positive volume and speech synthesis
    available, a squat frame is spoken to exactly on knee valgus and a
    shoulder frame exactly on asymmetry above 15 degrees; the text is the
    message of that check, at the volume of the store and rate 0.9. *)
Theorem voice_speaks_the_error_message :
  forall showFeedback feedbackVolume speechSynthesis,
    (forall now landmarks config this this' r,
        analyzeSquat now landmarks config this = (this', Returned r) ->
        exists sig,
          squatSignals (getKeyLandmarks landmarks) = Returned sig
          /\ (voiceFeedback showFeedback feedbackVolume speechSynthesis r <> None
              <-> showFeedback = true /\ (feedbackVolume > 0)%R
                  /\ speechSynthesis = true /\ valgus sig = true)
          /\ (forall u,
              voiceFeedback showFeedback feedbackVolume speechSynthesis r = Some u ->
              u = {| Utterance.text := FeedbackMessage.message msgKneesOut;
                     Utterance.volume := feedbackVolume;
                     Utterance.rate := 0.9 |}))
    /\ (forall landmarks config this this' r,
        analyzeShoulderAbduction landmarks config this = (this', Returned r) ->
        exists sig,
          shoulderSignals (getKeyLandmarks landmarks) = Returned sig
          /\ (voiceFeedback showFeedback feedbackVolume speechSynthesis r <> None
              <-> showFeedback = true /\ (feedbackVolume > 0)%R
                  /\ speechSynthesis = true /\ (shoulderSymmetry sig > 15)%R)
          /\ (forall u,
              voiceFeedback showFeedback feedbackVolume speechSynthesis r = Some u ->
              u = {| Utterance.text := FeedbackMessage.message msgSymmetry;
                     Utterance.volume := feedbackVolume;
                     Utterance.rate := 0.9 |})).
Proof.
  intros showFeedback feedbackVolume speechSynthesis. split.
  - intros now landmarks config this this' r H.
    rewrite analyzeSquat_unfold in H. cbv zeta in H.
    destruct (squatSignals (getKeyLandmarks landmarks)) as [sig|e] eqn:Hsig; [|discriminate].
    injection H as _ <-. exists sig. split; [reflexivity|].
    match goal with
    | |- context [squatFeedback sig ?fc] =>
        destruct (squat_feedback_shown sig fc) as (S1 & _ & _ & _ & S5);
        destruct (squatFeedback_consistent sig fc) as (_ & _ & _ & C4)
    end.
    assert (Honly : forall m,
               In m [msgKneesOut; msgGoDeeper; msgChestUp; msgGreatDepth] ->
               FeedbackMessage.type m = FeedbackMessage.error -> m = msgKneesOut).
    { intros m Hin Hty. cbn in Hin.
      repeat (destruct Hin as [<-|Hin]; [try reflexivity; discriminate|]).
      contradiction. }
    match goal with
    | |- context [voiceFeedback _ _ _ ?a] =>
        destruct (voiceFeedback_speaks_the_error showFeedback feedbackVolume
                    speechSynthesis a _ msgKneesOut C4 S5 Honly eq_refl) as (V1 & V2)
    end.
    split; [|exact V2]. rewrite V1. cbn [Analysis.feedback]. rewrite S1. reflexivity.
  - intros landmarks config this this' r H.
    rewrite analyzeShoulderAbduction_unfold in H.
    destruct (shoulderSignals (getKeyLandmarks landmarks)) as [sig|e] eqn:Hsig; [|discriminate].
    injection H as _ <-. exists sig. split; [reflexivity|].
    destruct (shoulderSignals_coherent _ _ Hsig) as (_ & Ht & Hd).
    destruct (shoulder_feedback_shown sig Hd Ht) as (S1 & _ & _ & _ & _ & S6).
    destruct (shoulderFeedback_consistent sig) as (_ & _ & _ & C4).
    cbv zeta in S1.
    assert (Honly : forall m,
               In m [msgSymmetry; msgRaiseArms; msgLowerArms; msgRelaxShoulders;
                     msgPerfectForm] ->
               FeedbackMessage.type m = FeedbackMessage.error -> m = msgSymmetry).
    { intros m Hin Hty. cbn in Hin.
      repeat (destruct Hin as [<-|Hin]; [try reflexivity; discriminate|]).
      contradiction. }
    match goal with
    | |- context [voiceFeedback _ _ _ ?a] =>
        destruct (voiceFeedback_speaks_the_error showFeedback feedbackVolume
                    speechSynthesis a _ msgSymmetry C4 S6 Honly eq_refl) as (V1 & V2)
    end.
    split; [|exact V2]. rewrite V1. cbn [Analysis.feedback]. rewrite S1. reflexivity.
Qed.

(* ------------------------------------------------------------------ *)
(** ** The overlay *)

(** X21. The overlay picks the look of a message from its text, not from its
    type.  For every message a squat analysis returns the two agree; for a
    shoulder analysis they agree on every message but the symmetry one,
    which has type error and is displayed as a warning. *)
Theorem overlay_kind_of_feedback :
  (forall now landmarks config this this' r,
      analyzeSquat now landmarks config this = (this', Returned r) ->
      Forall (fun m => displayedKind (FeedbackMessage.message m)
                       = FeedbackMessage.type m)
        (Analysis.feedback r))
  /\ (forall landmarks config this this' r,
      analyzeShoulderAbduction landmarks config this = (this', Returned r) ->
      Forall (fun m => (m <> msgSymmetry ->
                        displayedKind (FeedbackMessage.message m)
                        = FeedbackMessage.type m)
                       /\ (m = msgSymmetry ->
                           FeedbackMessage.type m = FeedbackMessage.error
                           /\ displayedKind (FeedbackMessage.message m)
                              = FeedbackMessage.warning))
        (Analysis.feedback r)).
Proof.
  split.
  - intros now landmarks config this this' r H.
    rewrite analyzeSquat_unfold in H. cbv zeta in H.
    destruct (squatSignals (getKeyLandmarks landmarks)) as [sig|e]; [|discriminate].
    injection H as _ <-. cbn [Analysis.feedback].
    match goal with
    | |- context [squatFeedback sig ?fc] =>
        destruct (squat_feedback_shown sig fc) as (_ & _ & _ & _ & S5)
    end.
    eapply Forall_impl; [|exact S5]. cbn. intros m Hin.
    repeat (destruct Hin as [<-|Hin]; [reflexivity|]). contradiction.
  - intros landmarks config this this' r H.
    rewrite analyzeShoulderAbduction_unfold in H.
    destruct (shoulderSignals (getKeyLandmarks landmarks)) as [sig|e] eqn:Hsig; [|discriminate].
    injection H as _ <-. cbn [Analysis.feedback].
    destruct (shoulderSignals_coherent _ _ Hsig) as (_ & Ht & Hd).
    destruct (shoulder_feedback_shown sig Hd Ht) as (_ & _ & _ & _ & _ & S6).
    eapply Forall_impl; [|exact S6]. cbn. intros m Hin.
    repeat (destruct Hin as [<-|Hin];
            [split; [intros Hne; try reflexivity; exfalso; apply Hne; reflexivity
                    | intros Heq; try discriminate; split; reflexivity]|]).
    contradiction.
Qed.

(* ------------------------------------------------------------------ *)
(** ** The detector *)

Ltac settle :=
  split; [split; intros D; first [discriminate | congruence | reflexivity]
         | reflexivity].

Lemma call_wellFormed this c :
  wellFormed this ->
  wellFormed (fst (call this c))
  /\ openLandmarkers (snd (call this c)) = held (fst (call this c)) - held this.
Proof.
  unfold wellFormed. intros H.
  destruct this as [[l|] [|]]; cbn in H;
    try (exfalso; destruct H as (H1 & H2);
         first [ specialize (H1 eq_refl); congruence
               | assert (D : Some l <> None) by discriminate;
                 specialize (H2 D); discriminate ]).
  - destruct c as [world|world|]; cbn.
    + settle.
    + destruct (detectForVideo world); cbn;
        (settle).
    + settle.
  - destruct c as [world|world|]; cbn.
    + unfold initialize. cbn.
      destruct (forVisionTasks world); cbn;
        [|settle].
      destruct (createFromOptions world); cbn;
        [settle
        |settle].
    + unfold detectPose, initialize. cbn.
      destruct (forVisionTasks world); cbn;
        [|settle].
      destruct (createFromOptions world); cbn;
        [|settle].
      destruct (detectForVideo world); cbn;
        (settle).
    + settle.
Qed.

Lemma openLandmarkers_app e1 e2 :
  openLandmarkers (e1 ++ e2) = openLandmarkers e1 + openLandmarkers e2.
Proof. unfold openLandmarkers. rewrite !filter_app, !length_app. lia. Qed.

Lemma calls_wellFormed cs : forall this,
  wellFormed this ->
  wellFormed (fst (calls this cs))
  /\ openLandmarkers (snd (calls this cs)) = held (fst (calls this cs)) - held this.
Proof.
  induction cs as [|c cs IH]; intros this H; cbn [calls].
  - cbn. split; [exact H | unfold openLandmarkers; cbn; lia].
  - destruct (call_wellFormed this c H) as (H1 & H2).
    destruct (call this c) as [this1 events1]. cbn [fst snd] in *.
    destruct (IH this1 H1) as (H3 & H4).
    destruct (calls this1 cs) as [this2 events2]. cbn [fst snd] in *.
    split; [exact H3|]. rewrite openLandmarkers_app. lia.
Qed.

(** X22. For calls of [initialize], [detectPose] and [dispose] that run one
    after the other on a new detector: [isInitialized] holds exactly when
    a landmarker is held, and the landmarkers created and not yet closed
    are the one that is held, so at most one is open at any time. *)
Theorem detector_holds_what_it_created :
  forall cs,
    let '(this, events) := calls newDetector cs in
    (isInitialized this = true <-> poseLandmarker this <> None)
    /\ openLandmarkers events = held this
    /\ 0 <= openLandmarkers events <= 1.
Proof.
  intros cs.
  assert (H0 : wellFormed newDetector) by (split; cbn; [discriminate | intros D; exfalso; apply D; reflexivity]).
  destruct (calls_wellFormed cs newDetector H0) as (H1 & H2).
  destruct (calls newDetector cs) as [this events]. cbn [fst snd] in *.
  split; [exact H1|]. cbn in H2.
  assert (Hh : 0 <= held this <= 1) by (unfold held; destruct (poseLandmarker this); lia).
  lia.
Qed.

(** X23. How [detectPose] settles on a detector whose flag agrees with its
    landmarker: it rejects only when the initialisation it had to run
    failed, with that failure, leaving the detector as it was; it resolves
    to [null] exactly when [detectForVideo] threw; otherwise it resolves to
    the landmarks, with [[]] for missing ones.  An initialised detector
    creates no landmarker. *)
Theorem detectPose_settles :
  forall world this,
    (isInitialized this = true <-> poseLandmarker this <> None) ->
    let '(this', events, result) := detectPose world this in
    match result with
    | Rejected reason =>
        isInitialized this = false
        /\ this' = this
        /\ (forVisionTasks world = Rejected reason
            \/ createFromOptions world = Rejected reason)
    | Fulfilled None =>
        exists error, detectForVideo world = Rejected error
    | Fulfilled (Some results) =>
        exists raw,
          detectForVideo world = Fulfilled raw
          /\ PoseResults.landmarks results = orEmpty (RawResults.landmarks raw)
    end
    /\ (isInitialized this = true ->
        this' = this /\ List.length (filter isCreated events) = 0%nat).
Proof.
  intros world this H. unfold detectPose.
  destruct this as [[l|] [|]]; cbn in H;
    try (exfalso; destruct H as (H1 & H2);
         first [ specialize (H1 eq_refl); congruence
               | assert (D : Some l <> None) by discriminate;
                 specialize (H2 D); discriminate ]).
  - cbn. destruct (detectForVideo world) as [raw|e]; cbn; split; eauto.
  - unfold initialize. cbn.
    destruct (forVisionTasks world) as [vision|reason]; cbn;
      [|split; [auto | discriminate]].
    destruct (createFromOptions world) as [landmarker|reason]; cbn;
      [|split; [auto | discriminate]].
    destruct (detectForVideo world) as [raw|e]; cbn; split; eauto; discriminate.
Qed.

(* ------------------------------------------------------------------ *)
(** ** Hysteresis of the shoulder policy *)

Lemma shoulder_step_ready this c :
  isSquatCall c = false -> c <> CallReset ->
  repCount (step this c) + ready (step this c)
  = repCount this + ready this
    + (if isRaisedCall c && Position_eqb (lastPosition this) Down then 1 else 0).
Proof.
  intros Hs Hr. destruct c as [|landmarks config| |];
    try discriminate; try contradiction.
  - cbn [step isRaisedCall]. rewrite analyzeShoulderAbduction_unfold.
    destruct (shoulderSignals (getKeyLandmarks landmarks)) as [sig|e]; cbn [fst].
    + unfold shoulderRepCounting, ready. destruct this as [rc cs lp rd fc].
      destruct (isInPosition sig), (Rgtb (avgShoulderAngle sig) 75),
        (Rltb (avgShoulderAngle sig) 30), lp; cbn; lia.
    + unfold ready. cbn. destruct (lastPosition this); lia.
  - cbn. lia.
Qed.

Lemma run_shoulder_ready calls : forall this,
  Forall (fun c => isSquatCall c = false /\ c <> CallReset) calls ->
  repCount (run this calls) + ready (run this calls)
  <= repCount this + ready this
     + Z.of_nat (List.length (filter isRaisedCall calls)).
Proof.
  induction calls as [|c calls IH]; intros this Hall; [cbn; lia|].
  inversion Hall as [|? ? (Hs & Hr) Hrest]; subst.
  cbn [run fold_left]. fold (run (step this c) calls).
  specialize (IH (step this c) Hrest).
  pose proof (shoulder_step_ready this c Hs Hr) as Hstep.
  cbn [filter]. destruct (isRaisedCall c); cbn [andb] in Hstep.
  - cbn [List.length]. destruct (Position_eqb (lastPosition this) Down); lia.
  - lia.
Qed.

Lemma ready_range this : 0 <= ready this <= 1.
Proof. unfold ready. destruct (lastPosition this); lia. Qed.

Lemma shoulder_step_phase this landmarks config :
  let this' := step this (CallShoulderAbduction landmarks config) in
  repCount this' = repCount this
  \/ (repCount this' = repCount this + 1
      /\ lastPosition this = Up /\ lastPosition this' = Down).
Proof.
  cbn [step]. rewrite analyzeShoulderAbduction_unfold.
  destruct (shoulderSignals (getKeyLandmarks landmarks)) as [sig|e]; [|left; reflexivity].
  unfold shoulderRepCounting. destruct this as [rc cs lp rd fc].
  destruct (isInPosition sig), (Rgtb (avgShoulderAngle sig) 75),
    (Rltb (avgShoulderAngle sig) 30), lp; cbn; auto.
Qed.

(** X24. Shoulder reps need a raised frame each, except the first: on a new
    analyzer the rep count never exceeds the number of raised frames plus
    one; the one is reached, because a new analyzer is in phase "up" and
    any first frame with the arms below 30 degrees counts a rep; and two
    consecutive frames count at most one rep. *)
Theorem shoulder_reps_bounded_by_raised_frames :
  (forall calls,
      Forall (fun c => isSquatCall c = false /\ c <> CallReset) calls ->
      repCount (run newAnalyzer calls)
      <= 1 + Z.of_nat (List.length (filter isRaisedCall calls)))
  /\ (forall landmarks config,
      shoulderAvg (fun a => a < 30)%R landmarks ->
      let c := CallShoulderAbduction landmarks config in
      isRaisedCall c = false /\ repCount (step newAnalyzer c) = 1)
  /\ (forall this c1 c2,
      isShoulderCall c1 = true -> isShoulderCall c2 = true ->
      repCount (step (step this c1) c2) <= repCount this + 1).
Proof.
  split; [|split].
  - intros calls Hall. pose proof (run_shoulder_ready calls newAnalyzer Hall) as H.
    pose proof (ready_range (run newAnalyzer calls)).
    assert (E1 : repCount newAnalyzer = 0) by reflexivity.
    assert (E2 : ready newAnalyzer = 1) by reflexivity. lia.
  - intros landmarks config (sig & Hsig & Havg). cbv zeta. split.
    + cbn [isRaisedCall]. rewrite Hsig, (Rgtb_false _ 75) by lra.
      apply andb_false_r.
    + apply (shoulder_lowered newAnalyzer
               (CallShoulderAbduction landmarks config) eq_refl).
      exists sig. split; [exact Hsig | exact Havg].
  - intros this c1 c2 H1 H2.
    destruct c1 as [|l1 g1| |]; try discriminate.
    destruct c2 as [|l2 g2| |]; try discriminate.
    destruct (shoulder_step_phase this l1 g1) as [Ha|(Ha & _ & Hdown)];
      destruct (shoulder_step_phase (step this (CallShoulderAbduction l1 g1)) l2 g2)
        as [Hb|(Hb & Hup & _)]; try lia.
    rewrite Hdown in Hup. discriminate.
Qed.

(* ------------------------------------------------------------------ *)
(** ** The theorems above on the test frames *)

(** X5 on the first call on the squat frame. *)
Lemma squat_messages_on_squatFrame :
  exists sig,
    squatSignals (getKeyLandmarks squatFrame) = Returned sig
    /\ let shown := Analysis.feedback onSquatFrame in
       let knee := kneeAngle sig in
       let lean := torsoLean sig in
       (In msgKneesOut shown <-> valgus sig = true)
       /\ (In msgGoDeeper shown <-> (90 <= knee < 120)%R)
       /\ (In msgChestUp shown
           <-> (lean > 0.05)%R
               /\ ~ (valgus sig = true /\ (90 <= knee < 120)%R))
       /\ (In msgGreatDepth shown
           <-> (knee < 90)%R /\ ~ (valgus sig = true /\ (lean > 0.05)%R))
       /\ Forall (fun m => In m [msgKneesOut; msgGoDeeper; msgChestUp; msgGreatDepth])
            shown.
Proof.
  exact (squat_messages_returned _ _ _ _ _ _ squatFrame_first_call).
Defined.

Lemma armsRaisedFrame_first_call :
  exists this' r,
    analyzeShoulderAbduction armsRaisedFrame shoulderAbductionConfig newAnalyzer
    = (this', Returned r).
Proof.
  rewrite analyzeShoulderAbduction_unfold, shoulderSignals_armsRaised.
  eexists _, _. reflexivity.
Qed.

Lemma standingFrame_completeFrame : completeFrame standingFrame.
Proof.
  split; [reflexivity|].
  unfold standingFrame, bodyFrame. cbn [repeat app].
  repeat (apply Forall_cons; [discriminate|]). apply Forall_nil.
Qed.

Lemma standingFrame_normalised : normalised standingFrame.
Proof.
  unfold normalised, standingFrame, bodyFrame, pt. cbn [repeat app].
  repeat (apply Forall_cons; [cbn; lra|]). apply Forall_nil.
Qed.

(** X14 on the standing body. *)
Lemma drawPose_on_standingFrame :
  exists calls,
    drawPose videoCanvas standingResults true
    = (clearRect 0 0 (INR 640) (INR 480) :: calls, Returned tt)
    /\ List.length (filter isStroke calls) = 12%nat
    /\ List.length (filter isFill calls) = 33%nat
    /\ List.length (filter isClearRect calls) = 0%nat.
Proof.
  refine (drawPose_complete_bodies videoCanvas standingResults eq_refl _ _).
  - discriminate.
  - apply Forall_cons; [exact standingFrame_completeFrame | apply Forall_nil].
Defined.

(** X15 on the standing body. *)
Lemma drawPose_standingFrame_inside :
  Forall (insideCanvas videoCanvas)
    (fst (drawPose videoCanvas standingResults true)).
Proof.
  refine (drawPose_stays_inside_canvas videoCanvas standingResults true _).
  apply Forall_cons; [exact standingFrame_normalised | apply Forall_nil].
Defined.

(** X6 on the frame with both arms at 90 degrees: perfect form is shown. *)
Lemma shoulder_messages_on_armsRaisedFrame :
  exists this' r,
    analyzeShoulderAbduction armsRaisedFrame shoulderAbductionConfig newAnalyzer
    = (this', Returned r)
    /\ In msgPerfectForm (Analysis.feedback r).
Proof.
  destruct armsRaisedFrame_first_call as (this' & r & H).
  exists this', r. split; [exact H|].
  destruct (shoulder_messages_returned _ _ _ _ _ H)
    as (sig & Hsig & _ & _ & _ & _ & Hperfect & _).
  apply Hperfect.
  rewrite shoulderSignals_armsRaised in Hsig. injection Hsig as <-.
  cbn. lra.
Defined.

(** X23 on a new detector. *)
Lemma detectPose_on_newDetector :
  let '(this', events, result) := detectPose quietWorld newDetector in
  match result with
  | Rejected reason =>
      isInitialized newDetector = false
      /\ this' = newDetector
      /\ (forVisionTasks quietWorld = Rejected reason
          \/ createFromOptions quietWorld = Rejected reason)
  | Fulfilled None =>
      exists error, detectForVideo quietWorld = Rejected error
  | Fulfilled (Some results) =>
      exists raw,
        detectForVideo quietWorld = Fulfilled raw
        /\ PoseResults.landmarks results = orEmpty (RawResults.landmarks raw)
  end
  /\ (isInitialized newDetector = true ->
      this' = newDetector /\ List.length (filter isCreated events) = 0%nat).
Proof.
  apply (detectPose_settles quietWorld newDetector).
  split; cbn; [discriminate | intros D; exfalso; apply D; reflexivity].
Defined.

(* ------------------------------------------------------------------ *)
(** ** The colour of the score *)

Open Scope string_scope.

Lemma squat_score_colour sig frameCount :
  isInBottomPosition sig = Rltb (kneeAngle sig) 120 ->
  hasGoodDepth sig = Rltb (kneeAngle sig) 90 ->
  excessiveLean sig = Rgtb (torsoLean sig) 0.05 ->
  let colour := getScoreColor (Z.max 0 (snd (squatFeedback sig frameCount))) in
  let shallow := (90 <= kneeAngle sig < 120)%R in
  let inward := valgus sig = true in
  let leaning := (torsoLean sig > 0.05)%R in
  (colour = "destructive" <-> shallow /\ inward /\ leaning)
  /\ (colour = "health"
      <-> (~ shallow /\ ~ inward) \/ (~ shallow /\ ~ leaning)
          \/ (~ inward /\ ~ leaning)).
Proof.
  intros Hb Hd Hl. cbv zeta. rewrite squatFeedback_score, Hb, Hd, Hl.
  destruct (Rltb_spec (kneeAngle sig) 120), (Rltb_spec (kneeAngle sig) 90),
    (Rgtb_spec (torsoLean sig) 0.05), (valgus sig); cbn;
    (split; split; intros H; try discriminate; try reflexivity;
     try (exfalso; lra);
     try (repeat split; first [lra | reflexivity]);
     try (exfalso; intuition (discriminate || lra));
     try (intuition (discriminate || lra))).
Qed.

Lemma shoulder_score_colour sig :
  angleDeviation sig = Rabs (avgShoulderAngle sig - targetAngle) ->
  let colour := getScoreColor (Z.max 0 (snd (shoulderFeedback sig))) in
  let avg := avgShoulderAngle sig in
  let sym := shoulderSymmetry sig in
  (colour = "destructive" <-> (avg < 75)%R /\ (sym > 15)%R /\ hiking sig = true)
  /\ (colour = "health"
      <-> ((sym > 15)%R /\ (75 <= avg <= 105)%R /\ hiking sig = false)
          \/ ((sym <= 15)%R /\ ~ ((avg < 75)%R /\ hiking sig = true))).
Proof.
  intros Hdev. cbv zeta. rewrite shoulderFeedback_score, Hdev. unfold targetAngle.
  assert (Habs : forall t : R,
             (Rabs (avgShoulderAngle sig - 90) > t <->
              avgShoulderAngle sig < 90 - t \/ avgShoulderAngle sig > 90 + t)%R).
  { intros t. unfold Rabs. destruct (Rcase_abs _); split; intros; lra. }
  destruct (Rgtb_spec (Rabs (avgShoulderAngle sig - 90)) 15) as [D|D];
    rewrite Habs in D;
    destruct (Rltb_spec (avgShoulderAngle sig) (90 - 15)) as [L|L];
    destruct (Rgtb_spec (avgShoulderAngle sig) (90 + 15)) as [G|G];
    try (exfalso; lra);
    destruct (Rgtb_spec (shoulderSymmetry sig) 15) as [S|S];
    destruct (hiking sig); cbn;
    (split; split; intros H; try discriminate; try reflexivity;
     try (exfalso; lra);
     try (repeat split; first [lra | reflexivity]);
     try (exfalso; intuition (discriminate || lra));
     try (intuition (discriminate || lra))).
Qed.

(** X25. The colour of the score on the overlay.  After a squat frame it is
    "destructive" exactly when the squat is shallow, a knee caves in and
    the torso leans, and "health" exactly when at most one of the three
    holds.  After a shoulder frame it is "destructive" exactly when the
    arms are below 75 degrees, asymmetric and a shoulder hikes.  Before
    the first frame the score 0 is shown as "destructive". *)
Theorem score_colour_of_returned_score :
  (forall now landmarks config this this' r,
      analyzeSquat now landmarks config this = (this', Returned r) ->
      exists sig,
        squatSignals (getKeyLandmarks landmarks) = Returned sig
        /\ let colour := getScoreColor (Analysis.score r) in
           let shallow := (90 <= kneeAngle sig < 120)%R in
           let inward := valgus sig = true in
           let leaning := (torsoLean sig > 0.05)%R in
           (colour = "destructive" <-> shallow /\ inward /\ leaning)
           /\ (colour = "health"
               <-> (~ shallow /\ ~ inward) \/ (~ shallow /\ ~ leaning)
                   \/ (~ inward /\ ~ leaning)))
  /\ (forall landmarks config this this' r,
      analyzeShoulderAbduction landmarks config this = (this', Returned r) ->
      exists sig,
        shoulderSignals (getKeyLandmarks landmarks) = Returned sig
        /\ let colour := getScoreColor (Analysis.score r) in
           let avg := avgShoulderAngle sig in
           let sym := shoulderSymmetry sig in
           (colour = "destructive"
            <-> (avg < 75)%R /\ (sym > 15)%R /\ hiking sig = true)
           /\ (colour = "health"
               <-> ((sym > 15)%R /\ (75 <= avg <= 105)%R /\ hiking sig = false)
                   \/ ((sym <= 15)%R /\ ~ ((avg < 75)%R /\ hiking sig = true))))
  /\ getScoreColor (ExerciseMetrics.currentScore (PoseState.metrics initialStore))
     = "destructive".
Proof.
  split; [|split].
  - intros now landmarks config this this' r H.
    rewrite analyzeSquat_unfold in H. cbv zeta in H.
    destruct (squatSignals (getKeyLandmarks landmarks)) as [sig|e] eqn:Hsig; [|discriminate].
    injection H as _ <-. exists sig. split; [reflexivity|].
    cbn [Analysis.score].
    destruct (squatSignals_coherent _ _ Hsig) as (Hb & Hd & Hl).
    apply squat_score_colour; assumption.
  - intros landmarks config this this' r H.
    rewrite analyzeShoulderAbduction_unfold in H.
    destruct (shoulderSignals (getKeyLandmarks landmarks)) as [sig|e] eqn:Hsig; [|discriminate].
    injection H as _ <-. exists sig. split; [reflexivity|].
    cbn [Analysis.score].
    destruct (shoulderSignals_coherent _ _ Hsig) as (_ & _ & Hd).
    apply shoulder_score_colour; assumption.
  - reflexivity.
Qed.

(* ------------------------------------------------------------------ *)
(** ** More of the theorems above on the test frames *)

(** X8 on a descent and the return to standing. *)
Lemma squat_cycle_within_bound :
  repCount (run newAnalyzer squatCycle)
  <= Z.of_nat (List.length (filter isBottomCall squatCycle)).
Proof.
  apply (proj1 reps_bounded_by_bottom_frames squatCycle).
  repeat (apply Forall_cons; [split; [reflexivity | discriminate]|]).
  apply Forall_nil.
Defined.

(** X24 on arms raised and lowered again. *)
Lemma shoulder_cycle_within_bound :
  repCount (run newAnalyzer shoulderCycle)
  <= 1 + Z.of_nat (List.length (filter isRaisedCall shoulderCycle)).
Proof.
  apply (proj1 shoulder_reps_bounded_by_raised_frames shoulderCycle).
  repeat (apply Forall_cons; [split; [reflexivity | discriminate]|]).
  apply Forall_nil.
Defined.

(** X12 on the standing body. *)
Lemma standingFrame_is_analysed_by_both :
  (exists r, snd (analyzeSquat 1000 standingFrame squatConfig newAnalyzer) = Returned r)
  /\ (exists r, snd (analyzeShoulderAbduction standingFrame shoulderAbductionConfig
                       newAnalyzer) = Returned r).
Proof.
  destruct (frames_by_length 1000 standingFrame squatConfig newAnalyzer)
    as (Hsquat & _).
  destruct (frames_by_length 1000 standingFrame shoulderAbductionConfig newAnalyzer)
    as (Hshoulder & _).
  split.
  - exact (proj1 (Hsquat standingFrame_completeFrame)).
  - exact (proj2 (Hshoulder standingFrame_completeFrame)).
Defined.

(** X17 on a session started at 1000 and ended at 5000. *)
Lemma endSession_on_sessionStore :
  PoseState.sessionStartTime (endSession 5000 sessionStore) = None
  /\ option_map SessionData.totalTime
       (PoseState.sessionData (endSession 5000 sessionStore)) = Some 4000.
Proof.
  destruct (proj1 (endSession_summarises_once 5000 sessionStore) 1000 squat)
    as (H1 & H2); [reflexivity | discriminate | reflexivity |].
  split; [exact H1|]. rewrite H2. reflexivity.
Defined.

(** X20 on the first call on the squat frame. *)
Lemma voice_on_squatFrame :
  exists sig,
    squatSignals (getKeyLandmarks squatFrame) = Returned sig
    /\ (voiceFeedback true 0.7 true onSquatFrame <> None
        <-> true = true /\ (0.7 > 0)%R /\ true = true /\ valgus sig = true)
    /\ (forall u,
        voiceFeedback true 0.7 true onSquatFrame = Some u ->
        u = {| Utterance.text := FeedbackMessage.message msgKneesOut;
               Utterance.volume := 0.7;
               Utterance.rate := 0.9 |}).
Proof.
  exact (proj1 (voice_speaks_the_error_message true 0.7 true)
           _ _ _ _ _ _ squatFrame_first_call).
Defined.

(** X21 on the first call on the squat frame. *)
Lemma overlay_kind_on_squatFrame :
  Forall (fun m => displayedKind (FeedbackMessage.message m) = FeedbackMessage.type m)
    (Analysis.feedback onSquatFrame).
Proof.
  exact (proj1 overlay_kind_of_feedback _ _ _ _ _ _ squatFrame_first_call).
Defined.

(** X25 on the first call on the squat frame. *)
Lemma score_colour_on_squatFrame :
  exists sig,
    squatSignals (getKeyLandmarks squatFrame) = Returned sig
    /\ let colour := getScoreColor (Analysis.score onSquatFrame) in
       let shallow := (90 <= kneeAngle sig < 120)%R in
       let inward := valgus sig = true in
       let leaning := (torsoLean sig > 0.05)%R in
       (colour = "destructive" <-> shallow /\ inward /\ leaning)
       /\ (colour = "health"
           <-> (~ shallow /\ ~ inward) \/ (~ shallow /\ ~ leaning)
               \/ (~ inward /\ ~ leaning)).
Proof.
  exact (proj1 score_colour_of_returned_score _ _ _ _ _ _ squatFrame_first_call).
Defined.
